(** * bgcflow_wrapper: the annotation extractor and the Panoptes poll loop

    A shallow embedding of [src/src/bgcflow/bgcflow.py]: the functions
    [get_all_rules], [get_all_workflows] and the connection loop of
    [snakemake_wrapper].  Python values are modelled as follows.

    - [str] is [string]; [s.startswith(p)], [s[1:]], [s[:i]], [s.rfind(c)]
      and [sep.join(l)] are the functions [startswith], [drop_first],
      [slice_to], [rfind] and [join].
    - what [yaml.safe_load] and [Response.json] return is a [yaml] value.
    - a [dict] keyed by [str] is an association list in insertion order
      ([dict_set] overwrites in place, as Python does).
    - [print] appends a chunk of text to the output; an exception that is
      raised stops the computation and keeps the output written so far. *)

From Stdlib Require Import List String Ascii ZArith Bool Arith Lia.
From Stdlib Require Import DecimalString.
Import ListNotations.

Open Scope string_scope.
Open Scope list_scope.

(** ** Python strings *)

Definition startswith (line p : string) : bool := String.prefix p line.

(** [s[1:]] *)
Definition drop_first (s : string) : string :=
  match s with
  | EmptyString => EmptyString
  | String _ t => t
  end.

(** [s[:i]] for [0 <= i] *)
Definition slice_to (s : string) (i : Z) : string :=
  substring 0 (Z.to_nat i) s.

(** [s[i:]] for [0 <= i] *)
Definition slice_from (s : string) (i : Z) : string :=
  substring (Z.to_nat i) (String.length s - Z.to_nat i) s.

(** [s.rfind(c)] for a one-character [c]: the index of the last
    occurrence, [-1] when there is none. *)
Fixpoint rfind (s : string) (c : ascii) : Z :=
  match s with
  | EmptyString => (-1)%Z
  | String a t =>
      let i := rfind t c in
      if (0 <=? i)%Z then (i + 1)%Z
      else if Ascii.eqb a c then 0%Z else (-1)%Z
  end.

(** [sep.join(l)] *)
Fixpoint join (sep : string) (l : list string) : string :=
  match l with
  | [] => EmptyString
  | [x] => x
  | x :: r => x ++ sep ++ join sep r
  end.

(** [c in s] for a one-character [c] *)
Fixpoint contains (s : string) (c : ascii) : bool :=
  match s with
  | EmptyString => false
  | String a t => Ascii.eqb a c || contains t c
  end.

(** [s.endswith(suf)] *)
Fixpoint endswith (s suf : string) : bool :=
  String.eqb s suf ||
  match s with
  | EmptyString => false
  | String _ t => endswith t suf
  end.

Definition nonempty (s : string) : bool :=
  match s with
  | EmptyString => false
  | String _ _ => true
  end.

(** The line terminator. *)
Definition nl : string := String (ascii_of_nat 10) EmptyString.

(** [str(n)] for an [int] *)
Definition str_of_int (n : Z) : string := NilZero.string_of_int (Z.to_int n).

(** ** Exceptions, results and output *)

Inductive exn : Type :=
| KeyError
| TypeError
| AttributeError
| YAMLError
| OSError.

Inductive outcome (A : Type) : Type :=
| Done (a : A)
| Raised (e : exn).
Arguments Done {A} a.
Arguments Raised {A} e.

(** A computation that prints: the chunks written to standard output, in
    order, and how it ended. *)
Definition io (A : Type) : Type := (list string * outcome A)%type.

Definition ret {A} (a : A) : io A := ([], Done a).

Definition bind {A B} (m : io A) (k : A -> io B) : io B :=
  match m with
  | (out, Done a) => let (out', r) := k a in ((out ++ out')%list, r)
  | (out, Raised e) => (out, Raised e)
  end.

Definition lift {A} (r : outcome A) : io A := ([], r).

(** [print(s)] *)
Definition print (s : string) : io unit := ([(s ++ nl)%string], Done tt).

(** [print(s, end=...)] with an empty terminator *)
Definition print_noend (s : string) : io unit := ([s], Done tt).

(** [try: body except KeyError: handler] *)
Definition try_except_KeyError (body handler : io unit) : io unit :=
  match body with
  | (out, Raised KeyError) => let (out', r) := handler in ((out ++ out')%list, r)
  | other => other
  end.

Declare Scope io_scope.
Delimit Scope io_scope with io.
Notation "x <- m ;; k" := (bind m (fun x => k))
  (at level 61, m at next level, right associativity) : io_scope.
Notation "m ;; k" := (bind m (fun _ => k))
  (at level 61, right associativity) : io_scope.

Fixpoint for_each {A} (l : list A) (body : A -> io unit) : io unit :=
  match l with
  | [] => ret tt
  | x :: r => (body x ;; for_each r body)%io
  end.

(** ** Values of the YAML and JSON parsers *)

#[warnings="-register-all"]
Inductive yaml : Type :=
| YNull
| YBool (b : bool)
| YInt (n : Z)
| YStr (s : string)
| YSeq (l : list yaml)
| YMap (m : list (yaml * yaml)).

(** [k in m] and [m[k]] for a [str] key [k] of a parsed mapping. *)
Fixpoint ymap_get (m : list (yaml * yaml)) (k : string) : option yaml :=
  match m with
  | [] => None
  | (YStr k', v) :: r => if String.eqb k' k then Some v else ymap_get r k
  | _ :: r => ymap_get r k
  end.

(** [v[k]] for a [str] key: only a mapping can be subscripted by a
    string. *)
Definition py_getitem (v : yaml) (k : string) : outcome yaml :=
  match v with
  | YMap m =>
      match ymap_get m k with
      | Some x => Done x
      | None => Raised KeyError
      end
  | _ => Raised TypeError
  end.

(** [v.get(k, None)]: only a mapping has the method. *)
Definition py_get (v : yaml) (k : string) : outcome yaml :=
  match v with
  | YMap m =>
      match ymap_get m k with
      | Some x => Done x
      | None => Done YNull
      end
  | _ => Raised AttributeError
  end.

Fixpoint chars (s : string) : list yaml :=
  match s with
  | EmptyString => []
  | String a t => YStr (String a EmptyString) :: chars t
  end.

(** [for c in v]: the items a value yields when iterated. *)
Definition py_iter (v : yaml) : outcome (list yaml) :=
  match v with
  | YSeq l => Done l
  | YStr s => Done (chars s)
  | YMap m => Done (map fst m)
  | _ => Raised TypeError
  end.

Definition is_None (v : yaml) : bool :=
  match v with
  | YNull => true
  | _ => false
  end.

(** ** Python dictionaries keyed by strings *)

Definition dict (V : Type) : Type := list (string * V).

Fixpoint dict_get {V} (d : dict V) (k : string) : option V :=
  match d with
  | [] => None
  | (k', v) :: r => if String.eqb k' k then Some v else dict_get r k
  end.

(** [d[k] = v] *)
Fixpoint dict_set {V} (d : dict V) (k : string) (v : V) : dict V :=
  match d with
  | [] => [(k, v)]
  | (k', v') :: r =>
      if String.eqb k' k then (k', v) :: r else (k', v') :: dict_set r k v
  end.

(** [d[k]] *)
Definition dict_getitem {V} (d : dict V) (k : string) : outcome V :=
  match dict_get d k with
  | Some v => Done v
  | None => Raised KeyError
  end.

(** ** Relative paths ([pathlib.PurePath])

    A relative path is the list of its components ([PurePath.parts]); the
    last one is the file name. *)

Definition rel_path : Type := list string.

(** [str(p)] *)
Definition path_str (p : rel_path) : string :=
  match p with
  | [] => "."
  | _ => join "/" p
  end.

(** [p.parents[0]] *)
Definition path_parent (p : rel_path) : rel_path := removelast p.

(** [p.name] *)
Definition path_name (p : rel_path) : string := last p EmptyString.

Definition dot : ascii := "."%char.
Definition slash : ascii := "/"%char.

(** [PurePath.suffix] and [PurePath.stem] of a file name: the name is cut
    at its last dot unless that dot is the first or the last character. *)
Definition suffix (name : string) : string :=
  let i := rfind name dot in
  if ((0 <? i) && (i <? Z.of_nat (String.length name) - 1))%Z
  then slice_from name i
  else EmptyString.

Definition stem (name : string) : string :=
  let i := rfind name dot in
  if ((0 <? i) && (i <? Z.of_nat (String.length name) - 1))%Z
  then slice_to name i
  else name.

(** A component that a directory scan can yield. *)
Definition component_ok (c : string) : bool :=
  nonempty c && negb (contains c slash)
  && negb (String.eqb c ".") && negb (String.eqb c "..").

(** No component holds a [/]. *)
Definition slash_free (l : list string) : Prop :=
  forall x, In x l -> contains x slash = false.

(** What [rule_path.rglob("*.smk")] yields, relative to [rule_path]: a
    path of valid components whose file name matches the pattern. *)
Definition rglob_smk (p : rel_path) : bool :=
  nonempty (path_name p) && forallb component_ok p
  && endswith (path_name p) ".smk".

(** The identifier of a rule file, lines 217 to 223 of [get_all_rules]. *)
Definition rule_name_of (rel_rule_file : rel_path) : string :=
  let name := stem (path_name rel_rule_file) in
  let rule_dir := path_str (path_parent rel_rule_file) in
  if String.eqb rule_dir "." then name
  else rule_dir ++ "/" ++ name.

(** ** The scan of the documentation blocks *)

(** The variables of the scanning loop of [get_all_rules] and of
    [get_all_workflows]: the catalogue built so far, and the buffer and
    the capturing flag of the file being read. *)
Record scan_state : Type := mk_scan_state {
  data : dict yaml;
  doc_s : string;
  parse : bool
}.

(** The body of [for line in f], lines 229 to 233 and 302 to 306. *)
Definition line_step (st : scan_state) (line : string) : scan_state :=
  if startswith line "#%" then
    mk_scan_state (data st) (doc_s st) (negb (parse st))
  else if parse st then
    if startswith line "#" then
      mk_scan_state (data st) (doc_s st ++ drop_first line) (parse st)
    else st
  else st.

(** Lines 225 to 233: the buffer is emptied and the flag cleared, then
    the loop over the lines of the file. *)
Definition read_block (st : scan_state) (lines : list string) : scan_state :=
  fold_left line_step lines (mk_scan_state (data st) EmptyString false).

(** The buffer a file leaves, whatever was scanned before it. *)
Definition extract (lines : list string) : string :=
  doc_s (read_block (mk_scan_state [] EmptyString false) lines).

(** A rule file as the scan meets it, once [open] has succeeded and its
    lines have been read as text: where it is below the rules directory,
    and its lines.  The entries that cannot be read are those of
    [found_file], further down. *)
Record rule_file : Type := mk_rule_file {
  rel : rel_path;
  rule_lines : list string
}.

(** An entry of the workflow directory: its name, whether it is a regular
    file, and its lines. *)
Record wf_entry : Type := mk_wf_entry {
  wf_name : string;
  wf_is_file : bool;
  wf_lines : list string
}.

Definition esc : string := String (ascii_of_nat 27) EmptyString.

Definition bold_terminal_text (text : string) : string :=
  esc ++ "[1m" ++ text ++ esc ++ "[0m".

Definition italics_terminal_text (text : string) : string :=
  esc ++ "[3m" ++ text ++ esc ++ "[0m".

Section Catalogue.

(** [yaml.safe_load]: [None] when the text is not valid YAML and the
    parser raises. *)
Variable safe_load : string -> option yaml.

(** [repr] of a value that is not a string. *)
Variable py_repr : yaml -> string.

(** [str(v)], as an f-string and [print] format a value. *)
Definition py_str (v : yaml) : string :=
  match v with
  | YStr s => s
  | _ => py_repr v
  end.

(** Lines 234 to 237 and 307 to 310. *)
Definition load_block (doc : string) : outcome yaml :=
  if nonempty doc then
    match safe_load doc with
    | Some v => Done v
    | None => Raised YAMLError
    end
  else Done (YMap []).

(** One iteration of [for rule_file in rule_path.rglob("*.smk")]. *)
Definition rule_step (st : scan_state) (f : rule_file)
  : outcome scan_state :=
  let rule_name := rule_name_of (rel f) in
  let st' := read_block st (rule_lines f) in
  match load_block (doc_s st') with
  | Done rule_data =>
      Done (mk_scan_state (dict_set (data st') rule_name rule_data)
              (doc_s st') (parse st'))
  | Raised e => Raised e
  end.

Fixpoint scan_rules_from (st : scan_state) (files : list rule_file)
  : outcome scan_state :=
  match files with
  | [] => Done st
  | f :: rest =>
      match rule_step st f with
      | Done st' => scan_rules_from st' rest
      | Raised e => Raised e
      end
  end.

(** Lines 215 to 238: [data = {}] and the loop over the rule files. *)
Definition scan_rules (files : list rule_file) : outcome (dict yaml) :=
  match scan_rules_from (mk_scan_state [] EmptyString false) files with
  | Done st => Done (data st)
  | Raised e => Raised e
  end.

(** One iteration of [for wf_file in wf_path.glob("*")]. *)
Definition wf_step (st : scan_state) (f : wf_entry) : outcome scan_state :=
  if negb (wf_is_file f) || negb (String.eqb (suffix (wf_name f)) EmptyString)
  then Done st
  else
    let name := stem (wf_name f) in
    let st' := read_block st (wf_lines f) in
    match load_block (doc_s st') with
    | Done wf_data =>
        Done (mk_scan_state (dict_set (data st') name wf_data)
                (doc_s st') (parse st'))
    | Raised e => Raised e
    end.

Fixpoint scan_workflows_from (st : scan_state) (files : list wf_entry)
  : outcome scan_state :=
  match files with
  | [] => Done st
  | f :: rest =>
      match wf_step st f with
      | Done st' => scan_workflows_from st' rest
      | Raised e => Raised e
      end
  end.

(** Lines 292 to 311. *)
Definition scan_workflows (files : list wf_entry) : outcome (dict yaml) :=
  match scan_workflows_from (mk_scan_state [] EmptyString false) files with
  | Done st => Done (data st)
  | Raised e => Raised e
  end.

(** *** The reports *)

(** The arguments that are strings, [[r for r in [...] if type(r) is
    str]]. *)
Definition str_args (l : list (option string)) : list string :=
  flat_map (fun o => match o with Some r => [r] | None => [] end) l.

Definition is_str (o : option string) : bool :=
  match o with
  | Some _ => true
  | None => false
  end.

(** Lines 241 to 244 and 315 to 318. *)
Definition describe_entry (data : dict yaml) (describe : option string)
  : io unit :=
  match describe with
  | Some rule_name =>
      (print ("Description for " ++ rule_name ++ ":") ;;
       entry <- lift (dict_getitem data rule_name) ;;
       d <- lift (py_getitem entry "description") ;;
       print (" - " ++ py_str d))%io
  | None => ret tt
  end.

(** Lines 246 to 249. *)
Definition cite_entry (data : dict yaml) (cite : option string) : io unit :=
  match cite with
  | Some rule_name =>
      (print ("Citations for " ++ rule_name ++ ":") ;;
       entry <- lift (dict_getitem data rule_name) ;;
       refs <- lift (py_getitem entry "references") ;;
       items <- lift (py_iter refs) ;;
       for_each items (fun c => print ("- " ++ py_str c)))%io
  | None => ret tt
  end.

(** Lines 255 to 261 and 332 to 338, after the heading. *)
Definition list_entries (data : dict yaml) : io unit :=
  for_each data (fun iv =>
    (descr <- lift (py_get (snd iv) "description") ;;
     if is_None descr then
       print (" - " ++ bold_terminal_text (fst iv))
     else
       (print (" - " ++ bold_terminal_text (fst iv)) ;;
        print ("     " ++ py_str descr)))%io).

(** Lines 240 to 269: the [try] block of [get_all_rules] and its
    [except KeyError] handler. *)
Definition report_rules (data : dict yaml) (describe cite : option string)
  : io unit :=
  try_except_KeyError
    (describe_entry data describe ;;
     cite_entry data cite ;;
     if negb (is_str describe) && negb (is_str cite) then
       (print "Printing available rules:" ;; list_entries data)
     else ret tt)%io
    (print ("ERROR: Cannot find rule "
            ++ py_repr (YSeq (map YStr (str_args [describe; cite])))
            ++ " in dictionary. Find available rules with `bgcflow rules`.")).

Definition no_directory : string :=
  "ERROR: Cannot find BGCFlow directory." ++ nl
  ++ "Point to the right directory using `--bgcflow_dir <destination>` or clone BGCFlow using `bgcflow clone <destination>`.".

(** [get_all_rules]: [rules_dir] is [None] when [workflow/rules] is not
    a directory, else the rule files in the order [rglob] yields them. *)
Definition get_all_rules (rules_dir : option (list rule_file))
    (describe cite : option string) : io unit :=
  match rules_dir with
  | Some files =>
      (data <- lift (scan_rules files) ;;
       report_rules data describe cite)%io
  | None => print no_directory
  end.

(** [wf_path / s] as text, and [open(path)] with the lines read
    ([None] when the file cannot be opened). *)
Variable schema_path : string -> string.
Variable read_lines : string -> option (list string).

(** Lines 321 to 328. *)
Definition config_entry (data : dict yaml) (config : option string)
  : io bool :=
  match config with
  | Some wf_name =>
      (entry <- lift (dict_getitem data wf_name) ;;
       sch <- lift (py_getitem entry "schema") ;;
       schema_file <- lift (match sch with
                            | YStr p => Done (schema_path p)
                            | _ => Raised TypeError
                            end) ;;
       print ("Config schema for " ++ wf_name ++ " [" ++ schema_file ++ "]:") ;;
       ls <- lift (match read_lines schema_file with
                   | Some ls => Done ls
                   | None => Raised OSError
                   end) ;;
       for_each ls print_noend ;;
       ret true)%io
  | None => ret false
  end.

(** Lines 313 to 346: the [try] block of [get_all_workflows]. *)
Definition report_workflows (data : dict yaml)
    (describe config : option string) : io unit :=
  try_except_KeyError
    (describe_entry data describe ;;
     generated <- config_entry data config ;;
     if negb (is_str describe || generated) then
       (print "Printing available workflows:" ;; list_entries data)
     else ret tt)%io
    (print ("ERROR: Cannot find workflow "
            ++ py_repr (YSeq (map YStr (str_args [describe; config])))
            ++ " in dictionary. Find available workflows with `bgcflow workflows`.")).

Definition get_all_workflows (wf_dir : option (list wf_entry))
    (describe config : option string) : io unit :=
  match wf_dir with
  | Some files =>
      (data <- lift (scan_workflows files) ;;
       report_workflows data describe config)%io
  | None => print no_directory
  end.

End Catalogue.

(** ** The extraction as the specification words it *)

Definition is_marker (line : string) : bool := startswith line "#%".

(** The stripped lines, read with the capturing flag: a marker toggles the
    flag and is dropped, a line starting with [#] is kept without its
    first character while the flag is set, any other line is ignored. *)
Fixpoint captured (capturing : bool) (lines : list string) : list string :=
  match lines with
  | [] => []
  | line :: rest =>
      if is_marker line then captured (negb capturing) rest
      else if capturing && startswith line "#" then
        drop_first line :: captured capturing rest
      else captured capturing rest
  end.

(** The same lines, told by position: line [i] is kept when it is not a
    marker, starts with [#], and an odd number of markers precede it. *)
Definition markers_before (lines : list string) (i : nat) : nat :=
  List.length (filter is_marker (firstn i lines)).

Definition kept_at (lines : list string) (il : nat * string) : bool :=
  negb (is_marker (snd il)) && startswith (snd il) "#"
  && Nat.odd (markers_before lines (fst il)).

Definition numbered (k : nat) (lines : list string) : list (nat * string) :=
  combine (seq k (List.length lines)) lines.

Definition kept_lines (lines : list string) : list string :=
  map snd (filter (kept_at lines) (numbered 0 lines)).

Definition count_markers (lines : list string) : nat :=
  List.length (filter is_marker lines).

(** The concatenation of a list of texts. *)
Definition cat (l : list string) : string :=
  fold_right String.append EmptyString l.

Definition starts_hash (line : string) : bool := startswith line "#".

(** ** What the reports print *)

Definition description_header (name : string) : string :=
  ("Description for " ++ name ++ ":") ++ nl.

Definition citations_header (name : string) : string :=
  ("Citations for " ++ name ++ ":") ++ nl.

(** The line of the [except KeyError] handler of [get_all_rules]. *)
Definition cannot_find_rule (py_repr : yaml -> string)
    (names : list string) : string :=
  ("ERROR: Cannot find rule " ++ py_repr (YSeq (map YStr names))
   ++ " in dictionary. Find available rules with `bgcflow rules`.") ++ nl.

(** The line of the [except KeyError] handler of [get_all_workflows]. *)
Definition cannot_find_workflow (py_repr : yaml -> string)
    (names : list string) : string :=
  ("ERROR: Cannot find workflow " ++ py_repr (YSeq (map YStr names))
   ++ " in dictionary. Find available workflows with `bgcflow workflows`.")
  ++ nl.

(** The lookup raised the [KeyError] that the handler reports as "cannot
    find". *)
Definition not_found {A} (m : io A) : Prop := snd m = Raised KeyError.

Definition is_mapping (v : yaml) : bool :=
  match v with
  | YMap _ => true
  | _ => false
  end.

(** The entry has the field. *)
Definition has_field (v : yaml) (field : string) : bool :=
  match v with
  | YMap m =>
      match ymap_get m field with
      | Some _ => true
      | None => false
      end
  | _ => false
  end.

(** The block of the round trip. *)
Definition roundtrip_block (x a b : string) : list string :=
  let q := String (ascii_of_nat 34) EmptyString in
  [ "#%" ++ nl;
    "#description: " ++ q ++ x ++ q ++ nl;
    "#references: [" ++ q ++ a ++ q ++ "," ++ q ++ b ++ q ++ "]" ++ nl;
    "#%" ++ nl ]%string.

Definition roundtrip_text (x a b : string) : string :=
  let q := String (ascii_of_nat 34) EmptyString in
  ("description: " ++ q ++ x ++ q ++ nl)
  ++ ("references: [" ++ q ++ a ++ q ++ "," ++ q ++ b ++ q ++ "]" ++ nl).

(** ** The catalogue, file by file

    What one file contributes, from its own path and lines only, and the
    catalogue gathered from such contributions in scan order. *)

Definition block_of (safe_load : string -> option yaml)
    (lines : list string) : outcome yaml :=
  load_block safe_load (extract lines).

Definition rule_contribution (safe_load : string -> option yaml)
    (f : rule_file) : list (string * outcome yaml) :=
  [(rule_name_of (rel f), block_of safe_load (rule_lines f))].

Definition wf_contribution (safe_load : string -> option yaml)
    (f : wf_entry) : list (string * outcome yaml) :=
  if negb (wf_is_file f) || negb (String.eqb (suffix (wf_name f)) EmptyString)
  then []
  else [(stem (wf_name f), block_of safe_load (wf_lines f))].

Fixpoint gather (d : dict yaml) (cs : list (string * outcome yaml))
  : outcome (dict yaml) :=
  match cs with
  | [] => Done d
  | (k, Done v) :: r => gather (dict_set d k v) r
  | (_, Raised e) :: _ => Raised e
  end.

(** A file whose block is there and is refused by the parser. *)
Definition malformed (safe_load : string -> option yaml)
    (lines : list string) : bool :=
  nonempty (extract lines)
  && match safe_load (extract lines) with
     | Some _ => false
     | None => true
     end.

(** ** The connection loop of [snakemake_wrapper], lines 63 to 78 *)

Module Monitor.

(** What the program does to the outside world. *)
Inductive event : Type :=
| Get                      (* requests.get(.../api/service-info) *)
| Echo (msg : string)      (* click.echo(msg) *)
| Sleep (seconds : Z).     (* time.sleep(seconds) *)

(** What one request meets: a [RequestException] raised by
    [requests.get] or by [item.json()], or the decoded body. *)
Inductive reply : Type :=
| RequestException
| Json (body : yaml).

(** How one pass through the loop body ends. *)
Inductive control : Type :=
| Next (ctr : Z)
| Break
| Escape (e : exn).

(** The loop body, lines 66 to 78, with the counter [ctr]. *)
Definition attempt (r : reply) (ctr : Z) : list event * control :=
  match r with
  | Json body =>
      match py_getitem body "status" with
      | Done status =>
          match status with
          | YStr st =>
              if String.eqb st "running" then
                ([Get; Echo ("Panoptes status: " ++ st)], Break)
              else ([Get; Sleep 1], Next ctr)
          | _ => ([Get; Sleep 1], Next ctr)
          end
      | Raised e => ([Get], Escape e)
      end
  | RequestException =>
      ([Get; Echo ("Retrying to connect: " ++ str_of_int ctr ++ "x");
        Sleep 1], Next (ctr + 1))
  end.

(** [for tries in tries: ...]; [service t] is what the request of pass
    [t] meets. *)
Fixpoint poll (service : nat -> reply) (tries : list nat) (ctr : Z)
  : list event * outcome unit :=
  match tries with
  | [] => ([], Done tt)
  | t :: rest =>
      match attempt (service t) ctr with
      | (ev, Next ctr') =>
          let (ev', r) := poll service rest ctr' in ((ev ++ ev')%list, r)
      | (ev, Break) => (ev, Done tt)
      | (ev, Escape e) => (ev, Raised e)
      end
  end.

(** Lines 63 to 78: [ctr = 1] and [for tries in range(10)]. *)
Definition connect (service : nat -> reply) : list event * outcome unit :=
  let (ev, r) := poll service (seq 0 10) 1 in
  (Echo "Connecting to Panoptes..." :: ev, r).

Definition is_get (e : event) : bool :=
  match e with Get => true | _ => false end.

Definition attempts (ev : list event) : nat :=
  List.length (filter is_get ev).

Definition sleeps (ev : list event) : list Z :=
  flat_map (fun e => match e with Sleep n => [n] | _ => [] end) ev.

(** A pass succeeds when the service reports the status "running". *)
Definition running (r : reply) : bool :=
  match r with
  | Json body =>
      match py_getitem body "status" with
      | Done (YStr st) => String.eqb st "running"
      | _ => false
      end
  | RequestException => false
  end.

(** A pass that raises nothing but a [RequestException]. *)
Definition answers (r : reply) : bool :=
  match r with
  | Json body =>
      match py_getitem body "status" with
      | Done _ => true
      | Raised _ => false
      end
  | RequestException => true
  end.

(** The messages the loop can print. *)
Definition is_retry_msg (e : event) : bool :=
  match e with
  | Echo msg => String.prefix "Retrying to connect: " msg
  | _ => true
  end.

End Monitor.

(** ** Instances to run the catalogue on

    [mini_load] reads a small part of YAML: a block of lines
    [key: "text"], [key: ["a", "b"]] or [key:] followed by items
    [  - "text"], with no escapes in the texts; and a document of one
    line that is a lower-case word or a flow sequence of quoted texts.
    Everything else is refused. [simple_repr] is [repr] on values whose strings need no
    escaping. *)

Module Mini.

Definition dquote : ascii := ascii_of_nat 34.
Definition backslash : ascii := ascii_of_nat 92.
Definition newline : ascii := ascii_of_nat 10.

Fixpoint split_lines (s cur : string) : list string :=
  match s with
  | EmptyString => if nonempty cur then [cur] else []
  | String a t =>
      if Ascii.eqb a newline then cur :: split_lines t EmptyString
      else split_lines t (cur ++ String a EmptyString)
  end.

Fixpoint take_until (c : ascii) (s : string) : option (string * string) :=
  match s with
  | EmptyString => None
  | String a t =>
      if Ascii.eqb a c then Some (EmptyString, t)
      else match take_until c t with
           | Some (x, r) => Some (String a x, r)
           | None => None
           end
  end.

Fixpoint skip_spaces (s : string) : string :=
  match s with
  | String a t => if Ascii.eqb a " " then skip_spaces t else s
  | EmptyString => s
  end.

(** A double-quoted text at the head of [s], and what follows it. *)
Definition quoted (s : string) : option (string * string) :=
  match s with
  | String a t =>
      if Ascii.eqb a dquote then
        match take_until dquote t with
        | Some (x, r) => if contains x backslash then None else Some (x, r)
        | None => None
        end
      else None
  | EmptyString => None
  end.

(** A double-quoted text and nothing but spaces after it. *)
Definition quoted_only (s : string) : option string :=
  match quoted s with
  | Some (x, r) => if nonempty (skip_spaces r) then None else Some x
  | None => None
  end.

(** The items of a flow sequence, after its opening bracket. *)
Fixpoint flow_items (fuel : nat) (s : string) : option (list yaml) :=
  match fuel with
  | O => None
  | S n =>
      match quoted (skip_spaces s) with
      | Some (x, r) =>
          match skip_spaces r with
          | String c t =>
              if Ascii.eqb c "," then
                option_map (cons (YStr x)) (flow_items n t)
              else if Ascii.eqb c "]" then
                if nonempty (skip_spaces t) then None else Some [YStr x]
              else None
          | EmptyString => None
          end
      | None => None
      end
  end.

Definition value (s : string) : option yaml :=
  match s with
  | String c t =>
      if Ascii.eqb c dquote then option_map YStr (quoted_only s)
      else if Ascii.eqb c "[" then
        option_map YSeq (flow_items (String.length s) t)
      else None
  | EmptyString => None
  end.

Definition is_str' (o : option yaml) : bool :=
  match o with Some _ => true | None => false end.

Definition key_char (a : ascii) : bool :=
  let n := nat_of_ascii a in
  (((48 <=? n) && (n <=? 57)) || ((65 <=? n) && (n <=? 90))
   || ((97 <=? n) && (n <=? 122)) || (n =? 95))%nat.

Fixpoint key_ok (k : string) : bool :=
  match k with
  | EmptyString => false
  | String a EmptyString => key_char a
  | String a t => key_char a && key_ok t
  end.

(** Closes the block sequence that is open, if any. *)
Definition close (acc : list (yaml * yaml))
    (pending : option (string * list yaml)) : option (list (yaml * yaml)) :=
  match pending with
  | Some (k, []) => None
  | Some (k, items) => Some (acc ++ [(YStr k, YSeq items)])
  | None => Some acc
  end.

Fixpoint entries (ls : list string) (acc : list (yaml * yaml))
    (pending : option (string * list yaml)) : option (list (yaml * yaml)) :=
  match ls with
  | [] => close acc pending
  | l :: rest =>
      if startswith l "  - " then
        match pending, quoted_only (substring 4 (String.length l - 4) l) with
        | Some (k, items), Some x =>
            entries rest acc (Some (k, items ++ [YStr x]))
        | _, _ => None
        end
      else
        match close acc pending, take_until ":" l with
        | Some acc', Some (k, r) =>
            if key_ok k && negb (is_str' (ymap_get acc' k)) then
              match r with
              | EmptyString => entries rest acc' (Some (k, []))
              | String c v =>
                  if Ascii.eqb c " " then
                    match value (skip_spaces v) with
                    | Some y => entries rest (acc' ++ [(YStr k, y)]) None
                    | None => None
                    end
                  else None
              end
            else None
        | _, _ => None
        end
  end.

Definition lower (a : ascii) : bool :=
  let n := nat_of_ascii a in ((97 <=? n) && (n <=? 122))%nat.

Fixpoint all_lower (s : string) : bool :=
  match s with
  | EmptyString => true
  | String a t => lower a && all_lower t
  end.

(** A lower-case word that YAML reads as a string, not as a boolean or
    as null. *)
Definition plain_word (s : string) : bool :=
  nonempty s && all_lower s
  && negb (existsb (String.eqb s)
             ["null"; "true"; "false"; "yes"; "no"; "on"; "off"]).

Definition mini_load (doc : string) : option yaml :=
  match split_lines doc EmptyString with
  | [l] =>
      if plain_word l then Some (YStr l)
      else if startswith l "[" then value l
      else match entries [l] [] None with
           | Some (e :: m) => Some (YMap (e :: m))
           | _ => None
           end
  | ls =>
      match entries ls [] None with
      | Some (e :: m) => Some (YMap (e :: m))
      | _ => None
      end
  end.

Fixpoint simple_repr (v : yaml) : string :=
  match v with
  | YNull => "None"
  | YBool true => "True"
  | YBool false => "False"
  | YInt n => str_of_int n
  | YStr s => "'" ++ s ++ "'"
  | YSeq l => "[" ++ join ", " (map simple_repr l) ++ "]"
  | YMap m =>
      "{" ++ join ", " (map (fun kv => (simple_repr (fst kv) ++ ": "
                                        ++ simple_repr (snd kv))%string) m)
      ++ "}"
  end.

Definition under_workflow (s : string) : string := "workflow/" ++ s.

Definition no_files (path : string) : option (list string) := None.

End Mini.


(** ** Sample directories *)

Module Sample.

Definition q : string := String Mini.dquote EmptyString.

(** The rule file of the example of the specification. *)
Definition alpha : rule_file :=
  mk_rule_file ["alpha.smk"]
    [ "#%" ++ nl;
      "#description: " ++ q ++ "Runs alpha analysis" ++ q ++ nl;
      "#references:" ++ nl;
      "#  - " ++ q ++ "Alpha et al. 2020" ++ q ++ nl;
      "#%" ++ nl;
      "rule alpha: ..." ++ nl ]%string.

(** A rule file without a block. *)
Definition plain : rule_file :=
  mk_rule_file ["plain.smk"]
    [ "# a comment" ++ nl; "rule plain: ..." ++ nl ]%string.

(** A rule file whose block is not YAML: a flow mapping left open. *)
Definition broken : rule_file :=
  mk_rule_file ["broken.smk"]
    [ "#%" ++ nl; "#{" ++ nl; "#%" ++ nl; "rule broken: ..." ++ nl ]%string.

(** A rule file whose block is a word, not a mapping. *)
Definition wordy : rule_file :=
  mk_rule_file ["wordy.smk"]
    [ "#%" ++ nl; "#hello" ++ nl; "#%" ++ nl; "rule wordy: ..." ++ nl ]%string.

(** A rule file whose block is never closed. *)
Definition unclosed : rule_file :=
  mk_rule_file ["sub"; "unclosed.smk"]
    [ "import os" ++ nl;
      "#%" ++ nl;
      "#description: " ++ q ++ "x" ++ q ++ nl;
      "rule unclosed: ..." ++ nl;
      "#references: [" ++ q ++ "a" ++ q ++ "," ++ q ++ "b" ++ q ++ "]" ++ nl ]%string.

(** The round-trip block between two markers. *)
Definition roundtrip : rule_file :=
  mk_rule_file ["roundtrip.smk"]
    [ "#%" ++ nl;
      "#description: " ++ q ++ "x" ++ q ++ nl;
      "#references: [" ++ q ++ "a" ++ q ++ "," ++ q ++ "b" ++ q ++ "]" ++ nl;
      "#%" ++ nl ]%string.

(** Workflow files. *)
Definition wf_plain : wf_entry :=
  mk_wf_entry "Snakefile" true [ "include: rules" ++ nl ]%string.

Definition wf_broken : wf_entry :=
  mk_wf_entry "BGC" true [ "#%" ++ nl; "#{" ++ nl; "#%" ++ nl ]%string.

Definition wf_described : wf_entry :=
  mk_wf_entry "Report" true
    [ "#%" ++ nl;
      "#description: " ++ q ++ "x" ++ q ++ nl;
      "#%" ++ nl ]%string.

(** A monitoring service that never comes up, and one that is up at the
    third request. *)
Definition never_up (t : nat) : Monitor.reply := Monitor.RequestException.

Definition up_at_third (t : nat) : Monitor.reply :=
  if (t <? 2)%nat then Monitor.RequestException
  else Monitor.Json (YMap [(YStr "status", YStr "running")]).

End Sample.

(** ** The rest of [snakemake_wrapper], lines 24 to 148 *)

(** [s.split(c)[-1]]: what follows the last [c], the whole text when
    there is none. *)
Fixpoint after_last (c : ascii) (s : string) : string :=
  match s with
  | EmptyString => EmptyString
  | String a t =>
      if contains t c then after_last c t
      else if Ascii.eqb a c then t
      else String a t
  end.

Module Wrapper.

(** The keyword arguments the function reads. *)
Record kwargs : Type := mk_kwargs {
  dryrun : bool;
  touch : bool;
  unlock : bool;
  until : option string;
  profile : option string;
  monitor : bool;
  wms_monitor : string;
  bgcflow_dir : string;
  workflow : string;
  cores : Z
}.

(** What the function does to the outside world. *)
Inductive event : Type :=
| Echo (msg : string)        (* click.echo(msg) *)
| Get                        (* requests.get(.../api/service-info) *)
| Sleep (seconds : Z)        (* time.sleep(seconds) *)
| Popen (port : Z)           (* subprocess.Popen(["panoptes", "--port", port]) *)
| Call (command : string)    (* subprocess.call(command, shell=True) *)
| Kill (pid : Z).            (* p.kill() *)

(** How the function can fail. *)
Inductive failure : Type :=
| Exn (e : exn)
| AssertionError (msg : string)
| ValueError.

Inductive result : Type :=
| Ok
| Failed (f : failure).

Inductive step (A : Type) : Type :=
| Go (a : A)
| Stop (f : failure).
Arguments Go {A} a.
Arguments Stop {A} f.

(** What the function meets outside: [int] on a text, the reply to the
    request of line 49 and to the requests of the loop, the process id
    [Popen] gives ([None] when the program cannot be started), the text
    of [Path(dir) / rel], [Path.is_file], and
    [multiprocessing.cpu_count()]. *)
Record world : Type := mk_world {
  py_int : string -> option Z;
  first_reply : Monitor.reply;
  service : nat -> Monitor.reply;
  spawn : option Z;
  path_join : string -> string -> string;
  is_file : string -> bool;
  cpu_count : Z
}.

Definition of_monitor (e : Monitor.event) : event :=
  match e with
  | Monitor.Get => Get
  | Monitor.Echo msg => Echo msg
  | Monitor.Sleep n => Sleep n
  end.

(** Lines 48 to 60: is Panoptes up already; if the request fails, start
    it. The value is the process started, if any. *)
Definition check_panoptes (w : world) (kw : kwargs) (port : Z)
  : list event * step (option Z) :=
  match first_reply w with
  | Monitor.RequestException =>
      match spawn w with
      | Some pid =>
          ([Get;
            Echo ("Running Panoptes to monitor BGCFlow jobs at "
                  ++ wms_monitor kw);
            Popen port;
            Echo ("Panoptes job id: " ++ str_of_int pid)], Go (Some pid))
      | None =>
          ([Get;
            Echo ("Running Panoptes to monitor BGCFlow jobs at "
                  ++ wms_monitor kw)], Stop (Exn OSError))
      end
  | Monitor.Json body =>
      match py_getitem body "status" with
      | Done (YStr st) =>
          if String.eqb st "running" then
            ([Get; Echo ("Panoptes already " ++ st ++ " on " ++ wms_monitor kw)],
             Go None)
          else ([Get], Stop (AssertionError EmptyString))
      | Done _ => ([Get], Stop (AssertionError EmptyString))
      | Raised e => ([Get], Stop (Exn e))
      end
  end.

(** Lines 43 to 78. *)
Definition monitoring (w : world) (kw : kwargs)
  : list event * step (option Z) :=
  if monitor kw then
    match py_int w (after_last ":" (wms_monitor kw)) with
    | None =>
        ([Echo "Monitoring BGCFlow jobs with Panoptes..."], Stop ValueError)
    | Some port =>
        match check_panoptes w kw port with
        | (ev1, Go p) =>
            match Monitor.connect (service w) with
            | (ev2, Done _) =>
                (Echo "Monitoring BGCFlow jobs with Panoptes..."
                 :: ev1 ++ map of_monitor ev2, Go p)
            | (ev2, Raised e) =>
                (Echo "Monitoring BGCFlow jobs with Panoptes..."
                 :: ev1 ++ map of_monitor ev2, Stop (Exn e))
            end
        | (ev1, Stop f) =>
            (Echo "Monitoring BGCFlow jobs with Panoptes..." :: ev1, Stop f)
        end
    end
  else ([], Go None).

Definition valid_workflows : list (string * string) :=
  [ ("Snakefile", "Main BGCFlow snakefile for genome mining");
    ("BGC", "Subworkflow for comparative analysis of BGCs");
    ("Report", "Build a static html report of a BGCFlow run");
    ("Database", "Build a DuckDB database for a BGCFlow run");
    ("Metabase",
     "Run a metabase server for visual exploration of the DuckDB database");
    ("lsabgc",
     "Run population genetic and evolutionary analysis with lsaBGC-Easy.py using BiG-SCAPE output");
    ("ppanggolin",
     "Build pangenome graph and detect region of genome plasticity with PPanGGOLiN") ].

Definition long_names : list string :=
  [ "workflow/Snakefile"; "workflow/BGC"; "workflow/Report";
    "workflow/Database"; "workflow/Metabase"; "workflow/lsabgc";
    "workflow/ppanggolin" ].

Definition short_names : list string :=
  [ "Snakefile"; "BGC"; "Report"; "Database"; "Metabase"; "lsabgc";
    "ppanggolin" ].

(** [x in l] *)
Definition mem (x : string) (l : list string) : bool :=
  existsb (String.eqb x) l.

(** Lines 91 to 113. *)
Definition snakefile_of (w : world) (kw : kwargs) : string :=
  if mem (workflow kw) long_names then
    path_join w (bgcflow_dir kw) (workflow kw)
  else if mem (workflow kw) short_names then
    path_join w (bgcflow_dir kw) ("workflow/" ++ workflow kw)
  else path_join w (bgcflow_dir kw) (workflow kw).

(** The message of the assertion of lines 115 to 119. *)
Definition no_snakefile (snakefile : string) : string :=
  ("Snakefile " ++ snakefile ++ " does not exist. Available workflows are:"
   ++ nl)
  ++ join nl (map (fun kv => (" - " ++ fst kv ++ ": " ++ snd kv)%string)
                valid_workflows).

(** Lines 122 to 133: the notices, and the number of cores to use. *)
Definition settle_cores (w : world) (kw : kwargs) : list event * Z :=
  if (cores kw >? cpu_count w)%Z then
    ([Echo (nl ++ "WARNING: Number of cores inputted ("
            ++ str_of_int (cores kw)
            ++ ") is higher than the number of available cores ("
            ++ str_of_int (cpu_count w) ++ ").");
      Echo ("DEBUG: Setting number of cores to available cores: "
            ++ str_of_int (cpu_count w) ++ nl)],
     cpu_count w)
  else
    ([Echo (nl ++ "DEBUG: Using " ++ str_of_int (cores kw) ++ " out of "
            ++ str_of_int (cpu_count w) ++ " available cores" ++ nl)],
     cores kw).

Definition flag (b : bool) (text : string) : string :=
  if b then text else EmptyString.

Definition opt_flag (name : string) (o : option string) : string :=
  match o with
  | Some v => name ++ " " ++ v
  | None => EmptyString
  end.

(** Line 137, with the flags of lines 26 to 41 and 134 to 136. *)
Definition snakemake_command (kw : kwargs) (snakefile : string) (n : Z)
  : string :=
  "cd " ++ bgcflow_dir kw ++ " && snakemake --snakefile " ++ snakefile
  ++ " --use-conda --keep-going --rerun-incomplete --rerun-triggers mtime -c "
  ++ str_of_int n
  ++ " " ++ flag (dryrun kw) "--dryrun"
  ++ " " ++ flag (touch kw) "--touch"
  ++ " " ++ opt_flag "--until" (until kw)
  ++ " " ++ flag (unlock kw) "--unlock"
  ++ " " ++ opt_flag "--profile" (profile kw)
  ++ " " ++ flag (monitor kw) ("--wms-monitor " ++ wms_monitor kw).

(** Lines 141 to 147. *)
Definition stop_panoptes (p : option Z) : list event :=
  match p with
  | Some pid =>
      [Echo ("Stopping panoptes server: PID " ++ str_of_int pid); Kill pid]
  | None => []
  end.

Definition snakemake_wrapper (w : world) (kw : kwargs)
  : list event * result :=
  match monitoring w kw with
  | (ev, Stop f) => (ev, Failed f)
  | (ev, Go p) =>
      let snakefile := snakefile_of w kw in
      if is_file w snakefile then
        let (notices, n) := settle_cores w kw in
        let command := snakemake_command kw snakefile n in
        ((ev ++ notices
          ++ [Echo ("Running Snakemake with command:" ++ nl ++ command);
              Call command]
          ++ stop_panoptes p)%list, Ok)
      else (ev, Failed (AssertionError (no_snakefile snakefile)))
  end.

Definition calls (ev : list event) : list string :=
  flat_map (fun e => match e with Call c => [c] | _ => [] end) ev.

Definition popens (ev : list event) : list Z :=
  flat_map (fun e => match e with Popen n => [n] | _ => [] end) ev.

Definition kills (ev : list event) : list Z :=
  flat_map (fun e => match e with Kill n => [n] | _ => [] end) ev.

Definition requests (ev : list event) : nat :=
  List.length (filter (fun e => match e with Get => true | _ => false end) ev).

(** The same arguments with another workflow. *)
Definition with_workflow (kw : kwargs) (name : string) : kwargs :=
  mk_kwargs (dryrun kw) (touch kw) (unlock kw) (until kw) (profile kw)
    (monitor kw) (wms_monitor kw) (bgcflow_dir kw) name (cores kw).

End Wrapper.

(** ** Further vocabulary for the properties *)

(** The keys of a dictionary, in its order. *)
Definition keys {V} (d : dict V) : list string := map fst d.

(** The names in the order in which each is first seen, after those
    already [seen]. *)
Fixpoint first_seen (seen ks : list string) : list string :=
  match ks with
  | [] => seen
  | k :: r =>
      if existsb (String.eqb k) seen then first_seen seen r
      else first_seen (seen ++ [k]) r
  end.

(** The entries of the workflow directory that are catalogued. *)
Definition catalogued (f : wf_entry) : bool :=
  wf_is_file f && String.eqb (suffix (wf_name f)) EmptyString.

(** The lines the listing prints for one entry. *)
Definition entry_lines (py_repr : yaml -> string) (iv : string * yaml)
  : list string :=
  match py_get (snd iv) "description" with
  | Done descr =>
      if is_None descr then
        [(" - " ++ bold_terminal_text (fst iv) ++ nl)%string]
      else
        [(" - " ++ bold_terminal_text (fst iv) ++ nl)%string;
         ("     " ++ py_str py_repr descr ++ nl)%string]
  | Raised _ => []
  end.

(** The line the listing prints for the name of an entry. *)
Definition name_line (name : string) : string :=
  (" - " ++ bold_terminal_text name ++ nl)%string.

(** A file without marker lines. *)
Definition undocumented (f : rule_file) : bool :=
  Nat.eqb (count_markers (rule_lines f)) 0.

(** Every entry is the empty mapping. *)
Definition all_empty (d : dict yaml) : Prop :=
  Forall (fun kv => snd kv = YMap []) d.

(** The line [cite] prints for one item. *)
Definition citation_line (py_repr : yaml -> string) (c : yaml) : string :=
  (("- " ++ py_str py_repr c) ++ nl)%string.

(** The header of [config]. *)
Definition config_header (name path : string) : string :=
  ("Config schema for " ++ name ++ " [" ++ path ++ "]:") ++ nl.

(** The message of a retry. *)
Definition retry_msg (ctr : Z) : string :=
  "Retrying to connect: " ++ str_of_int ctr ++ "x".

Definition retries (ev : list Monitor.event) : list string :=
  flat_map (fun e => match e with Monitor.Echo m => [m] | _ => [] end) ev.

Definition is_exception (r : Monitor.reply) : bool :=
  match r with
  | Monitor.RequestException => true
  | Monitor.Json _ => false
  end.

Definition total (l : list Z) : Z := fold_right Z.add 0%Z l.

(** ** The entries of the rules directory, readable or not

    [rule_path.rglob("*.smk")] yields every entry whose name matches the
    pattern, and [get_all_rules] opens each of them without asking
    whether it is a regular file: for a directory, a file that may not be
    read, or a file that does not hold text, [open] or the reading of
    the lines raises (lines 226 to 228), and nothing catches it. *)

Inductive read_error : Type :=
| IsADirectoryError
| PermissionError
| UnicodeDecodeError.

Inductive reading : Type :=
| Text (lines : list string)
| NoText (why : read_error).

Record found_file : Type := mk_found_file {
  found_rel : rel_path;
  found_reading : reading
}.

(** How a scan, or a report after it, ends. *)
Inductive scan_end (A : Type) : Type :=
| Scanned (a : A)
| Stopped (e : exn)
| ReadFailed (why : read_error).
Arguments Scanned {A} a.
Arguments Stopped {A} e.
Arguments ReadFailed {A} why.

Definition of_outcome {A} (r : outcome A) : scan_end A :=
  match r with
  | Done a => Scanned a
  | Raised e => Stopped e
  end.

(** One iteration of the loop of lines 216 to 238 on an entry that may
    not be readable. *)
Definition found_step (safe_load : string -> option yaml)
    (st : scan_state) (f : found_file) : scan_end scan_state :=
  match found_reading f with
  | Text lines =>
      of_outcome (rule_step safe_load st (mk_rule_file (found_rel f) lines))
  | NoText why => ReadFailed why
  end.

Fixpoint scan_found_from (safe_load : string -> option yaml)
    (st : scan_state) (files : list found_file) : scan_end scan_state :=
  match files with
  | [] => Scanned st
  | f :: rest =>
      match found_step safe_load st f with
      | Scanned st' => scan_found_from safe_load st' rest
      | Stopped e => Stopped e
      | ReadFailed why => ReadFailed why
      end
  end.

Definition scan_found (safe_load : string -> option yaml)
    (files : list found_file) : scan_end (dict yaml) :=
  match scan_found_from safe_load (mk_scan_state [] EmptyString false) files
  with
  | Scanned st => Scanned (data st)
  | Stopped e => Stopped e
  | ReadFailed why => ReadFailed why
  end.

(** [get_all_rules] on such a directory: what is printed, and how it
    ends. *)
Definition get_all_rules_found (safe_load : string -> option yaml)
    (py_repr : yaml -> string) (rules_dir : option (list found_file))
    (describe cite : option string) : list string * scan_end unit :=
  match rules_dir with
  | Some files =>
      match scan_found safe_load files with
      | Scanned data =>
          let (out, r) := report_rules py_repr data describe cite in
          (out, of_outcome r)
      | Stopped e => ([], Stopped e)
      | ReadFailed why => ([], ReadFailed why)
      end
  | None => ([(no_directory ++ nl)%string], Scanned tt)
  end.

Definition readable (f : found_file) : bool :=
  match found_reading f with
  | Text _ => true
  | NoText _ => false
  end.

(** An entry that can be read and has no marker line. *)
Definition found_undocumented (f : found_file) : bool :=
  match found_reading f with
  | Text lines => Nat.eqb (count_markers lines) 0
  | NoText _ => false
  end.

(** The entries that can be read, as rule files. *)
Definition texts (files : list found_file) : list rule_file :=
  flat_map (fun f => match found_reading f with
                     | Text lines => [mk_rule_file (found_rel f) lines]
                     | NoText _ => []
                     end) files.

(** Worlds and arguments to run the wrapper on. *)
Module WrapperSample.

Definition decimal (s : string) : option Z :=
  if String.eqb s "5000" then Some 5000%Z else None.

Definition joined (dir rel : string) : string := dir ++ "/" ++ rel.

(** Panoptes is down and comes up at the third request of the loop; the
    Snakefile is there. *)
Definition good_world : Wrapper.world :=
  Wrapper.mk_world decimal Monitor.RequestException Sample.up_at_third
    (Some 4242%Z) joined (fun _ => true) 8%Z.

(** The same, but nothing is a file. *)
Definition no_file_world : Wrapper.world :=
  Wrapper.mk_world decimal Monitor.RequestException Sample.up_at_third
    (Some 4242%Z) joined (fun _ => false) 8%Z.

Definition run_monitored : Wrapper.kwargs :=
  Wrapper.mk_kwargs true false false None None true
    "http://127.0.0.1:5000" "." "Snakefile" 32%Z.

Definition run_plain : Wrapper.kwargs :=
  Wrapper.mk_kwargs false false false None None false
    "http://127.0.0.1:5000" "." "BGC" 4%Z.

(** A service whose reply has no status. *)
Definition no_status (t : nat) : Monitor.reply :=
  if (t <? 1)%nat then Monitor.RequestException
  else Monitor.Json (YMap [(YStr "state", YStr "running")]).

End WrapperSample.

(** * Properties *)

(** ** Strings *)

Lemma append_empty_r (s : string) : (s ++ EmptyString)%string = s.
Proof. induction s as [|a s IH]; simpl; [reflexivity | now rewrite IH]. Qed.

Lemma append_assoc (a b c : string) :
  ((a ++ b) ++ c)%string = (a ++ (b ++ c))%string.
Proof. induction a as [|x a IH]; simpl; [reflexivity | now rewrite IH]. Qed.

Lemma append_length (a b : string) :
  String.length (a ++ b) = String.length a + String.length b.
Proof. induction a as [|x a IH]; simpl; [reflexivity | now rewrite IH]. Qed.

(** ** The extraction loop *)

Section Extraction.

(** The loop from any state: the catalogue is untouched, the buffer
    grows by the captured lines, the flag is toggled once per marker. *)
Lemma count_markers_cons (l : string) (rest : list string) :
  count_markers (l :: rest)
  = if is_marker l then S (count_markers rest) else count_markers rest.
Proof. unfold count_markers. simpl. now destruct (is_marker l). Qed.

Lemma odd_S (n : nat) : Nat.odd (S n) = negb (Nat.odd n).
Proof. now rewrite Nat.odd_succ, <- Nat.negb_odd. Qed.

Lemma fold_line_step (lines : list string) (st : scan_state) :
  fold_left line_step lines st
  = mk_scan_state (data st)
      (doc_s st ++ cat (captured (parse st) lines))
      (xorb (parse st) (Nat.odd (count_markers lines))).
Proof.
  revert st. induction lines as [|line rest IH]; intros [d b p].
  - simpl. now rewrite append_empty_r, xorb_false_r.
  - simpl fold_left. rewrite IH, count_markers_cons.
    unfold line_step. simpl captured.
    change (startswith line "#%") with (is_marker line).
    destruct (is_marker line); simpl.
    + rewrite odd_S. now destruct p, (Nat.odd (count_markers rest)).
    + destruct p; simpl; [|reflexivity].
      destruct (startswith line "#"); simpl; [|reflexivity].
      now rewrite append_assoc.
Qed.

Lemma read_block_eq (st : scan_state) (lines : list string) :
  read_block st lines
  = mk_scan_state (data st) (cat (captured false lines))
      (Nat.odd (count_markers lines)).
Proof. unfold read_block. now rewrite fold_line_step. Qed.

Lemma extract_eq (lines : list string) :
  extract lines = cat (captured false lines).
Proof. unfold extract. now rewrite read_block_eq. Qed.

Lemma numbered_cons (k : nat) (l : string) (rest : list string) :
  numbered k (l :: rest) = (k, l) :: numbered (S k) rest.
Proof. reflexivity. Qed.

Lemma markers_before_app (pre rest : list string) :
  markers_before (pre ++ rest) (List.length pre) = count_markers pre.
Proof.
  unfold markers_before, count_markers.
  now rewrite firstn_app, Nat.sub_diag, firstn_all, app_nil_r.
Qed.

Lemma count_markers_snoc (pre : list string) (l : string) :
  count_markers (pre ++ [l])
  = count_markers pre + (if is_marker l then 1 else 0).
Proof.
  unfold count_markers. rewrite filter_app, length_app. simpl.
  now destruct (is_marker l).
Qed.

(** The flagged reading and the reading by position agree, after any
    lines already read. *)
Lemma captured_by_position (rest pre : list string) :
  captured (Nat.odd (count_markers pre)) rest
  = map drop_first
      (map snd (filter (kept_at (pre ++ rest))
                  (numbered (List.length pre) rest))).
Proof.
  revert pre. induction rest as [|l rest IH]; intros pre; [reflexivity|].
  rewrite numbered_cons. simpl filter.
  unfold kept_at at 1. simpl fst; simpl snd.
  rewrite markers_before_app.
  assert (E : pre ++ l :: rest = (pre ++ [l]) ++ rest)
    by now rewrite <- app_assoc.
  assert (L : S (List.length pre) = List.length (pre ++ [l]))
    by (rewrite length_app; simpl; lia).
  simpl captured. destruct (is_marker l) eqn:Hm; simpl.
  - rewrite E, L, <- IH, count_markers_snoc, Hm.
    now rewrite Nat.add_1_r, odd_S.
  - assert (R : captured (Nat.odd (count_markers pre)) rest
                = map drop_first
                    (map snd (filter (kept_at (pre ++ l :: rest))
                                (numbered (S (List.length pre)) rest)))).
    { rewrite E, L, <- IH, count_markers_snoc, Hm.
      now rewrite Nat.add_0_r. }
    destruct (Nat.odd (count_markers pre)); simpl;
      destruct (startswith l "#"); simpl; now rewrite R.
Qed.

Lemma captured_kept (lines : list string) :
  captured false lines = map drop_first (kept_lines lines).
Proof. exact (captured_by_position lines []). Qed.

Lemma captured_app (b : bool) (l1 l2 : list string) :
  captured b (l1 ++ l2)
  = captured b l1 ++ captured (xorb b (Nat.odd (count_markers l1))) l2.
Proof.
  revert b. induction l1 as [|l l1 IH]; intros b; simpl.
  - now rewrite xorb_false_r.
  - rewrite count_markers_cons. destruct (is_marker l) eqn:Hm; simpl.
    + rewrite IH, odd_S.
      now destruct b, (Nat.odd (count_markers l1)).
    + destruct (b && startswith l "#"); simpl; now rewrite IH.
Qed.

End Extraction.

(** C1: read line by line with the flag starting false, a line starting
    with the marker toggles the flag and is never appended, a line
    starting with [#] read while the flag is set is appended without its
    first character, and every other line is ignored: the buffer the loop
    of [get_all_rules] and [get_all_workflows] leaves is the concatenation
    of exactly those stripped lines, which are the non-marker lines
    starting with [#] that an odd number of markers precede. *)
Theorem C1_buffer_is_the_captured_lines (st : scan_state)
    (lines : list string) :
  let st' :=
    fold_left line_step lines (mk_scan_state (data st) EmptyString false) in
  doc_s st' = cat (captured false lines)
  /\ captured false lines = map drop_first (kept_lines lines)
  /\ parse st' = Nat.odd (count_markers lines)
  /\ data st' = data st.
Proof.
  cbv zeta. rewrite fold_line_step. simpl.
  repeat split. apply captured_kept.
Qed.

(** The example of the specification: the rule file [alpha.smk]. *)

Example alpha_buffer :
  extract (rule_lines Sample.alpha)
  = (("description: " ++ Sample.q ++ "Runs alpha analysis" ++ Sample.q ++ nl)
     ++ ("references:" ++ nl)
     ++ ("  - " ++ Sample.q ++ "Alpha et al. 2020" ++ Sample.q ++ nl))%string.
Proof. reflexivity. Qed.

Example alpha_listed :
  get_all_rules Mini.mini_load Mini.simple_repr (Some [Sample.alpha])
    None None
  = ([("Printing available rules:" ++ nl)%string;
      (" - " ++ bold_terminal_text "alpha" ++ nl)%string;
      ("     Runs alpha analysis" ++ nl)%string], Done tt).
Proof. vm_compute. reflexivity. Qed.

Example alpha_cited :
  get_all_rules Mini.mini_load Mini.simple_repr (Some [Sample.alpha])
    None (Some "alpha")
  = ([citations_header "alpha"; ("- Alpha et al. 2020" ++ nl)%string],
     Done tt).
Proof. vm_compute. reflexivity. Qed.

Example beta_not_found :
  get_all_rules Mini.mini_load Mini.simple_repr (Some [Sample.alpha])
    (Some "beta") None
  = ([description_header "beta";
      ("ERROR: Cannot find rule ['beta'] in dictionary. Find available rules with `bgcflow rules`."
       ++ nl)%string], Done tt).
Proof. vm_compute. reflexivity. Qed.

Example no_rules_directory :
  get_all_rules Mini.mini_load Mini.simple_repr None None None
  = ([(no_directory ++ nl)%string], Done tt).
Proof. reflexivity. Qed.

(** ** Dictionaries *)

Section Dict.
Context {V : Type}.

Lemma dict_get_set_same (d : dict V) (k : string) (v : V) :
  dict_get (dict_set d k v) k = Some v.
Proof.
  induction d as [|[k' v'] d IH]; simpl.
  - now rewrite String.eqb_refl.
  - destruct (String.eqb k' k) eqn:E; simpl; rewrite E; [reflexivity|exact IH].
Qed.

Lemma dict_get_set_other (d : dict V) (k k' : string) (v : V) :
  k <> k' -> dict_get (dict_set d k v) k' = dict_get d k'.
Proof.
  intros N. induction d as [|[k0 v0] d IH]; simpl.
  - apply String.eqb_neq in N. now rewrite N.
  - destruct (String.eqb k0 k) eqn:E; simpl.
    + apply String.eqb_eq in E. subst k0.
      apply String.eqb_neq in N. now rewrite N.
    + now rewrite IH.
Qed.

End Dict.

(** ** The scan *)

Section Scan.

Variable safe_load : string -> option yaml.

Lemma rule_step_eq (st : scan_state) (f : rule_file) :
  rule_step safe_load st f
  = match block_of safe_load (rule_lines f) with
    | Done v =>
        Done (mk_scan_state (dict_set (data st) (rule_name_of (rel f)) v)
                (extract (rule_lines f))
                (Nat.odd (count_markers (rule_lines f))))
    | Raised e => Raised e
    end.
Proof.
  unfold rule_step, block_of. rewrite read_block_eq, extract_eq. reflexivity.
Qed.

Lemma wf_step_eq (st : scan_state) (f : wf_entry) :
  wf_step safe_load st f
  = if negb (wf_is_file f)
       || negb (String.eqb (suffix (wf_name f)) EmptyString)
    then Done st
    else match block_of safe_load (wf_lines f) with
         | Done v =>
             Done (mk_scan_state (dict_set (data st) (stem (wf_name f)) v)
                     (extract (wf_lines f))
                     (Nat.odd (count_markers (wf_lines f))))
         | Raised e => Raised e
         end.
Proof.
  unfold wf_step, block_of. rewrite read_block_eq, extract_eq. reflexivity.
Qed.

Lemma gather_app (d : dict yaml) (c1 c2 : list (string * outcome yaml)) :
  gather d (c1 ++ c2)
  = match gather d c1 with
    | Done d' => gather d' c2
    | Raised e => Raised e
    end.
Proof.
  revert d. induction c1 as [|[k [v|e]] c1 IH]; intros d; simpl; auto.
Qed.

Lemma scan_rules_from_gather (files : list rule_file) (st : scan_state) :
  match scan_rules_from safe_load st files with
  | Done st' => Done (data st')
  | Raised e => Raised e
  end = gather (data st) (flat_map (rule_contribution safe_load) files).
Proof.
  revert st. induction files as [|f rest IH]; intros st; [reflexivity|].
  simpl scan_rules_from. rewrite rule_step_eq. simpl flat_map. simpl gather.
  destruct (block_of safe_load (rule_lines f)) as [v|e]; [|reflexivity].
  now rewrite IH.
Qed.

Lemma scan_rules_gather (files : list rule_file) :
  scan_rules safe_load files
  = gather [] (flat_map (rule_contribution safe_load) files).
Proof. unfold scan_rules. now rewrite scan_rules_from_gather. Qed.

Lemma scan_workflows_from_gather (files : list wf_entry) (st : scan_state) :
  match scan_workflows_from safe_load st files with
  | Done st' => Done (data st')
  | Raised e => Raised e
  end = gather (data st) (flat_map (wf_contribution safe_load) files).
Proof.
  revert st. induction files as [|f rest IH]; intros st; [reflexivity|].
  simpl scan_workflows_from. rewrite wf_step_eq. simpl flat_map.
  unfold wf_contribution at 1.
  destruct (negb (wf_is_file f)
            || negb (String.eqb (suffix (wf_name f)) EmptyString)).
  - simpl. apply IH.
  - simpl. destruct (block_of safe_load (wf_lines f)) as [v|e];
      [|reflexivity].
    now rewrite IH.
Qed.

Lemma scan_workflows_gather (files : list wf_entry) :
  scan_workflows safe_load files
  = gather [] (flat_map (wf_contribution safe_load) files).
Proof. unfold scan_workflows. now rewrite scan_workflows_from_gather. Qed.

(** A contribution that raises makes the whole gathering raise. *)
Lemma gather_raises (cs : list (string * outcome yaml)) (d : dict yaml) :
  (exists k, In (k, Raised YAMLError) cs) ->
  (forall k e, In (k, Raised e) cs -> e = YAMLError) ->
  gather d cs = Raised YAMLError.
Proof.
  revert d. induction cs as [|[k [v|e]] cs IH]; intros d [k0 Hin] Hall.
  - destruct Hin.
  - simpl. apply IH.
    + destruct Hin as [Heq|Hin]; [discriminate|]. now exists k0.
    + intros k1 e1 H1. apply (Hall k1). now right.
  - simpl. f_equal. apply (Hall k). now left.
Qed.

Lemma block_of_raises (lines : list string) (e : exn) :
  block_of safe_load lines = Raised e -> e = YAMLError.
Proof.
  unfold block_of, load_block.
  destruct (nonempty (extract lines)); [|discriminate].
  destruct (safe_load (extract lines)); [discriminate|]. congruence.
Qed.

Lemma malformed_raises (lines : list string) :
  malformed safe_load lines = true ->
  block_of safe_load lines = Raised YAMLError.
Proof.
  unfold malformed, block_of, load_block. intros H.
  apply andb_prop in H as [Hn Hl]. rewrite Hn.
  now destruct (safe_load (extract lines)).
Qed.

Lemma scan_rules_malformed (files : list rule_file) (f : rule_file) :
  In f files -> malformed safe_load (rule_lines f) = true ->
  scan_rules safe_load files = Raised YAMLError.
Proof.
  intros Hin Hbad. rewrite scan_rules_gather. apply gather_raises.
  - exists (rule_name_of (rel f)). apply in_flat_map. exists f. split; auto.
    simpl. left. now rewrite (malformed_raises _ Hbad).
  - intros k e H. apply in_flat_map in H as (g & _ & Hg).
    simpl in Hg. destruct Hg as [Hg|[]]. inversion Hg.
    eapply block_of_raises; eauto.
Qed.

Lemma scan_workflows_malformed (files : list wf_entry) (f : wf_entry) :
  In f files -> wf_is_file f = true -> suffix (wf_name f) = EmptyString ->
  malformed safe_load (wf_lines f) = true ->
  scan_workflows safe_load files = Raised YAMLError.
Proof.
  intros Hin Hfile Hsuf Hbad. rewrite scan_workflows_gather.
  apply gather_raises.
  - exists (stem (wf_name f)). apply in_flat_map. exists f. split; auto.
    unfold wf_contribution. rewrite Hfile, Hsuf. simpl. left.
    now rewrite (malformed_raises _ Hbad).
  - intros k e H. apply in_flat_map in H as (g & _ & Hg).
    unfold wf_contribution in Hg.
    destruct (negb (wf_is_file g)
              || negb (String.eqb (suffix (wf_name g)) EmptyString));
      [destruct Hg|].
    destruct Hg as [Hg|[]]. inversion Hg.
    eapply block_of_raises; eauto.
Qed.

End Scan.

Lemma captured_zero_markers (lines : list string) :
  count_markers lines = 0 -> captured false lines = [].
Proof.
  induction lines as [|l rest IH]; [reflexivity|].
  rewrite count_markers_cons. simpl.
  destruct (is_marker l); [discriminate | exact IH].
Qed.

Lemma captured_true_zero_markers (lines : list string) :
  count_markers lines = 0 ->
  captured true lines = map drop_first (filter starts_hash lines).
Proof.
  induction lines as [|l rest IH]; [reflexivity|].
  rewrite count_markers_cons. simpl. unfold starts_hash at 1.
  destruct (is_marker l); [discriminate|]. intros H.
  destruct (startswith l "#"); simpl; now rewrite (IH H).
Qed.

Lemma marker_line (tail : string) : is_marker ("#%" ++ tail) = true.
Proof. unfold is_marker, startswith. simpl. now destruct tail. Qed.

Lemma extract_closing_marker (lines : list string) (m : string) :
  is_marker m = true -> extract (lines ++ [m]) = extract lines.
Proof.
  intros Hm. rewrite !extract_eq, captured_app. simpl. rewrite Hm.
  now rewrite app_nil_r.
Qed.

(** C6: a file without any marker line leaves an empty buffer, and its
    entry is the empty mapping: no description, no references, no
    schema. *)
Theorem C6_no_marker_gives_the_empty_entry
    (safe_load : string -> option yaml) (lines : list string) :
  count_markers lines = 0 ->
  extract lines = EmptyString
  /\ block_of safe_load lines = Done (YMap [])
  /\ (forall st p,
        rule_step safe_load st (mk_rule_file p lines)
        = Done (mk_scan_state (dict_set (data st) (rule_name_of p) (YMap []))
                  EmptyString false))
  /\ (forall st name,
        suffix name = EmptyString ->
        wf_step safe_load st (mk_wf_entry name true lines)
        = Done (mk_scan_state (dict_set (data st) (stem name) (YMap []))
                  EmptyString false))
  /\ (forall field, py_get (YMap []) field = Done YNull)
  /\ (forall field, py_getitem (YMap []) field = Raised KeyError).
Proof.
  intros Z.
  assert (E : extract lines = EmptyString)
    by now rewrite extract_eq, captured_zero_markers.
  assert (B : block_of safe_load lines = Done (YMap []))
    by (unfold block_of; now rewrite E).
  repeat split; auto.
  - intros st p. rewrite rule_step_eq. simpl. now rewrite B, E, Z.
  - intros st name Hs. rewrite wf_step_eq. simpl. rewrite Hs. simpl.
    now rewrite B, E, Z.
Qed.

Lemma C6_witness :
  count_markers (rule_lines Sample.plain) = 0
  /\ extract (rule_lines Sample.plain) = EmptyString
  /\ rule_step Mini.mini_load (mk_scan_state [] EmptyString false)
       (mk_rule_file ["plain.smk"] (rule_lines Sample.plain))
     = Done (mk_scan_state [("plain", YMap [])] EmptyString false).
Proof.
  split; [reflexivity|].
  destruct (C6_no_marker_gives_the_empty_entry Mini.mini_load
              (rule_lines Sample.plain) eq_refl) as (E & _ & R & _).
  split; [exact E|].
  exact (R (mk_scan_state [] EmptyString false) ["plain.smk"]).
Defined.

(** C5: in a file with exactly one marker line the marker opens the
    capture, every later line starting with [#] goes into the buffer up
    to the end of the file, and the buffer left at the end of the file is
    loaded and stored like any other: what the YAML parser reads from it
    is the entry of the file, which a lookup of its identifier finds and
    [describe] prints from; an empty buffer gives the empty entry; the
    only error the file can cause is the parser refusing the buffer; the
    block that is left open raises nothing, and closing it would change
    nothing. *)
Theorem C5_single_marker_captures_to_the_end
    (safe_load : string -> option yaml) (py_repr : yaml -> string)
    (pre post : list string) (m : string) :
  is_marker m = true -> count_markers pre = 0 -> count_markers post = 0 ->
  let lines := pre ++ m :: post in
  let buffer := cat (map drop_first (filter starts_hash post)) in
  count_markers lines = 1
  /\ (forall st, parse (read_block st pre) = false)
  /\ (forall st, parse (read_block st (pre ++ [m])) = true)
  /\ (forall st, doc_s (read_block st lines) = buffer)
  /\ (forall st, parse (read_block st lines) = true)
  /\ (forall st p,
        rule_step safe_load st (mk_rule_file p lines)
        = match load_block safe_load buffer with
          | Done v =>
              Done (mk_scan_state (dict_set (data st) (rule_name_of p) v)
                      buffer true)
          | Raised e => Raised e
          end)
  /\ block_of safe_load (lines ++ [m]) = block_of safe_load lines
  /\ (forall st p v,
        nonempty buffer = true -> safe_load buffer = Some v ->
        rule_step safe_load st (mk_rule_file p lines)
        = Done (mk_scan_state (dict_set (data st) (rule_name_of p) v)
                  buffer true)
        /\ dict_get (dict_set (data st) (rule_name_of p) v) (rule_name_of p)
           = Some v
        /\ scan_rules safe_load [mk_rule_file p lines]
           = Done [(rule_name_of p, v)])
  /\ (forall p mp d,
        nonempty buffer = true -> safe_load buffer = Some (YMap mp) ->
        ymap_get mp "description" = Some d ->
        get_all_rules safe_load py_repr (Some [mk_rule_file p lines])
          (Some (rule_name_of p)) None
        = ([description_header (rule_name_of p);
            ((" - " ++ py_str py_repr d) ++ nl)%string], Done tt))
  /\ (forall st p,
        nonempty buffer = false ->
        rule_step safe_load st (mk_rule_file p lines)
        = Done (mk_scan_state
                  (dict_set (data st) (rule_name_of p) (YMap []))
                  buffer true))
  /\ (forall st p e,
        rule_step safe_load st (mk_rule_file p lines) = Raised e ->
        e = YAMLError /\ nonempty buffer = true
        /\ safe_load buffer = None).
Proof.
  intros Hm Hpre Hpost lines buffer.
  assert (C : count_markers lines = 1).
  { unfold lines. change (m :: post) with ([m] ++ post).
    rewrite app_assoc. unfold count_markers in *.
    rewrite !filter_app, !length_app, Hpre, Hpost. simpl. now rewrite Hm. }
  assert (E : extract lines = buffer).
  { rewrite extract_eq. unfold lines. rewrite captured_app, Hpre. simpl.
    rewrite Hm, captured_zero_markers by exact Hpre. simpl.
    now rewrite captured_true_zero_markers. }
  assert (R : forall st p,
             rule_step safe_load st (mk_rule_file p lines)
             = match load_block safe_load buffer with
               | Done v =>
                   Done (mk_scan_state
                           (dict_set (data st) (rule_name_of p) v)
                           buffer true)
               | Raised e => Raised e
               end).
  { intros st p. rewrite rule_step_eq. simpl. unfold block_of.
    now rewrite E, C. }
  assert (S : forall p v,
             nonempty buffer = true -> safe_load buffer = Some v ->
             scan_rules safe_load [mk_rule_file p lines]
             = Done [(rule_name_of p, v)]).
  { intros p v Hn Hv. unfold scan_rules. simpl scan_rules_from.
    rewrite R. unfold load_block. now rewrite Hn, Hv. }
  refine (conj C (conj _ (conj _ (conj _ (conj _ (conj R (conj _
            (conj _ (conj _ (conj _ _)))))))))).
  - intros st. rewrite read_block_eq. simpl. now rewrite Hpre.
  - intros st. rewrite read_block_eq. simpl.
    rewrite count_markers_snoc, Hpre, Hm. reflexivity.
  - intros st. rewrite read_block_eq. simpl. now rewrite <- extract_eq.
  - intros st. rewrite read_block_eq. simpl. now rewrite C.
  - unfold block_of. now rewrite extract_closing_marker.
  - intros st p v Hn Hv. refine (conj _ (conj _ (S p v Hn Hv))).
    + rewrite R. unfold load_block. now rewrite Hn, Hv.
    + apply dict_get_set_same.
  - intros p mp d Hn Hv Hd. unfold get_all_rules.
    rewrite (S p (YMap mp) Hn Hv). unfold lift, bind at 1.
    unfold report_rules, describe_entry, dict_getitem.
    cbn [dict_get]. rewrite String.eqb_refl.
    unfold py_getitem. cbv [bind lift print]. rewrite Hd. reflexivity.
  - intros st p Hn. rewrite R. unfold load_block. now rewrite Hn.
  - intros st p e H. rewrite R in H. unfold load_block in H.
    destruct (nonempty buffer); [|discriminate].
    destruct (safe_load buffer); [discriminate|].
    inversion H. now repeat split.
Qed.

Lemma C5_witness :
  scan_rules Mini.mini_load
    [mk_rule_file ["sub"; "unclosed.smk"]
       ([("import os" ++ nl)%string] ++ ("#%" ++ nl)%string
        :: skipn 2 (rule_lines Sample.unclosed))]
  = Done [(rule_name_of ["sub"; "unclosed.smk"],
           YMap [(YStr "description", YStr "x");
                 (YStr "references", YSeq [YStr "a"; YStr "b"])])]
  /\ get_all_rules Mini.mini_load Mini.simple_repr
       (Some [mk_rule_file ["sub"; "unclosed.smk"]
                ([("import os" ++ nl)%string] ++ ("#%" ++ nl)%string
                 :: skipn 2 (rule_lines Sample.unclosed))])
       (Some (rule_name_of ["sub"; "unclosed.smk"])) None
     = ([description_header (rule_name_of ["sub"; "unclosed.smk"]);
         ((" - " ++ py_str Mini.simple_repr (YStr "x")) ++ nl)%string],
        Done tt).
Proof.
  pose proof (C5_single_marker_captures_to_the_end Mini.mini_load
                Mini.simple_repr
                [("import os" ++ nl)%string]
                (skipn 2 (rule_lines Sample.unclosed))
                ("#%" ++ nl)%string eq_refl eq_refl eq_refl) as H.
  cbv zeta in H.
  destruct H as (_ & _ & _ & _ & _ & _ & _ & S & D & _).
  split.
  - apply (S (mk_scan_state [] EmptyString false) ["sub"; "unclosed.smk"]
             (YMap [(YStr "description", YStr "x");
                    (YStr "references", YSeq [YStr "a"; YStr "b"])])).
    + reflexivity.
    + vm_compute. reflexivity.
  - apply (D ["sub"; "unclosed.smk"]
             [(YStr "description", YStr "x");
              (YStr "references", YSeq [YStr "a"; YStr "b"])]
             (YStr "x")).
    + reflexivity.
    + vm_compute. reflexivity.
    + reflexivity.
Defined.

Example unclosed_is_catalogued :
  scan_rules Mini.mini_load [Sample.unclosed]
  = Done [("sub/unclosed",
           YMap [(YStr "description", YStr "x");
                 (YStr "references", YSeq [YStr "a"; YStr "b"])])].
Proof. vm_compute. reflexivity. Qed.

(** C2, as the code has it: a block that is there and is not valid YAML
    makes [yaml.safe_load] raise inside the scanning loop, where nothing
    catches it.  The scan stops there, no catalogue is built, and
    [get_all_rules] and [get_all_workflows] end with that error before
    they print anything, whatever the other files hold. *)
Theorem C2_parse_error_aborts_the_whole_scan
    (safe_load : string -> option yaml) (py_repr : yaml -> string)
    (schema_path : string -> string)
    (read_lines : string -> option (list string)) :
  (forall files f describe cite,
      In f files -> malformed safe_load (rule_lines f) = true ->
      scan_rules safe_load files = Raised YAMLError
      /\ get_all_rules safe_load py_repr (Some files) describe cite
         = ([], Raised YAMLError))
  /\ (forall wfs w describe config,
        In w wfs -> wf_is_file w = true -> suffix (wf_name w) = EmptyString ->
        malformed safe_load (wf_lines w) = true ->
        scan_workflows safe_load wfs = Raised YAMLError
        /\ get_all_workflows safe_load py_repr schema_path read_lines
             (Some wfs) describe config
           = ([], Raised YAMLError)).
Proof.
  split.
  - intros files f describe cite Hin Hbad.
    pose proof (scan_rules_malformed safe_load files f Hin Hbad) as E.
    split; [exact E|]. unfold get_all_rules. now rewrite E.
  - intros wfs w describe config Hin Hf Hs Hbad.
    pose proof (scan_workflows_malformed safe_load wfs w Hin Hf Hs Hbad) as E.
    split; [exact E|]. unfold get_all_workflows. now rewrite E.
Qed.

Lemma C2_witness :
  get_all_rules Mini.mini_load Mini.simple_repr
    (Some [Sample.alpha; Sample.broken; Sample.plain]) None None
  = ([], Raised YAMLError)
  /\ get_all_workflows Mini.mini_load Mini.simple_repr Mini.under_workflow
       Mini.no_files (Some [Sample.wf_plain; Sample.wf_broken]) None None
     = ([], Raised YAMLError).
Proof.
  destruct (C2_parse_error_aborts_the_whole_scan Mini.mini_load
              Mini.simple_repr Mini.under_workflow Mini.no_files)
    as [R W].
  split.
  - apply (R [Sample.alpha; Sample.broken; Sample.plain] Sample.broken).
    + simpl. auto.
    + vm_compute. reflexivity.
  - apply (W [Sample.wf_plain; Sample.wf_broken] Sample.wf_broken).
    + simpl. auto.
    + reflexivity.
    + vm_compute. reflexivity.
    + vm_compute. reflexivity.
Defined.

(** C2 as the specification states it fails: with a rule file whose block is an unclosed flow
    mapping between two well-formed files, the scan yields no catalogue
    at all, so no entry of the other files is produced; without that file
    the same directory is catalogued. *)
Lemma C2_counterexample :
  nonempty (extract (rule_lines Sample.broken)) = true
  /\ Mini.mini_load (extract (rule_lines Sample.broken)) = None
  /\ ~ (exists d,
          scan_rules Mini.mini_load
            [Sample.alpha; Sample.broken; Sample.plain] = Done d)
  /\ scan_rules Mini.mini_load [Sample.alpha; Sample.plain]
     = Done [("alpha",
              YMap [(YStr "description", YStr "Runs alpha analysis");
                    (YStr "references", YSeq [YStr "Alpha et al. 2020"])]);
             ("plain", YMap [])].
Proof.
  split; [reflexivity|]. split; [vm_compute; reflexivity|]. split.
  - intros [d H]. vm_compute in H. discriminate.
  - vm_compute. reflexivity.
Qed.

(** ** Independence of the files *)

Lemma gather_lookup (c2 : list (string * outcome yaml))
    (d d' : dict yaml) (k : string) (v : yaml) :
  dict_get d k = Some v ->
  (forall k' r, In (k', r) c2 -> k' <> k) ->
  gather d c2 = Done d' -> dict_get d' k = Some v.
Proof.
  revert d. induction c2 as [|[k0 [v0|e0]] c2 IH]; intros d Hd Hne Hg.
  - simpl in Hg. now inversion Hg; subst.
  - simpl in Hg. apply (IH (dict_set d k0 v0)); auto.
    + rewrite dict_get_set_other; [exact Hd|].
      apply (Hne k0 (Done v0)). now left.
    + intros k' r Hin. apply (Hne k' r). now right.
  - discriminate.
Qed.

Lemma gather_done_prefix (c1 c2 : list (string * outcome yaml))
    (d d' : dict yaml) :
  gather d (c1 ++ c2) = Done d' ->
  exists d1, gather d c1 = Done d1 /\ gather d1 c2 = Done d'.
Proof.
  rewrite gather_app. destruct (gather d c1) as [d1|e]; [|discriminate].
  intros H. now exists d1.
Qed.

(** C9: the buffer and the flag are set afresh for every file, so a step
    of either scanning loop does not depend on what the file before left
    in them; the catalogue is gathered from contributions that each
    depend on one file's path and lines only; scans of the same contents
    in the same order give the same catalogue; a block left open in one
    file changes nothing, neither for that file nor for the files after
    it; and the entry a file ends up with is the one loaded from its own
    lines. *)
Theorem C9_files_are_read_independently
    (safe_load : string -> option yaml) :
  (forall d b p f,
      rule_step safe_load (mk_scan_state d b p) f
      = rule_step safe_load (mk_scan_state d EmptyString false) f)
  /\ (forall d b p w,
        wf_step safe_load (mk_scan_state d b p) w
        = if negb (wf_is_file w)
             || negb (String.eqb (suffix (wf_name w)) EmptyString)
          then Done (mk_scan_state d b p)
          else wf_step safe_load (mk_scan_state d EmptyString false) w)
  /\ (forall files,
        scan_rules safe_load files
        = gather [] (flat_map (rule_contribution safe_load) files))
  /\ (forall wfs,
        scan_workflows safe_load wfs
        = gather [] (flat_map (wf_contribution safe_load) wfs))
  /\ (forall files1 files2,
        map (fun f => (rule_name_of (rel f), rule_lines f)) files1
        = map (fun f => (rule_name_of (rel f), rule_lines f)) files2 ->
        scan_rules safe_load files1 = scan_rules safe_load files2)
  /\ (forall pre p lines tail post,
        scan_rules safe_load
          (pre ++ mk_rule_file p (lines ++ [("#%" ++ tail)%string]) :: post)
        = scan_rules safe_load (pre ++ mk_rule_file p lines :: post))
  /\ (forall pre f post d,
        scan_rules safe_load (pre ++ f :: post) = Done d ->
        (forall g, In g post ->
                   rule_name_of (rel g) <> rule_name_of (rel f)) ->
        exists v, block_of safe_load (rule_lines f) = Done v
                  /\ dict_get d (rule_name_of (rel f)) = Some v).
Proof.
  refine (conj _ (conj _ (conj _ (conj _ (conj _ (conj _ _)))))).
  - intros d b p f. now rewrite !rule_step_eq.
  - intros d b p w. rewrite !wf_step_eq.
    now destruct (negb (wf_is_file w)
                  || negb (String.eqb (suffix (wf_name w)) EmptyString)).
  - apply scan_rules_gather.
  - apply scan_workflows_gather.
  - intros files1 files2 H. rewrite !scan_rules_gather. f_equal.
    revert files2 H. induction files1 as [|f1 r1 IH]; intros [|f2 r2] H;
      try discriminate; [reflexivity|].
    simpl in H. inversion H as [[Hn Hl Hr]].
    change (rule_contribution safe_load f1
              ++ flat_map (rule_contribution safe_load) r1
            = rule_contribution safe_load f2
              ++ flat_map (rule_contribution safe_load) r2).
    rewrite (IH r2 Hr). unfold rule_contribution. now rewrite Hn, Hl.
  - intros pre p lines tail post. rewrite !scan_rules_gather.
    rewrite !flat_map_app.
    change (flat_map (rule_contribution safe_load)
              (mk_rule_file p (lines ++ [("#%" ++ tail)%string]) :: post))
      with ((rule_name_of p,
             block_of safe_load (lines ++ [("#%" ++ tail)%string]))
            :: flat_map (rule_contribution safe_load) post).
    unfold block_of at 1.
    rewrite (extract_closing_marker lines _ (marker_line tail)).
    reflexivity.
  - intros pre f post d H Hne. rewrite scan_rules_gather in H.
    rewrite flat_map_app in H.
    apply gather_done_prefix in H as (d1 & _ & H).
    change (gather d1
              ((rule_name_of (rel f), block_of safe_load (rule_lines f))
               :: flat_map (rule_contribution safe_load) post) = Done d)
      in H.
    simpl gather in H.
    destruct (block_of safe_load (rule_lines f)) as [v|e]; [|discriminate].
    exists v. split; [reflexivity|].
    apply (gather_lookup _ _ _ _ _ (dict_get_set_same d1 _ v)) in H; auto.
    intros k' r Hin. apply in_flat_map in Hin as (g & Hg & Hin).
    simpl in Hin. destruct Hin as [Hin|[]]. inversion Hin; subst.
    now apply Hne.
Qed.

Lemma C9_witness :
  scan_rules Mini.mini_load [Sample.unclosed; Sample.alpha; Sample.plain]
  = scan_rules Mini.mini_load
      [mk_rule_file (rel Sample.unclosed)
         (rule_lines Sample.unclosed ++ [("#%" ++ nl)%string]);
       Sample.alpha; Sample.plain]
  /\ exists v,
       block_of Mini.mini_load (rule_lines Sample.alpha) = Done v
       /\ dict_get
            [("sub/unclosed",
              YMap [(YStr "description", YStr "x");
                    (YStr "references", YSeq [YStr "a"; YStr "b"])]);
             ("alpha",
              YMap [(YStr "description", YStr "Runs alpha analysis");
                    (YStr "references", YSeq [YStr "Alpha et al. 2020"])]);
             ("plain", YMap [])]
            (rule_name_of (rel Sample.alpha)) = Some v.
Proof.
  destruct (C9_files_are_read_independently Mini.mini_load)
    as (_ & _ & _ & _ & _ & Hclose & Hentry).
  split.
  - symmetry.
    exact (Hclose [] (rel Sample.unclosed) (rule_lines Sample.unclosed) nl
             [Sample.alpha; Sample.plain]).
  - apply (Hentry [Sample.unclosed] Sample.alpha [Sample.plain]).
    + vm_compute. reflexivity.
    + intros g [<-|[]]. vm_compute. discriminate.
Defined.

(** ** The reports *)

Section Reports.

Variable py_repr : yaml -> string.

Lemma describe_entry_eq (data : dict yaml) (name : string) :
  describe_entry py_repr data (Some name)
  = match dict_get data name with
    | None => ([description_header name], Raised KeyError)
    | Some entry =>
        match py_getitem entry "description" with
        | Done d =>
            ([description_header name; ((" - " ++ py_str py_repr d) ++ nl)%string],
             Done tt)
        | Raised e => ([description_header name], Raised e)
        end
    end.
Proof.
  unfold describe_entry, dict_getitem, description_header.
  destruct (dict_get data name) as [entry|]; simpl; [|reflexivity].
  destruct (py_getitem entry "description"); reflexivity.
Qed.

Lemma cite_entry_eq (data : dict yaml) (name : string) :
  cite_entry py_repr data (Some name)
  = match dict_get data name with
    | None => ([citations_header name], Raised KeyError)
    | Some entry =>
        match py_getitem entry "references" with
        | Done refs =>
            match py_iter refs with
            | Done items =>
                let (out, r) :=
                  for_each items
                    (fun c => print ("- " ++ py_str py_repr c)) in
                (citations_header name :: out, r)
            | Raised e => ([citations_header name], Raised e)
            end
        | Raised e => ([citations_header name], Raised e)
        end
    end.
Proof.
  unfold cite_entry, dict_getitem, citations_header.
  destruct (dict_get data name) as [entry|]; simpl; [|reflexivity].
  destruct (py_getitem entry "references") as [refs|e]; simpl;
    [|reflexivity].
  destruct (py_iter refs) as [items|e]; simpl; [|reflexivity].
  now destruct (for_each items _).
Qed.

Lemma for_each_print_done {A} (items : list A) (f : A -> string) :
  for_each items (fun c => print (f c))
  = (map (fun c => (f c ++ nl)%string) items, Done tt).
Proof.
  induction items as [|c items IH]; [reflexivity|].
  simpl. unfold bind. simpl. now rewrite IH.
Qed.

Lemma py_getitem_key_error (entry : yaml) (field : string) :
  py_getitem entry field = Raised KeyError
  <-> is_mapping entry = true /\ has_field entry field = false.
Proof.
  destruct entry; simpl; try (split; [discriminate | intros [? ?]; discriminate]).
  destruct (ymap_get m field); split; try discriminate; auto.
  intros [_ ?]; discriminate.
Qed.

Lemma describe_not_found (data : dict yaml) (name : string) :
  not_found (describe_entry py_repr data (Some name))
  <-> dict_get data name = None
      \/ exists entry, dict_get data name = Some entry
                       /\ is_mapping entry = true
                       /\ has_field entry "description" = false.
Proof.
  unfold not_found. rewrite describe_entry_eq.
  destruct (dict_get data name) as [entry|]; simpl.
  - split.
    + intros H. right. exists entry. split; [reflexivity|].
      apply py_getitem_key_error.
      destruct (py_getitem entry "description"); simpl in H; [discriminate|].
      now inversion H.
    + intros [H|(e & He & H)]; [discriminate|]. inversion He; subst e.
      apply py_getitem_key_error in H. now rewrite H.
  - split; auto.
Qed.

Lemma cite_not_found (data : dict yaml) (name : string) :
  not_found (cite_entry py_repr data (Some name))
  <-> dict_get data name = None
      \/ exists entry, dict_get data name = Some entry
                       /\ is_mapping entry = true
                       /\ has_field entry "references" = false.
Proof.
  unfold not_found. rewrite cite_entry_eq.
  destruct (dict_get data name) as [entry|]; simpl.
  - split.
    + intros H. right. exists entry. split; [reflexivity|].
      apply py_getitem_key_error.
      destruct (py_getitem entry "references") as [refs|e]; simpl in H;
        [|now inversion H].
      destruct (py_iter refs) as [items|e] eqn:Hi; simpl in H.
      * rewrite for_each_print_done in H. discriminate.
      * destruct refs; simpl in Hi; try discriminate; inversion Hi; subst;
          discriminate.
    + intros [H|(e & He & H)]; [discriminate|]. inversion He; subst e.
      apply py_getitem_key_error in H. now rewrite H.
  - split; auto.
Qed.

Lemma report_rules_describe_not_found (data : dict yaml) (name : string) :
  not_found (describe_entry py_repr data (Some name)) ->
  report_rules py_repr data (Some name) None
  = ([description_header name; cannot_find_rule py_repr [name]], Done tt).
Proof.
  unfold not_found, report_rules. intros H.
  destruct (describe_entry py_repr data (Some name)) as [out r] eqn:E.
  simpl in H. subst r. rewrite describe_entry_eq in E.
  assert (out = [description_header name]) as ->.
  { destruct (dict_get data name) as [entry|]; [|now inversion E].
    destruct (py_getitem entry "description"); now inversion E. }
  reflexivity.
Qed.

Lemma report_rules_cite_not_found (data : dict yaml) (name : string) :
  not_found (cite_entry py_repr data (Some name)) ->
  report_rules py_repr data None (Some name)
  = ([citations_header name; cannot_find_rule py_repr [name]], Done tt).
Proof.
  unfold not_found, report_rules. intros H.
  destruct (cite_entry py_repr data (Some name)) as [out r] eqn:E.
  simpl in H. subst r. rewrite cite_entry_eq in E.
  assert (out = [citations_header name]) as ->.
  { destruct (dict_get data name) as [entry|]; [|now inversion E].
    destruct (py_getitem entry "references") as [refs|e];
      [|now inversion E].
    destruct (py_iter refs) as [items|e]; [|now inversion E].
    rewrite for_each_print_done in E. inversion E. }
  reflexivity.
Qed.

Variable schema_path : string -> string.
Variable read_lines : string -> option (list string).

Lemma report_workflows_describe_not_found (data : dict yaml)
    (name : string) :
  not_found (describe_entry py_repr data (Some name)) ->
  report_workflows py_repr schema_path read_lines data (Some name) None
  = ([description_header name; cannot_find_workflow py_repr [name]],
     Done tt).
Proof.
  unfold not_found, report_workflows. intros H.
  destruct (describe_entry py_repr data (Some name)) as [out r] eqn:E.
  simpl in H. subst r. rewrite describe_entry_eq in E.
  assert (out = [description_header name]) as ->.
  { destruct (dict_get data name) as [entry|]; [|now inversion E].
    destruct (py_getitem entry "description"); now inversion E. }
  reflexivity.
Qed.

End Reports.

(** C3, as the code has it: on a catalogue whatever its entries,
    describing a name raises the [KeyError] reported as "cannot find"
    exactly when the name is absent or its entry is a mapping without a
    [description]; printing the citations of a name does so exactly when
    the name is absent or its entry is a mapping without [references].
    In each case the handler prints one and the same line, made from the
    requested name only, after the header, for rules and for workflows
    alike. *)
Theorem C3_cannot_find_name_or_field
    (py_repr : yaml -> string) (schema_path : string -> string)
    (read_lines : string -> option (list string))
    (data : dict yaml) (name : string) :
  (not_found (describe_entry py_repr data (Some name))
   <-> dict_get data name = None
       \/ exists entry, dict_get data name = Some entry
                        /\ is_mapping entry = true
                        /\ has_field entry "description" = false)
  /\ (not_found (cite_entry py_repr data (Some name))
      <-> dict_get data name = None
          \/ exists entry, dict_get data name = Some entry
                           /\ is_mapping entry = true
                           /\ has_field entry "references" = false)
  /\ (not_found (describe_entry py_repr data (Some name)) ->
      report_rules py_repr data (Some name) None
      = ([description_header name; cannot_find_rule py_repr [name]],
         Done tt))
  /\ (not_found (cite_entry py_repr data (Some name)) ->
      report_rules py_repr data None (Some name)
      = ([citations_header name; cannot_find_rule py_repr [name]],
         Done tt))
  /\ (not_found (describe_entry py_repr data (Some name)) ->
      report_workflows py_repr schema_path read_lines data (Some name) None
      = ([description_header name; cannot_find_workflow py_repr [name]],
         Done tt)).
Proof.
  refine (conj _ (conj _ (conj _ (conj _ _)))).
  - apply describe_not_found.
  - apply cite_not_found.
  - apply report_rules_describe_not_found.
  - apply report_rules_cite_not_found.
  - apply report_workflows_describe_not_found.
Qed.

Lemma C3_witness :
  report_rules Mini.simple_repr [("alpha", YMap [])] (Some "beta") None
  = ([description_header "beta";
      cannot_find_rule Mini.simple_repr ["beta"]], Done tt)
  /\ report_rules Mini.simple_repr [("alpha", YMap [])] (Some "alpha") None
     = ([description_header "alpha";
         cannot_find_rule Mini.simple_repr ["alpha"]], Done tt).
Proof.
  split.
  - destruct (C3_cannot_find_name_or_field Mini.simple_repr
                Mini.under_workflow Mini.no_files [("alpha", YMap [])] "beta")
      as (D & _ & R & _).
    apply R, D. now left.
  - destruct (C3_cannot_find_name_or_field Mini.simple_repr
                Mini.under_workflow Mini.no_files [("alpha", YMap [])] "alpha")
      as (D & _ & R & _).
    apply R, D. right. exists (YMap []). now repeat split.
Defined.

(** C3 as the specification states it fails: a rule file whose block is the word [hello] is
    catalogued with a string as its entry; that entry has no description
    field, yet describing it does not end in "cannot find": subscripting
    the string raises a [TypeError], which nothing catches. *)
Lemma C3_counterexample :
  scan_rules Mini.mini_load [Sample.wordy] = Done [("wordy", YStr "hello")]
  /\ has_field (YStr "hello") "description" = false
  /\ ~ not_found
         (describe_entry Mini.simple_repr [("wordy", YStr "hello")]
            (Some "wordy"))
  /\ get_all_rules Mini.mini_load Mini.simple_repr (Some [Sample.wordy])
       (Some "wordy") None
     = ([description_header "wordy"], Raised TypeError)
  /\ get_all_rules Mini.mini_load Mini.simple_repr (Some [Sample.wordy])
       None (Some "wordy")
     = ([citations_header "wordy"], Raised TypeError).
Proof.
  split; [vm_compute; reflexivity|]. split; [reflexivity|]. split.
  - unfold not_found. vm_compute. discriminate.
  - split; vm_compute; reflexivity.
Qed.

(** C10: the header naming the requested identifier is the first thing
    [describe] and [cite] print, before the identifier is looked up; so
    when the lookup fails with the [KeyError] of "cannot find", the
    output of [get_all_rules] and of [get_all_workflows] is the header
    followed by the error line. *)
Theorem C10_header_is_printed_before_the_lookup
    (safe_load : string -> option yaml) (py_repr : yaml -> string)
    (schema_path : string -> string)
    (read_lines : string -> option (list string)) :
  (forall data name, exists out,
      fst (describe_entry py_repr data (Some name))
      = description_header name :: out)
  /\ (forall data name, exists out,
        fst (cite_entry py_repr data (Some name))
        = citations_header name :: out)
  /\ (forall files data name,
        scan_rules safe_load files = Done data ->
        not_found (describe_entry py_repr data (Some name)) ->
        get_all_rules safe_load py_repr (Some files) (Some name) None
        = ([description_header name; cannot_find_rule py_repr [name]],
           Done tt))
  /\ (forall files data name,
        scan_rules safe_load files = Done data ->
        not_found (cite_entry py_repr data (Some name)) ->
        get_all_rules safe_load py_repr (Some files) None (Some name)
        = ([citations_header name; cannot_find_rule py_repr [name]],
           Done tt))
  /\ (forall wfs data name,
        scan_workflows safe_load wfs = Done data ->
        not_found (describe_entry py_repr data (Some name)) ->
        get_all_workflows safe_load py_repr schema_path read_lines
          (Some wfs) (Some name) None
        = ([description_header name; cannot_find_workflow py_repr [name]],
           Done tt)).
Proof.
  refine (conj _ (conj _ (conj _ (conj _ _)))).
  - intros data name. rewrite describe_entry_eq.
    destruct (dict_get data name) as [entry|]; [|now eexists].
    destruct (py_getitem entry "description"); now eexists.
  - intros data name. rewrite cite_entry_eq.
    destruct (dict_get data name) as [entry|]; [|now eexists].
    destruct (py_getitem entry "references") as [refs|e]; [|now eexists].
    destruct (py_iter refs) as [items|e]; [|now eexists].
    destruct (for_each items _). now eexists.
  - intros files data name Hs Hn. unfold get_all_rules. rewrite Hs.
    unfold lift, bind.
    now rewrite (report_rules_describe_not_found py_repr data name Hn).
  - intros files data name Hs Hn. unfold get_all_rules. rewrite Hs.
    unfold lift, bind.
    now rewrite (report_rules_cite_not_found py_repr data name Hn).
  - intros wfs data name Hs Hn. unfold get_all_workflows. rewrite Hs.
    unfold lift, bind.
    now rewrite (report_workflows_describe_not_found py_repr schema_path
                   read_lines data name Hn).
Qed.

Lemma C10_witness :
  get_all_rules Mini.mini_load Mini.simple_repr (Some [Sample.alpha])
    (Some "beta") None
  = ([description_header "beta";
      cannot_find_rule Mini.simple_repr ["beta"]], Done tt)
  /\ get_all_rules Mini.mini_load Mini.simple_repr (Some [Sample.plain])
       None (Some "plain")
     = ([citations_header "plain";
         cannot_find_rule Mini.simple_repr ["plain"]], Done tt)
  /\ get_all_workflows Mini.mini_load Mini.simple_repr Mini.under_workflow
       Mini.no_files (Some [Sample.wf_plain]) (Some "BGC") None
     = ([description_header "BGC";
         cannot_find_workflow Mini.simple_repr ["BGC"]], Done tt).
Proof.
  destruct (C10_header_is_printed_before_the_lookup Mini.mini_load
              Mini.simple_repr Mini.under_workflow Mini.no_files)
    as (_ & _ & D & C & W).
  split; [|split].
  - eapply D; [vm_compute; reflexivity | reflexivity].
  - eapply C; [vm_compute; reflexivity | reflexivity].
  - eapply W; [vm_compute; reflexivity | reflexivity].
Defined.

(** ** The round trip *)

Lemma extract_roundtrip_block (pre post : list string) (x a b : string) :
  count_markers pre = 0 -> count_markers post = 0 ->
  extract (pre ++ roundtrip_block x a b ++ post) = roundtrip_text x a b.
Proof.
  intros Hpre Hpost. rewrite extract_eq, captured_app, Hpre.
  rewrite (captured_zero_markers pre Hpre). simpl.
  rewrite (captured_zero_markers post Hpost). simpl.
  unfold roundtrip_text. now rewrite append_empty_r.
Qed.

(** C7: a file whose block, between its two markers, is the lines
    [description: "x"] and [references: ["a","b"]] leaves exactly that
    text in the buffer; with the mapping the YAML parser reads from it,
    the entry of the file has the description [x] and the references [a]
    and [b], and they are what [describe] and [cite] print. *)
Theorem C7_block_round_trip
    (safe_load : string -> option yaml) (py_repr : yaml -> string)
    (pre post : list string) (p : rel_path) (x a b : string)
    (m : list (yaml * yaml)) :
  count_markers pre = 0 -> count_markers post = 0 ->
  safe_load (roundtrip_text x a b) = Some (YMap m) ->
  ymap_get m "description" = Some (YStr x) ->
  ymap_get m "references" = Some (YSeq [YStr a; YStr b]) ->
  let f := mk_rule_file p (pre ++ roundtrip_block x a b ++ post) in
  extract (rule_lines f) = roundtrip_text x a b
  /\ scan_rules safe_load [f] = Done [(rule_name_of p, YMap m)]
  /\ py_getitem (YMap m) "description" = Done (YStr x)
  /\ py_getitem (YMap m) "references" = Done (YSeq [YStr a; YStr b])
  /\ get_all_rules safe_load py_repr (Some [f])
       (Some (rule_name_of p)) (Some (rule_name_of p))
     = ([description_header (rule_name_of p);
         ((" - " ++ x) ++ nl)%string;
         citations_header (rule_name_of p);
         (("- " ++ a) ++ nl)%string;
         (("- " ++ b) ++ nl)%string], Done tt).
Proof.
  intros Hpre Hpost Hload Hd Hr f.
  assert (E : extract (rule_lines f) = roundtrip_text x a b)
    by (apply extract_roundtrip_block; assumption).
  assert (S : scan_rules safe_load [f] = Done [(rule_name_of p, YMap m)]).
  { rewrite scan_rules_gather. unfold f, rule_contribution.
    cbn [flat_map app rel rule_lines]. unfold block_of, load_block.
    rewrite (extract_roundtrip_block pre post x a b Hpre Hpost), Hload.
    reflexivity. }
  refine (conj E (conj S (conj _ (conj _ _)))).
  - simpl. now rewrite Hd.
  - simpl. now rewrite Hr.
  - unfold get_all_rules. rewrite S. unfold lift, bind at 1.
    unfold report_rules. rewrite describe_entry_eq, cite_entry_eq.
    simpl dict_get. rewrite String.eqb_refl. simpl py_getitem.
    rewrite Hd, Hr. reflexivity.
Qed.

Lemma C7_witness :
  scan_rules Mini.mini_load [Sample.roundtrip]
  = Done [("roundtrip",
           YMap [(YStr "description", YStr "x");
                 (YStr "references", YSeq [YStr "a"; YStr "b"])])]
  /\ get_all_rules Mini.mini_load Mini.simple_repr (Some [Sample.roundtrip])
       (Some "roundtrip") (Some "roundtrip")
     = ([description_header "roundtrip";
         ((" - " ++ "x") ++ nl)%string;
         citations_header "roundtrip";
         (("- " ++ "a") ++ nl)%string;
         (("- " ++ "b") ++ nl)%string], Done tt).
Proof.
  destruct (C7_block_round_trip Mini.mini_load Mini.simple_repr [] []
              ["roundtrip.smk"] "x" "a" "b"
              [(YStr "description", YStr "x");
               (YStr "references", YSeq [YStr "a"; YStr "b"])]
              eq_refl eq_refl eq_refl eq_refl eq_refl)
    as (_ & S & _ & _ & G).
  split; [exact S | exact G].
Defined.

(** ** The connection loop *)

Module MonitorProps.
Import Monitor.

Lemma prefix_empty (s : string) : String.prefix EmptyString s = true.
Proof. now destruct s. Qed.

Lemma attempts_app (e1 e2 : list event) :
  attempts (e1 ++ e2) = attempts e1 + attempts e2.
Proof. unfold attempts. now rewrite filter_app, length_app. Qed.

Lemma sleeps_app (e1 e2 : list event) :
  sleeps (e1 ++ e2) = sleeps e1 ++ sleeps e2.
Proof. unfold sleeps. apply flat_map_app. Qed.

(** Every pass makes one request and sleeps, if at all, for one
    second. *)
Lemma attempt_shape (r : reply) (ctr : Z) :
  attempts (fst (attempt r ctr)) = 1
  /\ Forall (eq 1%Z) (sleeps (fst (attempt r ctr))).
Proof.
  destruct r as [|body]; simpl; [now repeat constructor|].
  destruct (py_getitem body "status") as [status|e]; simpl;
    [|now repeat constructor].
  destruct status; simpl; try now repeat constructor.
  destruct (String.eqb s "running"); simpl; now repeat constructor.
Qed.

Lemma attempt_running (r : reply) (ctr : Z) :
  running r = true ->
  attempt r ctr = ([Get; Echo "Panoptes status: running"], Break).
Proof.
  destruct r as [|body]; simpl; [discriminate|].
  destruct (py_getitem body "status") as [status|e]; simpl; [|discriminate].
  destruct status; try discriminate.
  intros H. rewrite H. apply String.eqb_eq in H. now subst.
Qed.

Lemma attempt_unsuccessful (r : reply) (ctr : Z) :
  answers r = true -> running r = false ->
  exists ev ctr',
    attempt r ctr = (ev, Next ctr')
    /\ attempts ev = 1 /\ sleeps ev = [1%Z]
    /\ forallb is_retry_msg ev = true.
Proof.
  destruct r as [|body]; simpl; intros Ha Hr.
  - do 2 eexists. split; [reflexivity|]. simpl.
    now rewrite prefix_empty.
  - destruct (py_getitem body "status") as [status|e]; [|discriminate].
    destruct status; try (do 2 eexists; split; [reflexivity|]; now simpl).
    rewrite Hr. do 2 eexists. split; [reflexivity|]. now simpl.
Qed.

Lemma poll_bounds (service : nat -> reply) (tries : list nat) (ctr : Z) :
  attempts (fst (poll service tries ctr)) <= List.length tries
  /\ Forall (eq 1%Z) (sleeps (fst (poll service tries ctr))).
Proof.
  revert ctr. induction tries as [|t rest IH]; intros ctr; simpl.
  - split; [unfold attempts; simpl; lia | constructor].
  - destruct (attempt_shape (service t) ctr) as [Ha Hs].
    destruct (attempt (service t) ctr) as [ev [ctr'| |e]]; simpl in *.
    + destruct (IH ctr') as [Ha' Hs'].
      destruct (poll service rest ctr') as [ev' r]; simpl in *.
      rewrite attempts_app, sleeps_app. split; [lia|].
      apply Forall_app. now split.
    + split; [lia | exact Hs].
    + split; [lia | exact Hs].
Qed.

Lemma poll_unsuccessful (service : nat -> reply) (tries : list nat)
    (ctr : Z) :
  (forall t, In t tries ->
             answers (service t) = true /\ running (service t) = false) ->
  exists ev,
    poll service tries ctr = (ev, Done tt)
    /\ attempts ev = List.length tries
    /\ sleeps ev = repeat 1%Z (List.length tries)
    /\ forallb is_retry_msg ev = true.
Proof.
  revert ctr. induction tries as [|t rest IH]; intros ctr H.
  - exists []. now simpl.
  - destruct (H t (or_introl eq_refl)) as [Ha Hr].
    destruct (attempt_unsuccessful (service t) ctr Ha Hr)
      as (ev & ctr' & E & A & S & M).
    destruct (IH ctr' (fun t' Ht' => H t' (or_intror Ht')))
      as (ev' & E' & A' & S' & M').
    exists (ev ++ ev'). simpl. rewrite E, E'.
    rewrite attempts_app, sleeps_app, forallb_app, A, A', S, S', M, M'.
    now simpl.
Qed.

Lemma poll_stops (service : nat -> reply) (before after : list nat)
    (k : nat) (ctr : Z) :
  (forall t, In t before ->
             answers (service t) = true /\ running (service t) = false) ->
  running (service k) = true ->
  exists ev,
    poll service (before ++ k :: after) ctr
    = (ev ++ [Get; Echo "Panoptes status: running"], Done tt)
    /\ attempts ev = List.length before
    /\ sleeps ev = repeat 1%Z (List.length before).
Proof.
  revert ctr. induction before as [|t rest IH]; intros ctr H Hk.
  - simpl. rewrite (attempt_running _ ctr Hk). exists []. now simpl.
  - destruct (H t (or_introl eq_refl)) as [Ha Hr].
    destruct (attempt_unsuccessful (service t) ctr Ha Hr)
      as (ev & ctr' & E & A & S & M).
    destruct (IH ctr' (fun t' Ht' => H t' (or_intror Ht')) Hk)
      as (ev' & E' & A' & S').
    exists (ev ++ ev'). simpl. rewrite E, E'.
    rewrite attempts_app, sleeps_app, A, A', S, S', app_assoc.
    now simpl.
Qed.

Lemma seq_split (k n : nat) :
  k < n -> seq 0 n = seq 0 k ++ k :: seq (S k) (n - S k).
Proof.
  intros H. replace n with (k + S (n - S k)) at 1 by lia.
  now rewrite seq_app.
Qed.

End MonitorProps.

(** C8: the loop that waits for the monitoring service makes at most ten
    requests; whenever it sleeps it sleeps for one second, once after
    every unsuccessful request; it stops at the first request that finds
    the service running; and after ten unsuccessful requests it goes on
    as after a success, having printed nothing but its retry notices. *)
Theorem C8_poll_is_bounded_and_gives_up_silently
    (service : nat -> Monitor.reply) :
  Monitor.attempts (fst (Monitor.connect service)) <= 10
  /\ Forall (eq 1%Z) (Monitor.sleeps (fst (Monitor.connect service)))
  /\ (forall k,
        k < 10 ->
        (forall t, t < k ->
                   Monitor.answers (service t) = true
                   /\ Monitor.running (service t) = false) ->
        Monitor.running (service k) = true ->
        snd (Monitor.connect service) = Done tt
        /\ Monitor.attempts (fst (Monitor.connect service)) = S k
        /\ Monitor.sleeps (fst (Monitor.connect service)) = repeat 1%Z k
        /\ exists ev,
             fst (Monitor.connect service)
             = Monitor.Echo "Connecting to Panoptes..."
               :: ev ++ [Monitor.Get;
                         Monitor.Echo "Panoptes status: running"])
  /\ ((forall t, t < 10 ->
                 Monitor.answers (service t) = true
                 /\ Monitor.running (service t) = false) ->
      snd (Monitor.connect service) = Done tt
      /\ Monitor.attempts (fst (Monitor.connect service)) = 10
      /\ Monitor.sleeps (fst (Monitor.connect service)) = repeat 1%Z 10
      /\ forallb Monitor.is_retry_msg
           (tl (fst (Monitor.connect service))) = true).
Proof.
  unfold Monitor.connect.
  refine (conj _ (conj _ (conj _ _))).
  - pose proof (MonitorProps.poll_bounds service (seq 0 10) 1) as [H _].
    destruct (Monitor.poll service (seq 0 10) 1) as [ev r].
    simpl in *. exact H.
  - pose proof (MonitorProps.poll_bounds service (seq 0 10) 1) as [_ H].
    destruct (Monitor.poll service (seq 0 10) 1) as [ev r].
    simpl in *. exact H.
  - intros k Hk Hbefore Hrun.
    rewrite (MonitorProps.seq_split k 10 Hk).
    destruct (MonitorProps.poll_stops service (seq 0 k)
                (seq (S k) (10 - S k)) k 1) as (ev & E & A & S).
    + intros t Ht. apply in_seq in Ht. apply Hbefore. lia.
    + exact Hrun.
    + rewrite E. rewrite length_seq in A, S.
      cbn [fst snd].
      change (Monitor.Echo "Connecting to Panoptes..."
              :: ev ++ [Monitor.Get; Monitor.Echo "Panoptes status: running"])
        with ([Monitor.Echo "Connecting to Panoptes..."]
              ++ ev ++ [Monitor.Get;
                        Monitor.Echo "Panoptes status: running"]).
      rewrite !MonitorProps.attempts_app, !MonitorProps.sleeps_app, A, S.
      refine (conj eq_refl (conj _ (conj _ _))).
      * unfold Monitor.attempts. simpl. lia.
      * simpl. now rewrite app_nil_r.
      * now exists ev.
  - intros Hall.
    destruct (MonitorProps.poll_unsuccessful service (seq 0 10) 1)
      as (ev & E & A & S & M).
    + intros t Ht. apply in_seq in Ht. apply Hall. lia.
    + rewrite E. cbn [fst snd tl].
      change (Monitor.Echo "Connecting to Panoptes..." :: ev)
        with ([Monitor.Echo "Connecting to Panoptes..."] ++ ev).
      rewrite MonitorProps.attempts_app, MonitorProps.sleeps_app, A, S, M.
      now simpl.
Qed.

Lemma C8_witness :
  (snd (Monitor.connect Sample.up_at_third) = Done tt
   /\ Monitor.attempts (fst (Monitor.connect Sample.up_at_third)) = 3
   /\ Monitor.sleeps (fst (Monitor.connect Sample.up_at_third)) = [1; 1]%Z)
  /\ (snd (Monitor.connect Sample.never_up) = Done tt
      /\ Monitor.attempts (fst (Monitor.connect Sample.never_up)) = 10
      /\ Monitor.sleeps (fst (Monitor.connect Sample.never_up)) = repeat 1%Z 10).
Proof.
  split.
  - destruct (C8_poll_is_bounded_and_gives_up_silently Sample.up_at_third)
      as (_ & _ & H & _).
    destruct (H 2) as (R & A & S & _).
    + lia.
    + intros t Ht. assert (t = 0 \/ t = 1) as [-> | ->] by lia;
        split; reflexivity.
    + reflexivity.
    + exact (conj R (conj A S)).
  - destruct (C8_poll_is_bounded_and_gives_up_silently Sample.never_up)
      as (_ & _ & _ & H).
    destruct H as (R & A & S & _); [intros t _; split; reflexivity|].
    exact (conj R (conj A S)).
Defined.

(** ** Identifiers *)

Section Identifiers.

Lemma contains_app (a b : string) (c : ascii) :
  contains (a ++ b) c = contains a c || contains b c.
Proof.
  induction a as [|x a IH]; simpl; [reflexivity|].
  now rewrite IH, orb_assoc.
Qed.

(** A text is cut at its first separator in one way only. *)
Lemma cut_unique (c : ascii) (x y A B : string) :
  contains x c = false -> contains y c = false ->
  (x ++ String c A)%string = (y ++ String c B)%string -> x = y /\ A = B.
Proof.
  revert y. induction x as [|a x IH]; intros [|b y] Hx Hy E; simpl in *.
  - now inversion E.
  - inversion E; subst b. now rewrite Ascii.eqb_refl in Hy.
  - inversion E; subst a. now rewrite Ascii.eqb_refl in Hx.
  - inversion E; subst b.
    apply orb_false_elim in Hx as [_ Hx]. apply orb_false_elim in Hy as [_ Hy].
    destruct (IH y Hx Hy H1) as [-> ->]. now split.
Qed.

Lemma no_separator_inside (c : ascii) (x y B : string) :
  contains x c = false -> x <> (y ++ String c B)%string.
Proof.
  intros Hx E. subst x. rewrite contains_app in Hx. simpl in Hx.
  rewrite Ascii.eqb_refl in Hx. simpl in Hx.
  now rewrite orb_true_r in Hx.
Qed.

Lemma join_cons2 (sep x y : string) (r : list string) :
  join sep (x :: y :: r) = (x ++ sep ++ join sep (y :: r))%string.
Proof. reflexivity. Qed.

Lemma join_snoc (sep x : string) (l : list string) :
  l <> [] -> join sep (l ++ [x]) = (join sep l ++ sep ++ x)%string.
Proof.
  induction l as [|a [|b r] IH]; intros N; [contradiction|reflexivity|].
  change ((a :: b :: r) ++ [x]) with (a :: b :: (r ++ [x])).
  rewrite !join_cons2. change (b :: r ++ [x]) with ((b :: r) ++ [x]).
  rewrite IH by discriminate. now rewrite !append_assoc.
Qed.

(** Joining with [/] loses nothing when no component holds a [/]. *)
Lemma join_slash_inj (l1 l2 : list string) :
  l1 <> [] -> l2 <> [] -> slash_free l1 -> slash_free l2 ->
  join "/" l1 = join "/" l2 -> l1 = l2.
Proof.
  revert l2. induction l1 as [|x [|x' r] IH]; intros [|y [|y' r']] N1 N2 F1 F2 E;
    try contradiction.
  - simpl in E. now subst.
  - rewrite join_cons2 in E. simpl in E. exfalso.
    apply (no_separator_inside slash x y (join "/" (y' :: r'))); auto.
    apply F1. now left.
  - rewrite join_cons2 in E. simpl in E. exfalso.
    apply (no_separator_inside slash y x (join "/" (x' :: r))); auto.
    apply F2. now left.
  - rewrite !join_cons2 in E.
    change (x ++ String slash (join "/" (x' :: r))
            = y ++ String slash (join "/" (y' :: r')))%string in E.
    apply cut_unique in E as [-> E];
      [| apply F1; now left | apply F2; now left].
    f_equal. apply IH; try discriminate; auto.
    + intros z Hz. apply F1. now right.
    + intros z Hz. apply F2. now right.
Qed.

Lemma component_ok_spec (c : string) :
  component_ok c = true ->
  nonempty c = true /\ contains c slash = false /\ c <> "." /\ c <> "..".
Proof.
  unfold component_ok. intros H.
  repeat (apply andb_prop in H as [H ?]).
  repeat split; auto.
  - now apply negb_true_iff.
  - apply String.eqb_neq. now apply negb_true_iff.
  - apply String.eqb_neq. now apply negb_true_iff.
Qed.

Lemma join_not_dot (dirs : list string) :
  dirs <> [] -> forallb component_ok dirs = true ->
  String.eqb (join "/" dirs) "." = false.
Proof.
  destruct dirs as [|d [|d' r]]; intros N F; [contradiction| |].
  - simpl in *. apply andb_prop in F as [F _].
    apply String.eqb_neq. now apply component_ok_spec in F.
  - rewrite join_cons2. simpl in F. apply andb_prop in F as [F _].
    apply component_ok_spec in F as (Hn & _).
    destruct d as [|a d]; [discriminate|].
    apply String.eqb_neq. simpl. intros E. inversion E.
    destruct d; discriminate.
Qed.

(** The last dot of a name that ends with [.smk]. *)
Lemma rfind_smk (s : string) :
  rfind (s ++ ".smk") dot = Z.of_nat (String.length s).
Proof.
  induction s as [|a s IH]; [reflexivity|].
  simpl append. simpl String.length. cbn [rfind]. rewrite IH.
  destruct (0 <=? Z.of_nat (String.length s))%Z eqn:E; [lia|].
  apply Z.leb_gt in E. lia.
Qed.

Lemma substring_prefix (s t : string) :
  substring 0 (String.length s) (s ++ t) = s.
Proof.
  induction s as [|a s IH]; simpl.
  - now destruct t.
  - now rewrite IH.
Qed.

Lemma stem_smk (s : string) :
  s <> EmptyString -> stem (s ++ ".smk") = s.
Proof.
  intros N. unfold stem. rewrite rfind_smk, append_length. simpl.
  assert (0 < String.length s) as L
    by (destruct s; [contradiction | simpl; lia]).
  replace ((0 <? Z.of_nat (String.length s))%Z) with true
    by (symmetry; apply Z.ltb_lt; lia).
  replace ((Z.of_nat (String.length s)
            <? Z.of_nat (String.length s + 4) - 1)%Z) with true
    by (symmetry; apply Z.ltb_lt; lia).
  simpl. unfold slice_to. rewrite Nat2Z.id. apply substring_prefix.
Qed.

Lemma endswith_spec (name suf : string) :
  endswith name suf = true -> exists s, name = (s ++ suf)%string.
Proof.
  induction name as [|a name IH]; intros H.
  - change (String.eqb EmptyString suf || false = true) in H.
    rewrite orb_false_r in H. apply String.eqb_eq in H. subst.
    now exists EmptyString.
  - change (String.eqb (String a name) suf || endswith name suf = true) in H.
    apply orb_prop in H as [H|H].
    + apply String.eqb_eq in H. exists EmptyString. now rewrite H.
    + destruct (IH H) as [s ->]. now exists (String a s).
Qed.

(** What [rglob] yields: a directory part and a name [s ++ ".smk"]. *)
Lemma rglob_smk_spec (p : rel_path) :
  rglob_smk p = true ->
  p = path_parent p ++ [path_name p]
  /\ forallb component_ok (path_parent p) = true
  /\ contains (path_name p) slash = false
  /\ exists s, path_name p = (s ++ ".smk")%string.
Proof.
  unfold rglob_smk, path_parent, path_name. intros H.
  apply andb_prop in H as [H He]. apply andb_prop in H as [Hn Hc].
  assert (N : p <> []) by (intros ->; discriminate).
  pose proof (app_removelast_last EmptyString N) as D.
  split; [exact D|].
  rewrite D, forallb_app in Hc. apply andb_prop in Hc as [Hd Hl].
  simpl in Hl. rewrite andb_true_r in Hl.
  split; [exact Hd|]. split.
  - now apply component_ok_spec in Hl.
  - now apply endswith_spec.
Qed.

Lemma stem_of_smk_name (s : string) :
  stem (s ++ ".smk")
  = if nonempty s then s else ".smk".
Proof.
  destruct s as [|a s]; [reflexivity|].
  now rewrite stem_smk.
Qed.

Lemma stem_slash_free (name : string) :
  (exists s, name = (s ++ ".smk")%string) ->
  contains name slash = false -> contains (stem name) slash = false.
Proof.
  intros [s ->] H. rewrite stem_of_smk_name.
  destruct (nonempty s); [|reflexivity].
  rewrite contains_app in H. now apply orb_false_elim in H.
Qed.

Lemma rule_name_of_join (p : rel_path) :
  rglob_smk p = true ->
  rule_name_of p = join "/" (path_parent p ++ [stem (path_name p)]).
Proof.
  intros H. destruct (rglob_smk_spec p H) as (_ & Hd & _ & _).
  unfold rule_name_of, path_str.
  destruct (path_parent p) as [|d r] eqn:E; [reflexivity|].
  rewrite join_not_dot by (auto; discriminate).
  now rewrite join_snoc by discriminate.
Qed.

Lemma components_slash_free (l : list string) :
  forallb component_ok l = true -> slash_free l.
Proof.
  intros H x Hx. rewrite forallb_forall in H.
  now destruct (component_ok_spec x (H x Hx)) as (_ & ? & _).
Qed.

Lemma rule_name_of_inj_parts (p1 p2 : rel_path) :
  rglob_smk p1 = true -> rglob_smk p2 = true ->
  rule_name_of p1 = rule_name_of p2 ->
  path_parent p1 = path_parent p2
  /\ stem (path_name p1) = stem (path_name p2).
Proof.
  intros H1 H2 E.
  rewrite (rule_name_of_join p1 H1), (rule_name_of_join p2 H2) in E.
  destruct (rglob_smk_spec p1 H1) as (_ & Hd1 & Hs1 & Hn1).
  destruct (rglob_smk_spec p2 H2) as (_ & Hd2 & Hs2 & Hn2).
  apply join_slash_inj in E.
  - apply app_inj_tail in E. exact E.
  - now destruct (path_parent p1).
  - now destruct (path_parent p2).
  - intros x Hx. apply in_app_or in Hx as [Hx|[<-|[]]].
    + now apply (components_slash_free _ Hd1).
    + now apply stem_slash_free.
  - intros x Hx. apply in_app_or in Hx as [Hx|[<-|[]]].
    + now apply (components_slash_free _ Hd2).
    + now apply stem_slash_free.
Qed.

End Identifiers.

(** C4, as the code has it: the identifier of a scanned rule file is its
    relative path with the stem in place of the file name, the directory
    part joined with [/] before it, and the bare stem for a file directly
    in the root; the stem is the name without its [.smk] extension.  Files
    with equal identifiers lie in the same directory and have the same
    stem, so the same stem in different subdirectories gives different
    identifiers; and the derivation is injective on the scanned files
    whose name is not just [.smk]. *)
Theorem C4_identifier_of_a_rule_file :
  (forall p, rglob_smk p = true ->
             rule_name_of p
             = join "/" (path_parent p ++ [stem (path_name p)]))
  /\ (forall name, rglob_smk [name] = true -> rule_name_of [name] = stem name)
  /\ (forall dirs name,
        dirs <> [] -> rglob_smk (dirs ++ [name]) = true ->
        rule_name_of (dirs ++ [name])
        = (join "/" dirs ++ "/" ++ stem name)%string)
  /\ (forall s, s <> EmptyString -> stem (s ++ ".smk") = s)
  /\ (forall p1 p2,
        rglob_smk p1 = true -> rglob_smk p2 = true ->
        rule_name_of p1 = rule_name_of p2 ->
        path_parent p1 = path_parent p2
        /\ stem (path_name p1) = stem (path_name p2))
  /\ (forall p1 p2,
        rglob_smk p1 = true -> rglob_smk p2 = true ->
        path_name p1 <> ".smk" -> path_name p2 <> ".smk" ->
        rule_name_of p1 = rule_name_of p2 -> p1 = p2).
Proof.
  refine (conj rule_name_of_join (conj _ (conj _ (conj stem_smk
            (conj rule_name_of_inj_parts _))))).
  - intros name H. reflexivity.
  - intros dirs name N H. rewrite (rule_name_of_join _ H).
    unfold path_parent, path_name. rewrite removelast_last, last_last.
    now apply join_snoc.
  - intros p1 p2 H1 H2 N1 N2 E.
    destruct (rule_name_of_inj_parts p1 p2 H1 H2 E) as [Ed Es].
    destruct (rglob_smk_spec p1 H1) as (D1 & _ & _ & s1 & Hn1).
    destruct (rglob_smk_spec p2 H2) as (D2 & _ & _ & s2 & Hn2).
    rewrite D1, D2, Ed. f_equal. f_equal.
    rewrite Hn1, Hn2 in Es. rewrite !stem_of_smk_name in Es.
    destruct s1 as [|a1 s1]; [now rewrite Hn1 in N1|].
    destruct s2 as [|a2 s2]; [now rewrite Hn2 in N2|].
    simpl in Es. now rewrite Hn1, Hn2, Es.
Qed.

Lemma C4_witness :
  rule_name_of ["a"; "foo.smk"] = "a/foo"
  /\ rule_name_of ["foo.smk"] = "foo"
  /\ rule_name_of ["a"; "foo.smk"] <> rule_name_of ["b"; "foo.smk"].
Proof.
  destruct C4_identifier_of_a_rule_file as (_ & R & D & S & P & _).
  refine (conj _ (conj _ _)).
  - assert (N : ["a"] <> @nil string) by discriminate.
    exact (D ["a"] "foo.smk" N eq_refl).
  - exact (R "foo.smk" eq_refl).
  - intros E. destruct (P ["a"; "foo.smk"] ["b"; "foo.smk"] eq_refl eq_refl E)
      as [Ed _].
    discriminate Ed.
Defined.

(** C4 as the specification states it fails: the derivation is not injective on what a scan
    yields.  The pattern [*.smk] also matches the file named [.smk], whose
    stem is the whole name; next to it, the file [.smk.smk] gets the same
    identifier. *)
Lemma C4_counterexample :
  rglob_smk [".smk"] = true /\ rglob_smk [".smk.smk"] = true
  /\ [".smk"] <> [".smk.smk"]
  /\ rule_name_of [".smk"] = rule_name_of [".smk.smk"]
  /\ rule_name_of [".smk"] = ".smk".
Proof.
  repeat split; try reflexivity. discriminate.
Qed.

(** * Further properties of the code *)

(** ** The extraction loop, lines 225 to 233 and 298 to 306 *)

Lemma marker_starts_hash (l : string) :
  is_marker l = true -> starts_hash l = true.
Proof.
  unfold is_marker, starts_hash, startswith.
  destruct l as [|a l]; [intros H; exact H|].
  cbn [String.prefix].
  destruct (ascii_dec "#" a); [|intros H; exact H].
  intros _. now destruct l.
Qed.

Lemma captured_comments_only (b : bool) (lines : list string) :
  captured b (filter starts_hash lines) = captured b lines.
Proof.
  revert b. induction lines as [|l rest IH]; intros b; [reflexivity|].
  simpl filter. destruct (starts_hash l) eqn:H.
  - simpl. rewrite !IH. reflexivity.
  - simpl. destruct (is_marker l) eqn:M.
    + apply marker_starts_hash in M. congruence.
    + unfold starts_hash in H. rewrite H, andb_false_r. apply IH.
Qed.

(** X1: only the lines that start with [#] matter to the extraction: the
    code lines of a file, wherever they stand, also between the markers,
    can be dropped without changing the buffer. *)
Theorem X1_only_comment_lines_matter (lines : list string) :
  extract (filter starts_hash lines) = extract lines.
Proof. rewrite !extract_eq. now rewrite captured_comments_only. Qed.

Lemma cat_app (l1 l2 : list string) :
  cat (l1 ++ l2) = (cat l1 ++ cat l2)%string.
Proof.
  induction l1 as [|x l1 IH]; simpl; [reflexivity|].
  now rewrite IH, append_assoc.
Qed.

Lemma odd_of_even (n : nat) : Nat.even n = true -> Nat.odd n = false.
Proof. intros H. now rewrite <- Nat.negb_even, H. Qed.

(** X2: a file with several blocks gets their texts one after the other:
    after lines whose markers are all paired, the rest of the file is
    read as a file of its own and its buffer is appended. *)
Theorem X2_closed_blocks_concatenate (l1 l2 : list string) :
  Nat.even (count_markers l1) = true ->
  extract (l1 ++ l2) = (extract l1 ++ extract l2)%string.
Proof.
  intros H. rewrite !extract_eq, captured_app, cat_app.
  now rewrite (odd_of_even _ H).
Qed.

Lemma X2_witness :
  extract (rule_lines Sample.roundtrip ++ rule_lines Sample.alpha)
  = (extract (rule_lines Sample.roundtrip)
     ++ extract (rule_lines Sample.alpha))%string.
Proof.
  apply (X2_closed_blocks_concatenate (rule_lines Sample.roundtrip)
           (rule_lines Sample.alpha)).
  reflexivity.
Defined.

(** X3: two marker lines that follow each other open and close an empty
    block: they can be removed, wherever they stand, without changing the
    buffer. *)
Theorem X3_adjacent_markers_cancel
    (before after : list string) (t1 t2 : string) :
  extract (before ++ ("#%" ++ t1)%string :: ("#%" ++ t2)%string :: after)
  = extract (before ++ after).
Proof.
  rewrite !extract_eq, !captured_app. f_equal.
  change (captured ?b (?m1 :: ?m2 :: after))
    with (if is_marker m1
          then (if is_marker m2 then captured (negb (negb b)) after
                else if negb b && startswith m2 "#"
                     then drop_first m2 :: captured (negb b) after
                     else captured (negb b) after)
          else if b && startswith m1 "#"
               then drop_first m1 :: captured b (m2 :: after)
               else captured b (m2 :: after)).
  rewrite !marker_line. now rewrite negb_involutive.
Qed.

(** ** The catalogue, lines 215 to 238 and 292 to 311 *)

Lemma keys_dict_set {V} (d : dict V) (k : string) (v : V) :
  keys (dict_set d k v)
  = if existsb (String.eqb k) (keys d) then keys d else keys d ++ [k].
Proof.
  unfold keys. induction d as [|[k' v'] d IH]; [reflexivity|].
  simpl. rewrite (String.eqb_sym k k').
  destruct (String.eqb k' k); simpl; [reflexivity|].
  rewrite IH.
  now destruct (existsb (String.eqb k) (map fst d)).
Qed.

Lemma existsb_eqb_false (k : string) (l : list string) :
  existsb (String.eqb k) l = false -> ~ In k l.
Proof.
  intros H Hin. assert (existsb (String.eqb k) l = true); [|congruence].
  apply existsb_exists. exists k. split; [exact Hin|apply String.eqb_refl].
Qed.

Lemma first_seen_nodup (ks seen : list string) :
  NoDup seen -> NoDup (first_seen seen ks).
Proof.
  revert seen. induction ks as [|k r IH]; intros seen H; [exact H|].
  simpl. destruct (existsb (String.eqb k) seen) eqn:E; [now apply IH|].
  apply IH. apply NoDup_app; [exact H | repeat constructor; intros [] |].
  intros x Hx [Hk|[]]. subst x. now apply (existsb_eqb_false k seen).
Qed.

Lemma block_of_not_malformed (safe_load : string -> option yaml)
    (lines : list string) :
  malformed safe_load lines = false ->
  exists v, block_of safe_load lines = Done v.
Proof.
  unfold malformed, block_of, load_block.
  destruct (nonempty (extract lines)); simpl; [|now eexists].
  destruct (safe_load (extract lines)); [now eexists | discriminate].
Qed.

Lemma gather_rules_done (safe_load : string -> option yaml)
    (files : list rule_file) (d : dict yaml) :
  existsb (fun f => malformed safe_load (rule_lines f)) files = false ->
  exists d',
    gather d (flat_map (rule_contribution safe_load) files) = Done d'
    /\ keys d' = first_seen (keys d)
                   (map (fun f => rule_name_of (rel f)) files).
Proof.
  revert d. induction files as [|f rest IH]; intros d H.
  - exists d. now split.
  - simpl in H. apply orb_false_elim in H as [Hf Hr].
    destruct (block_of_not_malformed safe_load _ Hf) as [v Hv].
    destruct (IH (dict_set d (rule_name_of (rel f)) v) Hr) as (d' & G & K).
    exists d'. split.
    + change (flat_map (rule_contribution safe_load) (f :: rest))
        with ((rule_name_of (rel f), block_of safe_load (rule_lines f))
              :: flat_map (rule_contribution safe_load) rest).
      simpl gather. now rewrite Hv.
    + rewrite K, keys_dict_set. simpl.
      now destruct (existsb (String.eqb (rule_name_of (rel f))) (keys d)).
Qed.

Lemma scan_rules_keys (safe_load : string -> option yaml)
    (files : list rule_file) :
  existsb (fun f => malformed safe_load (rule_lines f)) files = false ->
  exists d,
    scan_rules safe_load files = Done d
    /\ keys d = first_seen [] (map (fun f => rule_name_of (rel f)) files)
    /\ NoDup (keys d).
Proof.
  intros H. destruct (gather_rules_done safe_load files [] H) as (d & G & K).
  exists d. rewrite scan_rules_gather. split; [exact G|].
  split; [exact K|]. rewrite K. apply first_seen_nodup. constructor.
Qed.

Section Found.

Variable safe_load : string -> option yaml.

(** On entries that can all be read, the scan is the scan of their
    lines. *)
Lemma scan_found_from_readable (files : list found_file) (st : scan_state) :
  forallb readable files = true ->
  scan_found_from safe_load st files
  = of_outcome (scan_rules_from safe_load st (texts files)).
Proof.
  revert st. induction files as [|f rest IH]; intros st H; [reflexivity|].
  simpl in H. apply andb_prop in H as [Hf Hr].
  unfold readable in Hf. unfold texts. simpl. unfold found_step.
  destruct (found_reading f) as [lines|why]; [|discriminate].
  simpl. destruct (rule_step safe_load st (mk_rule_file (found_rel f) lines))
    as [st'|e]; simpl; [|reflexivity].
  apply (IH st' Hr).
Qed.

Lemma scan_found_readable (files : list found_file) :
  forallb readable files = true ->
  scan_found safe_load files = of_outcome (scan_rules safe_load (texts files)).
Proof.
  intros H. unfold scan_found, scan_rules.
  rewrite (scan_found_from_readable files _ H).
  now destruct (scan_rules_from safe_load _ (texts files)).
Qed.

Lemma texts_names (files : list found_file) :
  forallb readable files = true ->
  map (fun f => rule_name_of (rel f)) (texts files)
  = map (fun f => rule_name_of (found_rel f)) files.
Proof.
  induction files as [|f rest IH]; intros H; [reflexivity|].
  simpl in H. apply andb_prop in H as [Hf Hr].
  unfold readable in Hf. unfold texts in *. simpl.
  destruct (found_reading f); [|discriminate].
  simpl. now rewrite (IH Hr).
Qed.

Lemma scan_found_from_app (l1 l2 : list found_file) (st : scan_state) :
  scan_found_from safe_load st (l1 ++ l2)
  = match scan_found_from safe_load st l1 with
    | Scanned st' => scan_found_from safe_load st' l2
    | Stopped e => Stopped e
    | ReadFailed why => ReadFailed why
    end.
Proof.
  revert st. induction l1 as [|f l1 IH]; intros st; [reflexivity|].
  simpl. destruct (found_step safe_load st f); auto.
Qed.

Lemma scan_rules_from_done (files : list rule_file) (st : scan_state) :
  existsb (fun f => malformed safe_load (rule_lines f)) files = false ->
  exists st', scan_rules_from safe_load st files = Done st'.
Proof.
  revert st. induction files as [|f rest IH]; intros st H; [now eexists|].
  simpl in H. apply orb_false_elim in H as [Hf Hr].
  destruct (block_of_not_malformed safe_load _ Hf) as [v Hv].
  simpl. rewrite rule_step_eq, Hv. apply (IH _ Hr).
Qed.

(** The scan stops at the first entry that cannot be read, when the
    entries before it are read and loaded. *)
Lemma scan_found_unreadable (before after : list found_file)
    (f : found_file) (why : read_error) :
  forallb readable before = true ->
  existsb (fun g => malformed safe_load (rule_lines g)) (texts before)
  = false ->
  found_reading f = NoText why ->
  scan_found safe_load (before ++ f :: after) = ReadFailed why.
Proof.
  intros Hr Hm Hf. unfold scan_found.
  rewrite scan_found_from_app, (scan_found_from_readable before _ Hr).
  destruct (scan_rules_from_done (texts before)
              (mk_scan_state [] EmptyString false) Hm) as [st' ->].
  simpl. unfold found_step. now rewrite Hf.
Qed.

End Found.

(** X4: when every entry the scan finds can be read as text and none has
    a block the parser refuses, the scan ends with a catalogue, and its
    identifiers are those of the entries, each once, in the order in
    which the scan first met them: an entry that repeats an identifier
    takes the place of the earlier one.  An entry that cannot be read, a
    directory for one, ends the scan with the error of reading it. *)
Theorem X4_catalogue_keys_in_scan_order
    (safe_load : string -> option yaml) :
  (forall files,
      forallb readable files = true ->
      existsb (fun g => malformed safe_load (rule_lines g)) (texts files)
      = false ->
      exists d,
        scan_found safe_load files = Scanned d
        /\ keys d
           = first_seen [] (map (fun f => rule_name_of (found_rel f)) files)
        /\ NoDup (keys d))
  /\ (forall before f after why,
        forallb readable before = true ->
        existsb (fun g => malformed safe_load (rule_lines g)) (texts before)
        = false ->
        found_reading f = NoText why ->
        scan_found safe_load (before ++ f :: after) = ReadFailed why).
Proof.
  split.
  - intros files Hr Hm.
    destruct (scan_rules_keys safe_load (texts files) Hm) as (d & S & K & N).
    exists d. rewrite (scan_found_readable safe_load files Hr), S.
    rewrite <- (texts_names files Hr). now repeat split.
  - intros before f after why. apply scan_found_unreadable.
Qed.

Lemma X4_witness :
  (exists d,
      scan_found Mini.mini_load
        [mk_found_file ["alpha.smk"] (Text (rule_lines Sample.alpha));
         mk_found_file ["plain.smk"] (Text (rule_lines Sample.plain));
         mk_found_file ["alpha.smk"] (Text (rule_lines Sample.roundtrip))]
      = Scanned d
      /\ keys d = ["alpha"; "plain"]
      /\ NoDup (keys d))
  /\ scan_found Mini.mini_load
       ([mk_found_file ["alpha.smk"] (Text (rule_lines Sample.alpha))]
        ++ mk_found_file ["old.smk"] (NoText IsADirectoryError)
        :: [mk_found_file ["plain.smk"] (Text (rule_lines Sample.plain))])
     = ReadFailed IsADirectoryError.
Proof.
  destruct (X4_catalogue_keys_in_scan_order Mini.mini_load) as [A B].
  split.
  - apply (A [mk_found_file ["alpha.smk"] (Text (rule_lines Sample.alpha));
              mk_found_file ["plain.smk"] (Text (rule_lines Sample.plain));
              mk_found_file ["alpha.smk"]
                (Text (rule_lines Sample.roundtrip))]).
    + reflexivity.
    + vm_compute. reflexivity.
  - apply B.
    + reflexivity.
    + vm_compute. reflexivity.
    + reflexivity.
Defined.

Lemma substring_length (s : string) (n m : nat) :
  n + m <= String.length s -> String.length (substring n m s) = m.
Proof.
  revert n m. induction s as [|a s IH]; intros [|n] [|m] H; simpl in *;
    try reflexivity; try lia.
  - rewrite IH; [reflexivity | lia].
  - apply IH. lia.
  - apply IH. lia.
Qed.

(** A name without suffix is its own stem. *)
Lemma stem_without_suffix (name : string) :
  suffix name = EmptyString -> stem name = name.
Proof.
  unfold suffix, stem.
  destruct ((0 <? rfind name dot)%Z
            && (rfind name dot <? Z.of_nat (String.length name) - 1)%Z)
    eqn:E; [|reflexivity].
  intros H. exfalso.
  apply andb_prop in E as [E1 E2].
  apply Z.ltb_lt in E1. apply Z.ltb_lt in E2.
  assert (L : String.length (slice_from name (rfind name dot))
              = String.length name - Z.to_nat (rfind name dot)).
  { unfold slice_from. apply substring_length. lia. }
  rewrite H in L. simpl in L. lia.
Qed.

Lemma wf_contribution_catalogued (safe_load : string -> option yaml)
    (f : wf_entry) :
  wf_contribution safe_load f
  = if catalogued f
    then [(wf_name f, block_of safe_load (wf_lines f))]
    else [].
Proof.
  unfold wf_contribution, catalogued.
  destruct (wf_is_file f); simpl; [|reflexivity].
  destruct (String.eqb (suffix (wf_name f)) EmptyString) eqn:E; simpl;
    [|reflexivity].
  apply String.eqb_eq in E. now rewrite (stem_without_suffix _ E).
Qed.

(** X5: the workflow catalogue holds the regular files of the workflow
    directory whose name has no extension, each under its name as it is;
    directories and files with an extension are passed over unread, so
    their content, well-formed or not, has no effect. *)
Theorem X5_workflows_are_the_files_without_extension
    (safe_load : string -> option yaml) (files : list wf_entry) :
  scan_workflows safe_load files
  = gather []
      (map (fun f => (wf_name f, block_of safe_load (wf_lines f)))
         (filter catalogued files))
  /\ scan_workflows safe_load files
     = scan_workflows safe_load (filter catalogued files).
Proof.
  assert (E : forall l,
             flat_map (wf_contribution safe_load) l
             = map (fun f => (wf_name f, block_of safe_load (wf_lines f)))
                 (filter catalogued l)).
  { induction l as [|f r IH]; [reflexivity|].
    change (flat_map (wf_contribution safe_load) (f :: r))
      with (wf_contribution safe_load f
            ++ flat_map (wf_contribution safe_load) r).
    rewrite wf_contribution_catalogued, IH. simpl.
    now destruct (catalogued f). }
  split.
  - now rewrite scan_workflows_gather, E.
  - rewrite !scan_workflows_gather, !E. f_equal. f_equal.
    induction files as [|f r IH]; [reflexivity|].
    simpl. destruct (catalogued f) eqn:C; simpl; [|exact IH].
    rewrite C. f_equal. exact IH.
Qed.

Example hidden_files_are_workflows :
  scan_workflows Mini.mini_load
    [mk_wf_entry "rules" false [];
     mk_wf_entry ".gitignore" true [];
     mk_wf_entry "Snakefile.bak" true (wf_lines Sample.wf_broken);
     Sample.wf_described]
  = Done [(".gitignore", YMap []);
          ("Report", YMap [(YStr "description", YStr "x")])].
Proof. vm_compute. reflexivity. Qed.

(** ** The reports, lines 240 to 269 and 313 to 346 *)

Section MoreReports.

Variable py_repr : yaml -> string.

Lemma describe_entry_not_found (data : dict yaml) (name : string) :
  not_found (describe_entry py_repr data (Some name)) ->
  describe_entry py_repr data (Some name)
  = ([description_header name], Raised KeyError).
Proof.
  unfold not_found. rewrite describe_entry_eq.
  destruct (dict_get data name) as [entry|]; [|reflexivity].
  destruct (py_getitem entry "description"); simpl; intros H;
    [discriminate | now inversion H].
Qed.

Lemma cite_entry_not_found (data : dict yaml) (name : string) :
  not_found (cite_entry py_repr data (Some name)) ->
  cite_entry py_repr data (Some name)
  = ([citations_header name], Raised KeyError).
Proof.
  unfold not_found. rewrite cite_entry_eq.
  destruct (dict_get data name) as [entry|]; [|reflexivity].
  destruct (py_getitem entry "references") as [refs|e]; simpl;
    [|intros H; now inversion H].
  destruct (py_iter refs) as [items|e]; simpl.
  - rewrite for_each_print_done. discriminate.
  - intros H. now inversion H.
Qed.

Lemma cite_entry_found (data : dict yaml) (name : string)
    (m : list (yaml * yaml)) (refs : yaml) :
  dict_get data name = Some (YMap m) ->
  ymap_get m "references" = Some refs ->
  cite_entry py_repr data (Some name)
  = match py_iter refs with
    | Done items =>
        (citations_header name :: map (citation_line py_repr) items, Done tt)
    | Raised e => ([citations_header name], Raised e)
    end.
Proof.
  intros Hd Hr. rewrite cite_entry_eq, Hd. simpl. rewrite Hr.
  destruct (py_iter refs) as [items|e]; [|reflexivity].
  now rewrite for_each_print_done.
Qed.

Lemma length_chars (s : string) :
  List.length (chars s) = String.length s.
Proof. induction s as [|a s IH]; simpl; [reflexivity | now rewrite IH]. Qed.

End MoreReports.

(** X6: what [cite] prints depends on the shape of the [references] of
    the entry: one line per item of a sequence, one line per key of a
    mapping, one line per character of a plain text; a number, a boolean
    or an empty value raises a [TypeError] after the header, which the
    handler does not turn into "cannot find". *)
Theorem X6_citations_follow_the_shape_of_references
    (py_repr : yaml -> string) (data : dict yaml) (name : string)
    (m : list (yaml * yaml)) (refs : yaml) :
  dict_get data name = Some (YMap m) ->
  ymap_get m "references" = Some refs ->
  report_rules py_repr data None (Some name)
  = match refs with
    | YSeq l =>
        (citations_header name :: map (citation_line py_repr) l, Done tt)
    | YStr s =>
        (citations_header name :: map (citation_line py_repr) (chars s),
         Done tt)
    | YMap m' =>
        (citations_header name :: map (citation_line py_repr) (map fst m'),
         Done tt)
    | _ => ([citations_header name], Raised TypeError)
    end
  /\ (forall s, refs = YStr s ->
                List.length (fst (report_rules py_repr data None (Some name)))
                = S (String.length s)).
Proof.
  intros Hd Hr.
  assert (E : report_rules py_repr data None (Some name)
              = match refs with
                | YSeq l =>
                    (citations_header name :: map (citation_line py_repr) l,
                     Done tt)
                | YStr s =>
                    (citations_header name
                     :: map (citation_line py_repr) (chars s), Done tt)
                | YMap m' =>
                    (citations_header name
                     :: map (citation_line py_repr) (map fst m'), Done tt)
                | _ => ([citations_header name], Raised TypeError)
                end).
  { unfold report_rules. simpl describe_entry.
    unfold bind at 1. unfold ret at 1.
    rewrite (cite_entry_found py_repr data name m refs Hd Hr).
    destruct refs; simpl; unfold bind, ret; simpl;
      rewrite ?app_nil_r; reflexivity. }
  split; [exact E|].
  intros s ->. rewrite E. simpl. now rewrite length_map, length_chars.
Qed.

Lemma X6_witness :
  report_rules Mini.simple_repr
    [("alpha", YMap [(YStr "references", YStr "Doe 2020")])]
    None (Some "alpha")
  = (citations_header "alpha"
     :: map (citation_line Mini.simple_repr) (chars "Doe 2020"), Done tt).
Proof.
  exact (proj1 (X6_citations_follow_the_shape_of_references Mini.simple_repr
                  [("alpha", YMap [(YStr "references", YStr "Doe 2020")])]
                  "alpha" [(YStr "references", YStr "Doe 2020")]
                  (YStr "Doe 2020") eq_refl eq_refl)).
Defined.

(** X7: when both [describe] and [cite] are asked of [get_all_rules], a
    description that cannot be found ends the report before the
    citations are looked at; and when it is the citations that cannot be
    found, the description is printed first.  In both cases the error
    line names both identifiers, also the one that was found. *)
Theorem X7_describe_then_cite
    (py_repr : yaml -> string) (data : dict yaml) (a b : string) :
  (not_found (describe_entry py_repr data (Some a)) ->
   report_rules py_repr data (Some a) (Some b)
   = ([description_header a; cannot_find_rule py_repr [a; b]], Done tt))
  /\ (forall m d,
        dict_get data a = Some (YMap m) ->
        ymap_get m "description" = Some d ->
        not_found (cite_entry py_repr data (Some b)) ->
        report_rules py_repr data (Some a) (Some b)
        = ([description_header a;
            ((" - " ++ py_str py_repr d) ++ nl)%string;
            citations_header b;
            cannot_find_rule py_repr [a; b]], Done tt)).
Proof.
  split.
  - intros H. unfold report_rules.
    now rewrite (describe_entry_not_found py_repr data a H).
  - intros m d Hd Hm H. unfold report_rules.
    rewrite describe_entry_eq, Hd. simpl py_getitem. rewrite Hm.
    now rewrite (cite_entry_not_found py_repr data b H).
Qed.

Lemma X7_witness :
  report_rules Mini.simple_repr
    [("alpha", YMap [(YStr "description", YStr "x")])]
    (Some "beta") (Some "alpha")
  = ([description_header "beta";
      cannot_find_rule Mini.simple_repr ["beta"; "alpha"]], Done tt)
  /\ report_rules Mini.simple_repr
       [("alpha", YMap [(YStr "description", YStr "x")])]
       (Some "alpha") (Some "alpha")
     = ([description_header "alpha";
         ((" - " ++ "x") ++ nl)%string;
         citations_header "alpha";
         cannot_find_rule Mini.simple_repr ["alpha"; "alpha"]], Done tt).
Proof.
  destruct (X7_describe_then_cite Mini.simple_repr
              [("alpha", YMap [(YStr "description", YStr "x")])]
              "beta" "alpha") as [D _].
  destruct (X7_describe_then_cite Mini.simple_repr
              [("alpha", YMap [(YStr "description", YStr "x")])]
              "alpha" "alpha") as [_ C].
  split.
  - apply D. reflexivity.
  - apply (C [(YStr "description", YStr "x")] (YStr "x")); reflexivity.
Defined.

Section Listing.

Variable py_repr : yaml -> string.

Lemma list_entries_cons (iv : string * yaml) (rest : dict yaml) :
  list_entries py_repr (iv :: rest)
  = match py_get (snd iv) "description" with
    | Done _ =>
        let (out, r) := list_entries py_repr rest in
        ((entry_lines py_repr iv ++ out)%list, r)
    | Raised e => ([], Raised e)
    end.
Proof.
  unfold list_entries, entry_lines. simpl for_each.
  destruct (py_get (snd iv) "description") as [descr|e]; [|reflexivity].
  unfold lift, bind at 1. simpl.
  destruct (is_None descr); unfold print, bind; simpl;
    now destruct (for_each rest _).
Qed.

Lemma py_get_mapping (v : yaml) (field : string) :
  is_mapping v = true -> exists x, py_get v field = Done x.
Proof.
  destruct v; try discriminate. intros _. simpl.
  destruct (ymap_get m field); now eexists.
Qed.

Lemma py_get_other (v : yaml) (field : string) :
  is_mapping v = false -> py_get v field = Raised AttributeError.
Proof. destruct v; try reflexivity. discriminate. Qed.

Lemma list_entries_mappings (data : dict yaml) :
  forallb (fun iv => is_mapping (snd iv)) data = true ->
  list_entries py_repr data = (flat_map (entry_lines py_repr) data, Done tt).
Proof.
  induction data as [|iv rest IH]; [reflexivity|].
  intros H. simpl in H. apply andb_prop in H as [Hv Hr].
  rewrite list_entries_cons.
  destruct (py_get_mapping (snd iv) "description" Hv) as [x Hx].
  rewrite Hx, (IH Hr). reflexivity.
Qed.

Lemma list_entries_stops (before after : dict yaml) (k : string) (v : yaml) :
  forallb (fun iv => is_mapping (snd iv)) before = true ->
  is_mapping v = false ->
  list_entries py_repr (before ++ (k, v) :: after)
  = (flat_map (entry_lines py_repr) before, Raised AttributeError).
Proof.
  intros Hb Hv. induction before as [|iv rest IH].
  - simpl app. rewrite list_entries_cons. simpl snd.
    now rewrite (py_get_other v "description" Hv).
  - simpl in Hb. apply andb_prop in Hb as [Hi Hr].
    change ((iv :: rest) ++ (k, v) :: after)
      with (iv :: (rest ++ (k, v) :: after)).
    rewrite list_entries_cons.
    destruct (py_get_mapping (snd iv) "description" Hi) as [x Hx].
    rewrite Hx, (IH Hr). reflexivity.
Qed.

End Listing.

(** X8: with neither [describe] nor [cite], the report is the heading and
    then, for every entry in catalogue order, its name in bold and, when
    it has a description that is not empty, the description on a line of
    its own.  This needs every entry to be a mapping: the first entry
    that is not one ends the listing with an [AttributeError], after the
    entries before it have been printed. *)
Theorem X8_listing_prints_every_mapping_entry
    (py_repr : yaml -> string) (schema_path : string -> string)
    (read_lines : string -> option (list string)) :
  (forall data,
      forallb (fun iv => is_mapping (snd iv)) data = true ->
      report_rules py_repr data None None
      = (("Printing available rules:" ++ nl)%string
         :: flat_map (entry_lines py_repr) data, Done tt)
      /\ report_workflows py_repr schema_path read_lines data None None
         = (("Printing available workflows:" ++ nl)%string
            :: flat_map (entry_lines py_repr) data, Done tt))
  /\ (forall before k v after,
        forallb (fun iv => is_mapping (snd iv)) before = true ->
        is_mapping v = false ->
        report_rules py_repr (before ++ (k, v) :: after) None None
        = (("Printing available rules:" ++ nl)%string
           :: flat_map (entry_lines py_repr) before, Raised AttributeError)).
Proof.
  split.
  - intros data H. unfold report_rules, report_workflows.
    simpl describe_entry. simpl cite_entry. simpl config_entry.
    simpl is_str. simpl negb. simpl andb.
    unfold bind, ret, print.
    rewrite (list_entries_mappings py_repr data H). now split.
  - intros before k v after Hb Hv. unfold report_rules.
    simpl describe_entry. simpl cite_entry. simpl is_str. simpl negb.
    simpl andb. unfold bind, ret, print.
    now rewrite (list_entries_stops py_repr before after k v Hb Hv).
Qed.

Lemma X8_witness :
  report_rules Mini.simple_repr
    [("alpha", YMap [(YStr "description", YStr "x")]); ("plain", YMap [])]
    None None
  = (("Printing available rules:" ++ nl)%string
     :: flat_map (entry_lines Mini.simple_repr)
          [("alpha", YMap [(YStr "description", YStr "x")]);
           ("plain", YMap [])], Done tt)
  /\ report_rules Mini.simple_repr
       ([("alpha", YMap [])] ++ ("wordy", YStr "hello") :: [("plain", YMap [])])
       None None
     = (("Printing available rules:" ++ nl)%string
        :: flat_map (entry_lines Mini.simple_repr) [("alpha", YMap [])],
        Raised AttributeError).
Proof.
  destruct (X8_listing_prints_every_mapping_entry Mini.simple_repr
              Mini.under_workflow Mini.no_files) as [A B].
  split.
  - apply A. reflexivity.
  - apply B; reflexivity.
Defined.

Section Config.

Variable schema_path : string -> string.
Variable read_lines : string -> option (list string).

Lemma for_each_print_noend (ls : list string) :
  for_each ls print_noend = (ls, Done tt).
Proof.
  induction ls as [|l ls IH]; [reflexivity|].
  simpl. unfold bind. simpl. now rewrite IH.
Qed.

Lemma config_entry_eq (data : dict yaml) (name : string) :
  config_entry schema_path read_lines data (Some name)
  = match dict_get data name with
    | None => ([], Raised KeyError)
    | Some entry =>
        match py_getitem entry "schema" with
        | Done (YStr p) =>
            match read_lines (schema_path p) with
            | Some ls =>
                (config_header name (schema_path p) :: ls, Done true)
            | None => ([config_header name (schema_path p)], Raised OSError)
            end
        | Done _ => ([], Raised TypeError)
        | Raised e => ([], Raised e)
        end
    end.
Proof.
  unfold config_entry, dict_getitem, config_header.
  destruct (dict_get data name) as [entry|]; simpl; [|reflexivity].
  destruct (py_getitem entry "schema") as [sch|e]; simpl; [|reflexivity].
  destruct sch; simpl; try reflexivity.
  destruct (read_lines (schema_path s)) as [ls|]; simpl; [|reflexivity].
  rewrite for_each_print_noend. simpl. now rewrite app_nil_r.
Qed.

End Config.

(** X9: when the name given to [config] is not in the workflow catalogue,
    or its entry is a mapping without [schema], the report is the "cannot
    find" line alone: unlike [describe], [config] looks the schema up
    before it prints its header. *)
Theorem X9_config_not_found_prints_no_header
    (py_repr : yaml -> string) (schema_path : string -> string)
    (read_lines : string -> option (list string))
    (data : dict yaml) (name : string) :
  dict_get data name = None
  \/ (exists entry, dict_get data name = Some entry
                    /\ is_mapping entry = true
                    /\ has_field entry "schema" = false) ->
  report_workflows py_repr schema_path read_lines data None (Some name)
  = ([cannot_find_workflow py_repr [name]], Done tt).
Proof.
  intros H. unfold report_workflows. simpl describe_entry.
  unfold bind at 1. unfold ret at 1. rewrite config_entry_eq.
  destruct H as [H|(entry & H & Hm & Hf)]; rewrite H; [reflexivity|].
  assert (K : py_getitem entry "schema" = Raised KeyError)
    by (apply py_getitem_key_error; now split).
  rewrite K. reflexivity.
Qed.

Lemma X9_witness :
  report_workflows Mini.simple_repr Mini.under_workflow Mini.no_files
    [("Snakefile", YMap [])] None (Some "BGC")
  = ([cannot_find_workflow Mini.simple_repr ["BGC"]], Done tt)
  /\ report_workflows Mini.simple_repr Mini.under_workflow Mini.no_files
       [("Snakefile", YMap [])] None (Some "Snakefile")
     = ([cannot_find_workflow Mini.simple_repr ["Snakefile"]], Done tt).
Proof.
  split.
  - apply X9_config_not_found_prints_no_header. now left.
  - apply X9_config_not_found_prints_no_header. right.
    exists (YMap []). now repeat split.
Defined.

(** X10: when the entry has a [schema], [config] prints the header with
    the path of the schema file below the workflow directory and then the
    lines of that file as they are, and no listing follows; if the file
    cannot be opened the report ends with the I/O error after the header;
    and a [schema] that is not a text is a [TypeError] before anything is
    printed. *)
Theorem X10_config_streams_the_schema_file
    (py_repr : yaml -> string) (schema_path : string -> string)
    (read_lines : string -> option (list string))
    (data : dict yaml) (name : string) (m : list (yaml * yaml))
    (sch : yaml) :
  dict_get data name = Some (YMap m) ->
  ymap_get m "schema" = Some sch ->
  report_workflows py_repr schema_path read_lines data None (Some name)
  = match sch with
    | YStr p =>
        match read_lines (schema_path p) with
        | Some ls => (config_header name (schema_path p) :: ls, Done tt)
        | None => ([config_header name (schema_path p)], Raised OSError)
        end
    | _ => ([], Raised TypeError)
    end.
Proof.
  intros Hd Hs. unfold report_workflows. simpl describe_entry.
  unfold bind at 1. unfold ret at 1. rewrite config_entry_eq, Hd.
  simpl py_getitem. rewrite Hs.
  destruct sch; try reflexivity.
  destruct (read_lines (schema_path s)) as [ls|]; [|reflexivity].
  simpl. unfold bind, ret. simpl. now rewrite !app_nil_r.
Qed.

Lemma X10_witness :
  report_workflows Mini.simple_repr Mini.under_workflow Mini.no_files
    [("BGC", YMap [(YStr "schema", YStr "schemas/bgc.yaml")])]
    None (Some "BGC")
  = ([config_header "BGC" "workflow/schemas/bgc.yaml"], Raised OSError).
Proof.
  exact (X10_config_streams_the_schema_file Mini.simple_repr
           Mini.under_workflow Mini.no_files
           [("BGC", YMap [(YStr "schema", YStr "schemas/bgc.yaml")])]
           "BGC" [(YStr "schema", YStr "schemas/bgc.yaml")]
           (YStr "schemas/bgc.yaml") eq_refl eq_refl).
Defined.

(** ** The connection loop, lines 63 to 78 *)

Module MoreMonitorProps.
Import Monitor.

Lemma attempt_sleeps_le (r : reply) (ctr : Z) :
  List.length (sleeps (fst (attempt r ctr))) <= 1.
Proof.
  unfold sleeps.
  destruct r as [|body]; simpl; [lia|].
  destruct (py_getitem body "status") as [status|e]; simpl; [|lia].
  destruct status; simpl; try lia.
  destruct (String.eqb s "running"); simpl; lia.
Qed.

Lemma poll_sleeps_le (service : nat -> reply) (tries : list nat) (ctr : Z) :
  List.length (sleeps (fst (poll service tries ctr))) <= List.length tries.
Proof.
  revert ctr. induction tries as [|t rest IH]; intros ctr; simpl;
    [unfold sleeps; simpl; lia|].
  pose proof (attempt_sleeps_le (service t) ctr) as H.
  destruct (attempt (service t) ctr) as [ev [ctr'| |e]]; simpl in *;
    try lia.
  specialize (IH ctr').
  destruct (poll service rest ctr') as [ev' r]; simpl in *.
  rewrite MonitorProps.sleeps_app, length_app. lia.
Qed.

Lemma total_ones (l : list Z) :
  Forall (eq 1%Z) l -> total l = Z.of_nat (List.length l).
Proof.
  induction 1 as [|x l Hx _ IH]; [reflexivity|].
  subst x. change (total (1%Z :: l)) with (1 + total l)%Z.
  rewrite IH. simpl List.length. lia.
Qed.

Lemma attempt_escapes (r : reply) (ctr : Z) :
  answers r = false ->
  exists body e,
    r = Json body /\ py_getitem body "status" = Raised e
    /\ attempt r ctr = ([Get], Escape e).
Proof.
  destruct r as [|body]; simpl; [discriminate|].
  destruct (py_getitem body "status") as [status|e] eqn:E; [discriminate|].
  intros _. exists body, e. now repeat split.
Qed.

Lemma poll_escapes (service : nat -> reply) (before after : list nat)
    (k : nat) (ctr : Z) :
  (forall t, In t before ->
             answers (service t) = true /\ running (service t) = false) ->
  answers (service k) = false ->
  exists body e ev,
    service k = Json body /\ py_getitem body "status" = Raised e
    /\ poll service (before ++ k :: after) ctr = (ev ++ [Get], Raised e)
    /\ attempts ev = List.length before
    /\ sleeps ev = repeat 1%Z (List.length before).
Proof.
  revert ctr. induction before as [|t rest IH]; intros ctr H Hk.
  - destruct (attempt_escapes (service k) ctr Hk) as (body & e & B & P & A).
    exists body, e, []. simpl. rewrite A. now repeat split.
  - destruct (H t (or_introl eq_refl)) as [Ha Hr].
    destruct (MonitorProps.attempt_unsuccessful (service t) ctr Ha Hr)
      as (ev & ctr' & E & A & S & M).
    destruct (IH ctr' (fun t' Ht' => H t' (or_intror Ht')) Hk)
      as (body & e & ev' & B & P & E' & A' & S').
    exists body, e, (ev ++ ev'). simpl. rewrite E, E'.
    rewrite MonitorProps.attempts_app, MonitorProps.sleeps_app, A, A', S, S',
      app_assoc.
    now repeat split.
Qed.

Lemma retries_app (e1 e2 : list event) :
  retries (e1 ++ e2) = retries e1 ++ retries e2.
Proof. unfold retries. apply flat_map_app. Qed.

Lemma poll_retries (service : nat -> reply) (tries : list nat) (ctr : Z) :
  (forall t, In t tries ->
             answers (service t) = true /\ running (service t) = false) ->
  retries (fst (poll service tries ctr))
  = map (fun i => retry_msg (ctr + Z.of_nat i))
      (seq 0 (List.length
                (filter (fun t => is_exception (service t)) tries))).
Proof.
  revert ctr. induction tries as [|t rest IH]; intros ctr H; [reflexivity|].
  destruct (H t (or_introl eq_refl)) as [Ha Hr].
  specialize (fun c => IH c (fun t' Ht' => H t' (or_intror Ht'))).
  destruct (MonitorProps.attempt_unsuccessful (service t) ctr Ha Hr)
    as (ev & ctr' & E & _).
  simpl poll. simpl filter. rewrite E.
  specialize (IH ctr').
  destruct (poll service rest ctr') as [ev' r]. cbn [fst] in *.
  rewrite retries_app, IH.
  destruct (service t) as [|body]; simpl in E.
  - inversion E; subst ev ctr'. simpl is_exception.
    cbn [List.length seq map]. rewrite <- seq_shift, map_map.
    change (retries [Get; Echo ("Retrying to connect: " ++ str_of_int ctr
                                ++ "x"); Sleep 1])
      with [retry_msg ctr].
    simpl app. rewrite Z.add_0_r. f_equal.
    apply map_ext. intros i. f_equal. lia.
  - simpl is_exception.
    destruct (py_getitem body "status") as [status|e]; [|discriminate].
    destruct status; try (inversion E; subst ev ctr'; reflexivity).
    destruct (String.eqb s "running"); [discriminate|].
    inversion E; subst ev ctr'; reflexivity.
Qed.

End MoreMonitorProps.

Lemma poll_sleeps_le_attempts (service : nat -> Monitor.reply)
    (tries : list nat) (ctr : Z) :
  List.length (Monitor.sleeps (fst (Monitor.poll service tries ctr)))
  <= Monitor.attempts (fst (Monitor.poll service tries ctr)).
Proof.
  revert ctr. induction tries as [|t rest IH]; intros ctr; simpl;
    [unfold Monitor.sleeps, Monitor.attempts; simpl; lia|].
  pose proof (MoreMonitorProps.attempt_sleeps_le (service t) ctr) as H.
  destruct (MonitorProps.attempt_shape (service t) ctr) as [A _].
  destruct (Monitor.attempt (service t) ctr) as [ev [ctr'| |e]];
    simpl in *; try lia.
  specialize (IH ctr').
  destruct (Monitor.poll service rest ctr') as [ev' r]; simpl in *.
  rewrite MonitorProps.sleeps_app, MonitorProps.attempts_app, length_app.
  lia.
Qed.

(** X11: whatever the service answers, the loop calls [time.sleep] at
    most once per request, hence at most ten times, and always for one
    second: the time it spends in [time.sleep] adds up to at most ten
    seconds.  (The requests themselves are made without a timeout; the
    time they take is not part of this bound.) *)
Theorem X11_loop_sleeps_at_most_ten_seconds
    (service : nat -> Monitor.reply) :
  Forall (eq 1%Z) (Monitor.sleeps (fst (Monitor.connect service)))
  /\ List.length (Monitor.sleeps (fst (Monitor.connect service)))
     <= Monitor.attempts (fst (Monitor.connect service))
  /\ List.length (Monitor.sleeps (fst (Monitor.connect service))) <= 10
  /\ (total (Monitor.sleeps (fst (Monitor.connect service))) <= 10)%Z.
Proof.
  assert (Hone : Forall (eq 1%Z)
                   (Monitor.sleeps (fst (Monitor.connect service)))).
  { unfold Monitor.connect.
    pose proof (MonitorProps.poll_bounds service (seq 0 10) 1) as [_ H].
    destruct (Monitor.poll service (seq 0 10) 1) as [ev r].
    simpl in *. exact H. }
  assert (L : List.length (Monitor.sleeps (fst (Monitor.connect service)))
              <= 10).
  { unfold Monitor.connect.
    pose proof (MoreMonitorProps.poll_sleeps_le service (seq 0 10) 1) as H.
    destruct (Monitor.poll service (seq 0 10) 1) as [ev r].
    simpl in *. exact H. }
  assert (A : List.length (Monitor.sleeps (fst (Monitor.connect service)))
              <= Monitor.attempts (fst (Monitor.connect service))).
  { unfold Monitor.connect.
    pose proof (poll_sleeps_le_attempts service (seq 0 10) 1) as H.
    destruct (Monitor.poll service (seq 0 10) 1) as [ev r].
    cbn [fst] in *.
    change (Monitor.Echo "Connecting to Panoptes..." :: ev)
      with ([Monitor.Echo "Connecting to Panoptes..."] ++ ev).
    rewrite MonitorProps.sleeps_app, MonitorProps.attempts_app.
    exact H. }
  refine (conj Hone (conj A (conj L _))).
  rewrite (MoreMonitorProps.total_ones _ Hone). lia.
Qed.

(** X12: a reply whose body has no [status] is not retried: the lookup
    error leaves the loop at that request, after one sleep for each
    unsuccessful request before it and none after it. *)
Theorem X12_reply_without_status_ends_the_loop
    (service : nat -> Monitor.reply) (k : nat) :
  k < 10 ->
  (forall t, t < k ->
             Monitor.answers (service t) = true
             /\ Monitor.running (service t) = false) ->
  Monitor.answers (service k) = false ->
  exists body e,
    service k = Monitor.Json body
    /\ py_getitem body "status" = Raised e
    /\ snd (Monitor.connect service) = Raised e
    /\ Monitor.attempts (fst (Monitor.connect service)) = S k
    /\ Monitor.sleeps (fst (Monitor.connect service)) = repeat 1%Z k.
Proof.
  intros Hk Hbefore Hbad. unfold Monitor.connect.
  rewrite (MonitorProps.seq_split k 10 Hk).
  destruct (MoreMonitorProps.poll_escapes service (seq 0 k)
              (seq (S k) (10 - S k)) k 1) as (body & e & ev & B & P & E & A & S).
  - intros t Ht. apply in_seq in Ht. apply Hbefore. lia.
  - exact Hbad.
  - exists body, e. rewrite E. rewrite length_seq in A, S. cbn [fst snd].
    change (Monitor.Echo "Connecting to Panoptes..." :: ev ++ [Monitor.Get])
      with ([Monitor.Echo "Connecting to Panoptes..."]
            ++ ev ++ [Monitor.Get]).
    rewrite !MonitorProps.attempts_app, !MonitorProps.sleeps_app, A, S.
    refine (conj B (conj P (conj eq_refl (conj _ _)))).
    + unfold Monitor.attempts. simpl. lia.
    + simpl. now rewrite app_nil_r.
Qed.

Lemma X12_witness :
  exists body e,
    WrapperSample.no_status 1 = Monitor.Json body
    /\ py_getitem body "status" = Raised e
    /\ snd (Monitor.connect WrapperSample.no_status) = Raised e
    /\ Monitor.attempts (fst (Monitor.connect WrapperSample.no_status)) = 2
    /\ Monitor.sleeps (fst (Monitor.connect WrapperSample.no_status))
       = repeat 1%Z 1.
Proof.
  apply (X12_reply_without_status_ends_the_loop WrapperSample.no_status 1).
  - lia.
  - intros t Ht. assert (t = 0) as -> by lia. split; reflexivity.
  - reflexivity.
Defined.

(** X13: the retry notices are numbered from 1 and count the requests
    that failed with a [RequestException] only: a request that is
    answered with another status than "running" is slept on without a
    notice and without a number. *)
Theorem X13_retry_notices_count_failed_requests
    (service : nat -> Monitor.reply) :
  (forall t, t < 10 ->
             Monitor.answers (service t) = true
             /\ Monitor.running (service t) = false) ->
  retries (fst (Monitor.connect service))
  = "Connecting to Panoptes..."
    :: map (fun i => retry_msg (1 + Z.of_nat i))
         (seq 0 (List.length
                   (filter (fun t => is_exception (service t)) (seq 0 10)))).
Proof.
  intros H. unfold Monitor.connect.
  pose proof (MoreMonitorProps.poll_retries service (seq 0 10) 1) as R.
  destruct (Monitor.poll service (seq 0 10) 1) as [ev r]. cbn [fst] in *.
  change (retries (Monitor.Echo "Connecting to Panoptes..." :: ev))
    with ("Connecting to Panoptes..." :: retries ev).
  rewrite R; [reflexivity|].
  intros t Ht. apply in_seq in Ht. apply H. lia.
Qed.

Lemma X13_witness :
  retries (fst (Monitor.connect Sample.never_up))
  = "Connecting to Panoptes..."
    :: map (fun i => retry_msg (1 + Z.of_nat i)) (seq 0 10).
Proof.
  apply (X13_retry_notices_count_failed_requests Sample.never_up).
  intros t _. split; reflexivity.
Defined.

(** ** [snakemake_wrapper], lines 14 to 148 *)

Module WrapperProps.
Import Wrapper.

Lemma calls_app (e1 e2 : list event) : calls (e1 ++ e2) = calls e1 ++ calls e2.
Proof. apply flat_map_app. Qed.

Lemma kills_app (e1 e2 : list event) : kills (e1 ++ e2) = kills e1 ++ kills e2.
Proof. apply flat_map_app. Qed.

Lemma popens_app (e1 e2 : list event) :
  popens (e1 ++ e2) = popens e1 ++ popens e2.
Proof. apply flat_map_app. Qed.

(** The connection loop starts nothing, runs nothing and stops nothing. *)
Lemma of_monitor_quiet (ev : list Monitor.event) :
  calls (map of_monitor ev) = [] /\ kills (map of_monitor ev) = []
  /\ popens (map of_monitor ev) = [].
Proof.
  induction ev as [|e ev (C & K & P)]; [now repeat split|].
  destruct e; simpl; now repeat split.
Qed.

Lemma check_panoptes_quiet (w : world) (kw : kwargs) (port : Z) :
  calls (fst (check_panoptes w kw port)) = []
  /\ kills (fst (check_panoptes w kw port)) = [].
Proof.
  unfold check_panoptes.
  destruct (first_reply w) as [|body].
  - destruct (spawn w); now split.
  - destruct (py_getitem body "status") as [status|e]; [|now split].
    destruct status; try now split.
    destruct (String.eqb s "running"); now split.
Qed.

(** What the monitoring part starts: Panoptes, on the port parsed, when
    the first request fails and the program can be started. *)
Lemma check_panoptes_popens (w : world) (kw : kwargs) (port : Z) :
  popens (fst (check_panoptes w kw port))
  = match first_reply w, spawn w with
    | Monitor.RequestException, Some _ => [port]
    | _, _ => []
    end.
Proof.
  unfold check_panoptes.
  destruct (first_reply w) as [|body].
  - now destruct (spawn w).
  - destruct (py_getitem body "status") as [status|e]; [|reflexivity].
    destruct status; try reflexivity.
    now destruct (String.eqb s "running").
Qed.

Lemma after_echo (msg : string) (ev : list event) :
  calls (Echo msg :: ev) = calls ev /\ kills (Echo msg :: ev) = kills ev
  /\ popens (Echo msg :: ev) = popens ev.
Proof. now repeat split. Qed.

Lemma monitoring_quiet (w : world) (kw : kwargs) :
  calls (fst (monitoring w kw)) = [] /\ kills (fst (monitoring w kw)) = [].
Proof.
  unfold monitoring. destruct (monitor kw); [|now split].
  destruct (py_int w (after_last ":" (wms_monitor kw))) as [port|];
    [|now split].
  destruct (check_panoptes_quiet w kw port) as [C K].
  destruct (check_panoptes w kw port) as [ev1 [p|f]]; simpl in C, K.
  - destruct (Monitor.connect (service w)) as [ev2 [u|e]];
      destruct (of_monitor_quiet ev2) as (C2 & K2 & _); cbn [fst];
      destruct (after_echo "Monitoring BGCFlow jobs with Panoptes..."
                  (ev1 ++ map of_monitor ev2)) as (-> & -> & _);
      rewrite calls_app, kills_app, C, K, C2, K2; now split.
  - cbn [fst].
    destruct (after_echo "Monitoring BGCFlow jobs with Panoptes..." ev1)
      as (-> & -> & _).
    now split.
Qed.

Lemma monitoring_popens (w : world) (kw : kwargs) (port : Z) :
  monitor kw = true ->
  py_int w (after_last ":" (wms_monitor kw)) = Some port ->
  popens (fst (monitoring w kw))
  = match first_reply w, spawn w with
    | Monitor.RequestException, Some _ => [port]
    | _, _ => []
    end.
Proof.
  intros Hm Hp. unfold monitoring. rewrite Hm, Hp.
  pose proof (check_panoptes_popens w kw port) as P.
  destruct (check_panoptes w kw port) as [ev1 [p|f]]; simpl in P.
  - destruct (Monitor.connect (service w)) as [ev2 [u|e]];
      destruct (of_monitor_quiet ev2) as (_ & _ & P2); cbn [fst];
      destruct (after_echo "Monitoring BGCFlow jobs with Panoptes..."
                  (ev1 ++ map of_monitor ev2)) as (_ & _ & ->);
      now rewrite popens_app, P, P2, app_nil_r.
  - cbn [fst].
    destruct (after_echo "Monitoring BGCFlow jobs with Panoptes..." ev1)
      as (_ & _ & ->).
    exact P.
Qed.

Lemma monitoring_workflow (w : world) (kw : kwargs) (name : string) :
  monitoring w (with_workflow kw name) = monitoring w kw.
Proof. reflexivity. Qed.

Lemma settle_cores_min (w : world) (kw : kwargs) :
  snd (settle_cores w kw) = Z.min (cores kw) (cpu_count w).
Proof.
  unfold settle_cores.
  destruct (cores kw >? cpu_count w)%Z eqn:E; simpl.
  - apply Z.gtb_lt in E. lia.
  - rewrite Z.gtb_ltb in E. apply Z.ltb_ge in E. lia.
Qed.

Lemma settle_cores_quiet (w : world) (kw : kwargs) :
  calls (fst (settle_cores w kw)) = []
  /\ kills (fst (settle_cores w kw)) = []
  /\ popens (fst (settle_cores w kw)) = []
  /\ requests (fst (settle_cores w kw)) = 0.
Proof.
  unfold settle_cores. destruct (cores kw >? cpu_count w)%Z; now repeat split.
Qed.

End WrapperProps.

(** X14: each of the seven workflows can be named with or without the
    [workflow/] prefix: both names select the same Snakefile, and the
    whole run is the same. *)
Theorem X14_short_and_long_workflow_names_agree
    (w : Wrapper.world) (kw : Wrapper.kwargs) (name : string) :
  In name Wrapper.short_names ->
  Wrapper.snakefile_of w (Wrapper.with_workflow kw name)
  = Wrapper.path_join w (Wrapper.bgcflow_dir kw) ("workflow/" ++ name)
  /\ Wrapper.snakemake_wrapper w (Wrapper.with_workflow kw name)
     = Wrapper.snakemake_wrapper w
         (Wrapper.with_workflow kw ("workflow/" ++ name)).
Proof.
  intros H.
  assert (E : Wrapper.snakefile_of w (Wrapper.with_workflow kw name)
              = Wrapper.snakefile_of w
                  (Wrapper.with_workflow kw ("workflow/" ++ name))
              /\ Wrapper.snakefile_of w (Wrapper.with_workflow kw name)
                 = Wrapper.path_join w (Wrapper.bgcflow_dir kw)
                     ("workflow/" ++ name)).
  { simpl in H.
    repeat (destruct H as [<-|H]; [split; reflexivity|]). destruct H. }
  destruct E as [E1 E2]. split; [exact E2|].
  unfold Wrapper.snakemake_wrapper.
  rewrite !WrapperProps.monitoring_workflow, E1. reflexivity.
Qed.

Lemma X14_witness :
  Wrapper.snakemake_wrapper WrapperSample.good_world
    (Wrapper.with_workflow WrapperSample.run_plain "BGC")
  = Wrapper.snakemake_wrapper WrapperSample.good_world
      (Wrapper.with_workflow WrapperSample.run_plain "workflow/BGC").
Proof.
  apply (X14_short_and_long_workflow_names_agree WrapperSample.good_world
           WrapperSample.run_plain "BGC").
  simpl. auto.
Defined.

Module WrapperRuns.
Import Wrapper.

Lemma check_panoptes_go (w : world) (kw : kwargs) (port : Z)
    (ev : list event) (p : option Z) :
  check_panoptes w kw port = (ev, Go p) ->
  (p = None /\ exists body, first_reply w = Monitor.Json body)
  \/ (exists pid, p = Some pid /\ spawn w = Some pid
                  /\ first_reply w = Monitor.RequestException).
Proof.
  unfold check_panoptes. destruct (first_reply w) as [|body].
  - destruct (spawn w) as [pid|]; intros H; inversion H; subst.
    right. now exists pid.
  - intros H. left.
    destruct (py_getitem body "status") as [status|e]; [|discriminate].
    destruct status; try discriminate.
    destruct (String.eqb s "running"); [|discriminate].
    inversion H. split; [reflexivity | now exists body].
Qed.

(** When the monitoring part goes through, it has started Panoptes
    exactly when it hands a process on. *)
Lemma monitoring_go (w : world) (kw : kwargs) (ev : list event)
    (p : option Z) :
  monitoring w kw = (ev, Go p) ->
  List.length (popens ev) = List.length (kills (stop_panoptes p))
  /\ (monitor kw = false -> ev = [] /\ p = None).
Proof.
  intros H. split.
  - destruct (monitor kw) eqn:Hm.
    + destruct (py_int w (after_last ":" (wms_monitor kw))) as [port|] eqn:Hp.
      * pose proof (WrapperProps.monitoring_popens w kw port Hm Hp) as P.
        rewrite H in P. cbn [fst] in P. rewrite P.
        unfold monitoring in H. rewrite Hm, Hp in H.
        destruct (check_panoptes w kw port) as [ev1 [p1|f]] eqn:C;
          [|discriminate].
        assert (p1 = p) as ->
          by (destruct (Monitor.connect (service w)) as [ev2 [u|e]];
              now inversion H).
        destruct (check_panoptes_go w kw port ev1 p C)
          as [(-> & body & ->)|(pid & -> & -> & ->)]; reflexivity.
      * unfold monitoring in H. rewrite Hm, Hp in H. discriminate.
    + unfold monitoring in H. rewrite Hm in H. now inversion H.
  - intros Hm. unfold monitoring in H. rewrite Hm in H. now inversion H.
Qed.

End WrapperRuns.

(** X15: when the wrapper fails, whether because the Snakefile does not
    exist or earlier, it has run no Snakemake command and has stopped no
    process.  In particular a Panoptes server that it started itself,
    because the first request failed, is left running. *)
Theorem X15_failure_runs_nothing_and_stops_nothing
    (w : Wrapper.world) (kw : Wrapper.kwargs) :
  (Wrapper.is_file w (Wrapper.snakefile_of w kw) = false ->
   exists f, snd (Wrapper.snakemake_wrapper w kw) = Wrapper.Failed f)
  /\ (forall f,
        snd (Wrapper.snakemake_wrapper w kw) = Wrapper.Failed f ->
        Wrapper.calls (fst (Wrapper.snakemake_wrapper w kw)) = []
        /\ Wrapper.kills (fst (Wrapper.snakemake_wrapper w kw)) = [])
  /\ (forall port pid f,
        Wrapper.monitor kw = true ->
        Wrapper.py_int w (after_last ":" (Wrapper.wms_monitor kw))
        = Some port ->
        Wrapper.first_reply w = Monitor.RequestException ->
        Wrapper.spawn w = Some pid ->
        snd (Wrapper.snakemake_wrapper w kw) = Wrapper.Failed f ->
        Wrapper.popens (fst (Wrapper.snakemake_wrapper w kw)) = [port]
        /\ Wrapper.kills (fst (Wrapper.snakemake_wrapper w kw)) = []).
Proof.
  assert (F : forall f,
             snd (Wrapper.snakemake_wrapper w kw) = Wrapper.Failed f ->
             fst (Wrapper.snakemake_wrapper w kw)
             = fst (Wrapper.monitoring w kw)).
  { intros f. unfold Wrapper.snakemake_wrapper.
    destruct (Wrapper.monitoring w kw) as [ev [p|f0]]; [|reflexivity].
    destruct (Wrapper.is_file w (Wrapper.snakefile_of w kw));
      [|reflexivity].
    destruct (Wrapper.settle_cores w kw). discriminate. }
  destruct (WrapperProps.monitoring_quiet w kw) as [C K].
  refine (conj _ (conj _ _)).
  - intros H. unfold Wrapper.snakemake_wrapper.
    destruct (Wrapper.monitoring w kw) as [ev [p|f0]]; [|now eexists].
    rewrite H. now eexists.
  - intros f H. rewrite (F f H). now split.
  - intros port pid f Hm Hp Hr Hs H. rewrite (F f H).
    rewrite (WrapperProps.monitoring_popens w kw port Hm Hp), Hr, Hs.
    now split.
Qed.

Lemma X15_witness :
  (exists f,
      snd (Wrapper.snakemake_wrapper WrapperSample.no_file_world
             WrapperSample.run_monitored) = Wrapper.Failed f)
  /\ Wrapper.popens
       (fst (Wrapper.snakemake_wrapper WrapperSample.no_file_world
               WrapperSample.run_monitored)) = [5000%Z]
  /\ Wrapper.kills
       (fst (Wrapper.snakemake_wrapper WrapperSample.no_file_world
               WrapperSample.run_monitored)) = [].
Proof.
  destruct (X15_failure_runs_nothing_and_stops_nothing
              WrapperSample.no_file_world WrapperSample.run_monitored)
    as (A & _ & L).
  split; [apply A; reflexivity|].
  apply (L 5000%Z 4242%Z
           (Wrapper.AssertionError
              (Wrapper.no_snakefile "./workflow/Snakefile")));
    reflexivity.
Defined.

(** X16: when the wrapper ends well, the Snakefile exists and Snakemake
    has been run exactly once, as the last thing but the stopping of
    Panoptes, with the smaller of the number of cores asked for and the
    number of cores of the machine; and Panoptes is stopped exactly when
    this run has started it.  Without [monitor] no request is made and
    nothing is started or stopped. *)
Theorem X16_success_runs_snakemake_once
    (w : Wrapper.world) (kw : Wrapper.kwargs) :
  snd (Wrapper.snakemake_wrapper w kw) = Wrapper.Ok ->
  let command :=
    Wrapper.snakemake_command kw (Wrapper.snakefile_of w kw)
      (Z.min (Wrapper.cores kw) (Wrapper.cpu_count w)) in
  Wrapper.is_file w (Wrapper.snakefile_of w kw) = true
  /\ (exists before p,
        fst (Wrapper.snakemake_wrapper w kw)
        = before
          ++ [Wrapper.Echo ("Running Snakemake with command:" ++ nl
                            ++ command);
              Wrapper.Call command]
          ++ Wrapper.stop_panoptes p
        /\ Wrapper.calls before = [] /\ Wrapper.kills before = []
        /\ List.length (Wrapper.popens before)
           = List.length (Wrapper.kills (Wrapper.stop_panoptes p)))
  /\ Wrapper.calls (fst (Wrapper.snakemake_wrapper w kw)) = [command]
  /\ (Wrapper.monitor kw = false ->
      Wrapper.requests (fst (Wrapper.snakemake_wrapper w kw)) = 0
      /\ Wrapper.popens (fst (Wrapper.snakemake_wrapper w kw)) = []
      /\ Wrapper.kills (fst (Wrapper.snakemake_wrapper w kw)) = []).
Proof.
  intros H command. unfold Wrapper.snakemake_wrapper in *.
  destruct (WrapperProps.monitoring_quiet w kw) as [C K].
  destruct (Wrapper.monitoring w kw) as [ev [p|f0]] eqn:M; [|discriminate].
  destruct (WrapperRuns.monitoring_go w kw ev p M) as [L Hoff].
  cbn [fst] in C, K.
  destruct (Wrapper.is_file w (Wrapper.snakefile_of w kw)); [|discriminate].
  pose proof (WrapperProps.settle_cores_min w kw) as Hmin.
  destruct (WrapperProps.settle_cores_quiet w kw) as (Cn & Kn & Pn & Rn).
  destruct (Wrapper.settle_cores w kw) as [notices n].
  cbn [fst snd] in *. subst n. fold command.
  assert (Kp : Wrapper.calls (Wrapper.stop_panoptes p) = [])
    by now destruct p.
  refine (conj eq_refl (conj _ (conj _ _))).
  - exists (ev ++ notices), p. rewrite <- app_assoc.
    rewrite WrapperProps.calls_app, WrapperProps.kills_app,
      WrapperProps.popens_app, C, K, Cn, Kn, Pn, !app_nil_r.
    refine (conj eq_refl (conj eq_refl (conj eq_refl L))).
  - rewrite !WrapperProps.calls_app, C, Cn, Kp. reflexivity.
  - intros Hm. destruct (Hoff Hm) as [-> ->].
    cbn [app Wrapper.stop_panoptes]. unfold Wrapper.requests.
    rewrite filter_app, length_app.
    fold (Wrapper.requests notices). rewrite Rn.
    rewrite WrapperProps.popens_app, WrapperProps.kills_app, Pn, Kn.
    now repeat split.
Qed.

Lemma X16_witness :
  Wrapper.calls
    (fst (Wrapper.snakemake_wrapper WrapperSample.good_world
            WrapperSample.run_monitored))
  = [Wrapper.snakemake_command WrapperSample.run_monitored
       (Wrapper.snakefile_of WrapperSample.good_world
          WrapperSample.run_monitored)
       (Z.min 32 8)]
  /\ Wrapper.is_file WrapperSample.good_world
       (Wrapper.snakefile_of WrapperSample.good_world
          WrapperSample.run_monitored) = true.
Proof.
  pose proof (X16_success_runs_snakemake_once WrapperSample.good_world
                WrapperSample.run_monitored eq_refl) as H.
  cbv zeta in H. destruct H as (F & _ & C & _).
  split; [exact C | exact F].
Defined.

(** X17: with [monitor], the address of the service must end in a port
    number, or the wrapper fails with a [ValueError] before any request.
    A service that answers the first request with another status than
    "running" makes the wrapper fail on its assertion at once, without
    starting Panoptes, waiting or running Snakemake; one that answers
    "running" is used as it is: the wrapper starts no Panoptes and stops
    none. *)
Theorem X17_first_request_decides_about_panoptes
    (w : Wrapper.world) (kw : Wrapper.kwargs) :
  Wrapper.monitor kw = true ->
  (Wrapper.py_int w (after_last ":" (Wrapper.wms_monitor kw)) = None ->
   Wrapper.snakemake_wrapper w kw
   = ([Wrapper.Echo "Monitoring BGCFlow jobs with Panoptes..."],
      Wrapper.Failed Wrapper.ValueError))
  /\ (forall port body status,
        Wrapper.py_int w (after_last ":" (Wrapper.wms_monitor kw))
        = Some port ->
        Wrapper.first_reply w = Monitor.Json body ->
        py_getitem body "status" = Done status ->
        status <> YStr "running" ->
        Wrapper.snakemake_wrapper w kw
        = ([Wrapper.Echo "Monitoring BGCFlow jobs with Panoptes...";
            Wrapper.Get],
           Wrapper.Failed (Wrapper.AssertionError EmptyString)))
  /\ (forall port body,
        Wrapper.py_int w (after_last ":" (Wrapper.wms_monitor kw))
        = Some port ->
        Wrapper.first_reply w = Monitor.Json body ->
        py_getitem body "status" = Done (YStr "running") ->
        Wrapper.popens (fst (Wrapper.snakemake_wrapper w kw)) = []
        /\ Wrapper.kills (fst (Wrapper.snakemake_wrapper w kw)) = []).
Proof.
  intros Hm. refine (conj _ (conj _ _)).
  - intros Hp. unfold Wrapper.snakemake_wrapper, Wrapper.monitoring.
    now rewrite Hm, Hp.
  - intros port body status Hp Hr Hs Hne.
    unfold Wrapper.snakemake_wrapper, Wrapper.monitoring,
      Wrapper.check_panoptes.
    rewrite Hm, Hp, Hr, Hs.
    destruct status; try reflexivity.
    destruct (String.eqb s "running") eqn:E; [|reflexivity].
    apply String.eqb_eq in E. subst s. now contradiction Hne.
  - intros port body Hp Hr Hs.
    pose proof (WrapperProps.monitoring_popens w kw port Hm Hp) as P.
    rewrite Hr in P.
    destruct (WrapperProps.monitoring_quiet w kw) as [C K].
    unfold Wrapper.snakemake_wrapper.
    destruct (Wrapper.monitoring w kw) as [ev [p|f0]] eqn:M;
      cbn [fst] in P, C, K; [|now split].
    destruct (WrapperRuns.monitoring_go w kw ev p M) as [L _].
    rewrite P in L.
    destruct p as [pid|]; [discriminate L|].
    destruct (Wrapper.is_file w (Wrapper.snakefile_of w kw)); [|now split].
    destruct (WrapperProps.settle_cores_quiet w kw) as (_ & Kn & Pn & _).
    destruct (Wrapper.settle_cores w kw) as [notices n].
    cbn [fst snd app Wrapper.stop_panoptes] in *.
    rewrite !WrapperProps.popens_app, !WrapperProps.kills_app, P, K, Pn, Kn.
    now split.
Qed.

Lemma X17_witness :
  Wrapper.snakemake_wrapper
    (Wrapper.mk_world WrapperSample.decimal
       (Monitor.Json (YMap [(YStr "status", YStr "starting")]))
       Sample.never_up (Some 4242%Z) WrapperSample.joined
       (fun _ => true) 8%Z)
    WrapperSample.run_monitored
  = ([Wrapper.Echo "Monitoring BGCFlow jobs with Panoptes...";
      Wrapper.Get],
     Wrapper.Failed (Wrapper.AssertionError EmptyString)).
Proof.
  destruct (X17_first_request_decides_about_panoptes
              (Wrapper.mk_world WrapperSample.decimal
                 (Monitor.Json (YMap [(YStr "status", YStr "starting")]))
                 Sample.never_up (Some 4242%Z) WrapperSample.joined
                 (fun _ => true) 8%Z)
              WrapperSample.run_monitored eq_refl) as (_ & A & _).
  apply (A 5000%Z (YMap [(YStr "status", YStr "starting")])
           (YStr "starting")); try reflexivity.
  discriminate.
Defined.

(** ** Rule files without documentation *)

Section Undocumented.

Variable safe_load : string -> option yaml.

Lemma dict_set_all_empty (d : dict yaml) (k : string) :
  all_empty d -> all_empty (dict_set d k (YMap [])).
Proof.
  unfold all_empty. induction d as [|[k' v'] d IH]; intros H; simpl.
  - now repeat constructor.
  - inversion H as [|x l Hx Hl]; subst.
    destruct (String.eqb k' k); constructor; auto.
Qed.

Lemma gather_undocumented (files : list rule_file) (d : dict yaml) :
  forallb undocumented files = true -> all_empty d ->
  exists d',
    gather d (flat_map (rule_contribution safe_load) files) = Done d'
    /\ all_empty d'
    /\ keys d' = first_seen (keys d)
                   (map (fun f => rule_name_of (rel f)) files).
Proof.
  revert d. induction files as [|f rest IH]; intros d H Hd.
  - exists d. now repeat split.
  - simpl in H. apply andb_prop in H as [Hf Hr].
    apply Nat.eqb_eq in Hf.
    assert (B : block_of safe_load (rule_lines f) = Done (YMap [])).
    { unfold block_of.
      now rewrite extract_eq, (captured_zero_markers _ Hf). }
    destruct (IH (dict_set d (rule_name_of (rel f)) (YMap [])) Hr
                (dict_set_all_empty d _ Hd)) as (d' & G & E & K).
    exists d'. refine (conj _ (conj E _)).
    + change (flat_map (rule_contribution safe_load) (f :: rest))
        with ((rule_name_of (rel f), block_of safe_load (rule_lines f))
              :: flat_map (rule_contribution safe_load) rest).
      simpl gather. now rewrite B.
    + rewrite K, keys_dict_set. simpl.
      now destruct (existsb (String.eqb (rule_name_of (rel f))) (keys d)).
Qed.

Lemma all_empty_lines (py_repr : yaml -> string) (d : dict yaml) :
  all_empty d ->
  flat_map (entry_lines py_repr) d = map name_line (keys d)
  /\ forallb (fun iv => is_mapping (snd iv)) d = true.
Proof.
  unfold all_empty. induction 1 as [|[k v] d Hv _ [IH1 IH2]];
    [now split|].
  simpl in Hv. subst v. simpl. rewrite IH2. split; [|reflexivity].
  unfold keys in IH1. now rewrite IH1.
Qed.

End Undocumented.

Lemma undocumented_listing
    (safe_load : string -> option yaml) (py_repr : yaml -> string)
    (files : list rule_file) :
  forallb undocumented files = true ->
  get_all_rules safe_load py_repr (Some files) None None
  = (("Printing available rules:" ++ nl)%string
     :: map name_line
          (first_seen [] (map (fun f => rule_name_of (rel f)) files)),
     Done tt).
Proof.
  intros H.
  destruct (gather_undocumented safe_load files [] H (Forall_nil _))
    as (d & G & E & K).
  destruct (all_empty_lines py_repr d E) as [L M].
  unfold get_all_rules. rewrite scan_rules_gather, G.
  unfold lift, bind at 1.
  unfold report_rules. simpl describe_entry. simpl cite_entry.
  simpl is_str. simpl negb. simpl andb. unfold bind, ret, print.
  rewrite (list_entries_mappings py_repr d M), L, K. reflexivity.
Qed.

Lemma found_undocumented_texts (files : list found_file) :
  forallb found_undocumented files = true ->
  forallb readable files = true
  /\ forallb undocumented (texts files) = true.
Proof.
  induction files as [|f rest IH]; intros H; [now split|].
  simpl in H. apply andb_prop in H as [Hf Hr].
  destruct (IH Hr) as [R U].
  unfold found_undocumented in Hf. unfold readable, texts in *. simpl.
  destruct (found_reading f) as [lines|why]; [|discriminate].
  simpl. unfold undocumented at 1. simpl. now rewrite Hf, R, U.
Qed.

Lemma undocumented_not_malformed (safe_load : string -> option yaml)
    (files : list rule_file) :
  forallb undocumented files = true ->
  existsb (fun g => malformed safe_load (rule_lines g)) files = false.
Proof.
  induction files as [|f rest IH]; intros H; [reflexivity|].
  simpl in H. apply andb_prop in H as [Hf Hr]. simpl.
  rewrite (IH Hr), orb_false_r.
  apply Nat.eqb_eq in Hf. unfold malformed.
  now rewrite extract_eq, (captured_zero_markers _ Hf).
Qed.

Lemma get_all_rules_found_readable
    (safe_load : string -> option yaml) (py_repr : yaml -> string)
    (files : list found_file) (describe cite : option string) :
  forallb readable files = true ->
  get_all_rules_found safe_load py_repr (Some files) describe cite
  = (fst (get_all_rules safe_load py_repr (Some (texts files)) describe cite),
     of_outcome
       (snd (get_all_rules safe_load py_repr (Some (texts files))
               describe cite))).
Proof.
  intros H. unfold get_all_rules_found, get_all_rules.
  rewrite (scan_found_readable safe_load files H).
  destruct (scan_rules safe_load (texts files)) as [d|e]; simpl;
    [|reflexivity].
  now destruct (report_rules py_repr d describe cite).
Qed.

(** X18: a rules directory in which every entry can be read as text and
    none has a marker line is listed without the YAML parser ever being
    called: the report is the heading and the name of every rule in
    bold, each once, in the order in which the scan first met it, and
    nothing is raised.  If an entry cannot be read, a directory whose
    name ends in [.smk] for one, nothing is printed at all, whatever was
    asked for: the error of reading it ends [get_all_rules]. *)
Theorem X18_undocumented_rules_are_listed_by_name
    (safe_load : string -> option yaml) (py_repr : yaml -> string) :
  (forall files,
      forallb found_undocumented files = true ->
      get_all_rules_found safe_load py_repr (Some files) None None
      = (("Printing available rules:" ++ nl)%string
         :: map name_line
              (first_seen []
                 (map (fun f => rule_name_of (found_rel f)) files)),
         Scanned tt))
  /\ (forall before f after why describe cite,
        forallb found_undocumented before = true ->
        found_reading f = NoText why ->
        get_all_rules_found safe_load py_repr
          (Some (before ++ f :: after)) describe cite
        = ([], ReadFailed why)).
Proof.
  split.
  - intros files H. destruct (found_undocumented_texts files H) as [R U].
    rewrite (get_all_rules_found_readable safe_load py_repr files None None R).
    rewrite (undocumented_listing safe_load py_repr (texts files) U).
    now rewrite (texts_names files R).
  - intros before f after why describe cite H Hf.
    destruct (found_undocumented_texts before H) as [R U].
    unfold get_all_rules_found.
    now rewrite (scan_found_unreadable safe_load before after f why R
                   (undocumented_not_malformed safe_load _ U) Hf).
Qed.

Lemma X18_witness :
  get_all_rules_found Mini.mini_load Mini.simple_repr
    (Some [mk_found_file ["plain.smk"] (Text (rule_lines Sample.plain));
           mk_found_file ["sub"; "other.smk"] (Text [])]) None None
  = (("Printing available rules:" ++ nl)%string
     :: map name_line ["plain"; "sub/other"], Scanned tt)
  /\ get_all_rules_found Mini.mini_load Mini.simple_repr
       (Some ([mk_found_file ["plain.smk"] (Text (rule_lines Sample.plain))]
              ++ mk_found_file ["old.smk"] (NoText IsADirectoryError)
              :: [])) None None
     = ([], ReadFailed IsADirectoryError).
Proof.
  destruct (X18_undocumented_rules_are_listed_by_name Mini.mini_load
              Mini.simple_repr) as [A B].
  split.
  - apply (A [mk_found_file ["plain.smk"] (Text (rule_lines Sample.plain));
              mk_found_file ["sub"; "other.smk"] (Text [])]).
    reflexivity.
  - apply B; reflexivity.
Defined.
